(** * cf-shortlink worker: link allocation, resolution and rate limiting

    A shallow embedding of [src/worker.js].  The worker is a single
    [handle] function that talks to two external stores: the KV namespace
    [LINKS] (durable, optional per-key expiry) and the Cache API
    ([caches.default], used for the rate-limit counters).  Both stores, the
    wall clock and the entropy source live in an explicit [World]; every
    [await]/effectful call of the source is a step of a small state and
    exception monad over that world.

    Modelling conventions.
    - A JavaScript string is a Rocq [string]: a sequence of code units, here
      restricted to the range 0..255.  [s.length] is [String.length].
    - JavaScript numbers that the code keeps integral (counters, seconds,
      status codes) are [Z]; the loss of precision of doubles beyond 2^53
      is not modelled.
    - [x || d] on a possibly-undefined string is [or_default]; truthiness of
      a [string | null] value is [truthy].
    - Platform built-ins whose definition is not in the repository
      (SHA-1, the WHATWG URL parser, [atob], [TextDecoder],
      [encodeURIComponent]) are fields of a [Platform] record, which also
      carries the one law of the URL Standard that is relied on: the
      serialization of an http or https URL parses again, to a URL of the
      same scheme.
    - The two stores answer reads from their latest write (no replication
      delay, no eviction before expiry); requests run one after the other.
      A call on the KV binding may reject, as planned by [kv_fault]. *)

From Stdlib Require Import ZArith String Ascii List Lia Bool.
From Stdlib Require Strings.Byte.
From Stdlib Require Import Decimal DecimalString DecimalPos DecimalN.
From stdpp Require Import base option gmap strings.

Local Open Scope string_scope.
Local Open Scope Z_scope.

(* ===================================================================== *)
(** ** JavaScript values and string helpers *)
(* ===================================================================== *)

Module Js.

(** [v || d] for an optional string: [undefined], [null] and [""] are falsy. *)
Definition or_default (v : option string) (d : string) : string :=
  match v with
  | Some s => if String.eqb s "" then d else s
  | None => d
  end.

(** Truthiness of a [string | null] value. *)
Definition truthy (v : option string) : bool :=
  match v with
  | Some s => negb (String.eqb s "")
  | None => false
  end.

(** White space as removed by [String.prototype.trim], for code units up to
    255: TAB, LF, VT, FF, CR, SPACE and NBSP. *)
Definition is_space (c : ascii) : bool :=
  let n := nat_of_ascii c in
  ((9 <=? n) && (n <=? 13) || (n =? 32) || (n =? 160))%nat.

Fixpoint trim_start (s : string) : string :=
  match s with
  | String c s' => if is_space c then trim_start s' else s
  | EmptyString => EmptyString
  end.

(** Removes trailing white space: a character is dropped when it is a space
    and everything after it was dropped as well. *)
Fixpoint trim_end (s : string) : string :=
  match s with
  | String c s' =>
      match trim_end s' with
      | EmptyString => if is_space c then EmptyString else String c EmptyString
      | t => String c t
      end
  | EmptyString => EmptyString
  end.

Definition trim (s : string) : string := trim_end (trim_start s).

(** [s.replace(/a/g, b)] for single characters. *)
Fixpoint replace_char (a b : ascii) (s : string) : string :=
  match s with
  | String c s' => String (if Ascii.eqb c a then b else c) (replace_char a b s')
  | EmptyString => EmptyString
  end.

(** [s.replace(/\/+$/, "")]: drops the trailing run of slashes. *)
Fixpoint strip_trailing_slashes (s : string) : string :=
  match s with
  | String c s' =>
      match strip_trailing_slashes s' with
      | EmptyString => if Ascii.eqb c "/" then EmptyString else String c EmptyString
      | t => String c t
      end
  | EmptyString => EmptyString
  end.

(** [s.split(",")[0]]: the part before the first comma. *)
Fixpoint before_comma (s : string) : string :=
  match s with
  | String c s' => if Ascii.eqb c "," then EmptyString else String c (before_comma s')
  | EmptyString => EmptyString
  end.

(** [s.split(",")] *)
Fixpoint split_comma_aux (cur : string) (s : string) : list string :=
  match s with
  | String c s' =>
      if Ascii.eqb c ","
      then cur :: split_comma_aux EmptyString s'
      else split_comma_aux (cur ++ String c EmptyString) s'
  | EmptyString => [cur]
  end.

Definition split_comma (s : string) : list string := split_comma_aux EmptyString s.

(** [s.toLowerCase()] on the ASCII letters. *)
Definition lower_char (c : ascii) : ascii :=
  let n := nat_of_ascii c in
  if ((65 <=? n) && (n <=? 90))%nat then ascii_of_nat (n + 32) else c.

Fixpoint toLowerCase (s : string) : string :=
  match s with
  | String c s' => String (lower_char c) (toLowerCase s')
  | EmptyString => EmptyString
  end.

(** Decimal digit value of a character. *)
Definition digit_of_ascii (c : ascii) : option Z :=
  let n := nat_of_ascii c in
  if ((48 <=? n) && (n <=? 57))%nat then Some (Z.of_nat n - 48) else None.

(** The digit-reading loop of [parseInt(s, 10)]: reads the longest prefix of
    decimal digits; [acc] is [None] until a digit has been seen. *)
Fixpoint parse_digits (s : string) (acc : option Z) : option Z :=
  match s with
  | String c s' =>
      match digit_of_ascii c with
      | Some d => parse_digits s' (Some (10 * default 0 acc + d))
      | None => acc
      end
  | EmptyString => acc
  end.

(** [parseInt(s, 10)]: skips leading white space, reads an optional sign
    and the longest run of digits; [None] stands for [NaN]. *)
Definition parseInt (s : string) : option Z :=
  match trim_start s with
  | String "-" s' => Z.opp <$> parse_digits s' None
  | String "+" s' => parse_digits s' None
  | s' => parse_digits s' None
  end.

(** [s.length] *)
Definition length (s : string) : Z := Z.of_nat (String.length s).

(** [n || d] for a number: [NaN] and [0] are falsy. *)
Definition num_or (n : option Z) (d : Z) : Z :=
  match n with
  | Some v => if v =? 0 then d else v
  | None => d
  end.

(** [String(n)] for an integral number. *)
Definition String_of (n : Z) : string := NilZero.string_of_int (Z.to_int n).

End Js.

(* ===================================================================== *)
(** ** The world: KV namespace, Cache API, clock and entropy *)
(* ===================================================================== *)

(** One key of the KV namespace.  [kv_expiration] is the absolute time (in
    seconds) after which the key is gone; [None] for a key written without
    [expirationTtl]. *)
Record KvEntry := { kv_value : string; kv_expiration : option Z }.

(** One response held by [caches.default]: its body, the time (seconds) at
    which it was stored and the [max-age] of its [cache-control] header. *)
Record CacheEntry := { ce_body : string; ce_stored : Z; ce_max_age : Z }.

(** Calls made on the KV binding, as a store mock would record them. *)
Inductive KvCall :=
| KvGet (key : string)
| KvPut (key value : string) (expirationTtl : option Z).

Inductive CacheCall :=
| CacheMatch (key : string)
| CachePut (key body : string) (maxAge : Z).

(** [kv_fault n = true] makes the [n]-th call on the KV binding (counted
    from 0) reject instead of answering.  [kv_calls] and [cache_calls] list
    the calls made so far, latest first. *)
Record World := {
  kv : gmap string KvEntry;
  cache : gmap string CacheEntry;
  clock_ms : Z;
  entropy : nat -> Byte.byte;
  entropy_pos : nat;
  kv_fault : nat -> bool;
  kv_calls : list KvCall;
  cache_calls : list CacheCall;
}.

Definition with_kv (m : gmap string KvEntry) (w : World) : World :=
  {| kv := m; cache := cache w; clock_ms := clock_ms w; entropy := entropy w;
     entropy_pos := entropy_pos w; kv_fault := kv_fault w;
     kv_calls := kv_calls w; cache_calls := cache_calls w |}.

Definition with_cache (m : gmap string CacheEntry) (w : World) : World :=
  {| kv := kv w; cache := m; clock_ms := clock_ms w; entropy := entropy w;
     entropy_pos := entropy_pos w; kv_fault := kv_fault w;
     kv_calls := kv_calls w; cache_calls := cache_calls w |}.

Definition with_entropy_pos (p : nat) (w : World) : World :=
  {| kv := kv w; cache := cache w; clock_ms := clock_ms w; entropy := entropy w;
     entropy_pos := p; kv_fault := kv_fault w;
     kv_calls := kv_calls w; cache_calls := cache_calls w |}.

Definition log_kv (c : KvCall) (w : World) : World :=
  {| kv := kv w; cache := cache w; clock_ms := clock_ms w; entropy := entropy w;
     entropy_pos := entropy_pos w; kv_fault := kv_fault w;
     kv_calls := c :: kv_calls w; cache_calls := cache_calls w |}.

Definition log_cache (c : CacheCall) (w : World) : World :=
  {| kv := kv w; cache := cache w; clock_ms := clock_ms w; entropy := entropy w;
     entropy_pos := entropy_pos w; kv_fault := kv_fault w;
     kv_calls := kv_calls w; cache_calls := c :: cache_calls w |}.

(** Time passing between two requests. *)
Definition advance_ms (d : Z) (w : World) : World :=
  {| kv := kv w; cache := cache w; clock_ms := clock_ms w + d; entropy := entropy w;
     entropy_pos := entropy_pos w; kv_fault := kv_fault w;
     kv_calls := kv_calls w; cache_calls := cache_calls w |}.

(** [Math.floor(Date.now() / 1000)] *)
Definition now_sec (w : World) : Z := clock_ms w / 1000.

(** What a read of key [k] answers at the world's time: the value, unless
    the key is missing or past its expiration. *)
Definition kv_read (w : World) (k : string) : option string :=
  match kv w !! k with
  | Some e =>
      match kv_expiration e with
      | Some t => if t <=? now_sec w then None else Some (kv_value e)
      | None => Some (kv_value e)
      end
  | None => None
  end.

(** What [cache.match] finds: the body, while the entry is younger than its
    [max-age]. *)
Definition cache_read (w : World) (k : string) : option string :=
  match cache w !! k with
  | Some e => if now_sec w <? ce_stored e + ce_max_age e then Some (ce_body e) else None
  | None => None
  end.

(* ===================================================================== *)
(** ** The monad of the handler: state passing with exceptions *)
(* ===================================================================== *)

Inductive Exn :=
| KvError (call : KvCall)
| TypeError
| QuotaExceededError.

Inductive Outcome (A : Type) :=
| Returned (a : A)
| Thrown (e : Exn).
Arguments Returned {A} a.
Arguments Thrown {A} e.

Definition M (A : Type) : Type := World -> Outcome A * World.

#[global] Instance M_ret : MRet M := fun A a w => (Returned a, w).

#[global] Instance M_bind : MBind M := fun A B f m w =>
  match m w with
  | (Returned a, w') => f a w'
  | (Thrown e, w') => (Thrown e, w')
  end.

(** The KV binding.  Every call is recorded; a faulted call rejects and
    leaves the namespace as it was. *)
Module LINKS.

Definition get (key : string) : M (option string) := fun w =>
  let w' := log_kv (KvGet key) w in
  if kv_fault w (length (kv_calls w))
  then (Thrown (KvError (KvGet key)), w')
  else (Returned (kv_read w key), w').

Definition put (key value : string) (expirationTtl : option Z) : M unit := fun w =>
  let w' := log_kv (KvPut key value expirationTtl) w in
  if kv_fault w (length (kv_calls w))
  then (Thrown (KvError (KvPut key value expirationTtl)), w')
  else
    let e := {| kv_value := value;
                kv_expiration := (fun ttl => now_sec w + ttl) <$> expirationTtl |} in
    (Returned tt, with_kv (<[key := e]> (kv w)) w').

End LINKS.

(** [caches.default] *)
Module Cache.

Definition match_ (key : string) : M (option string) := fun w =>
  (Returned (cache_read w key), log_cache (CacheMatch key) w).

Definition put (key body : string) (maxAge : Z) : M unit := fun w =>
  let e := {| ce_body := body; ce_stored := now_sec w; ce_max_age := maxAge |} in
  (Returned tt, with_cache (<[key := e]> (cache w)) (log_cache (CachePut key body maxAge) w)).

End Cache.

(** [Date.now()] *)
Definition Date_now : M Z := fun w => (Returned (clock_ms w), w).

(** [crypto.getRandomValues(new Uint8Array(len))]: the next [len] bytes of
    the entropy stream.  The Web Crypto API fills at most 65536 bytes in
    one call and throws a [QuotaExceededError] for a longer array, before
    any byte is drawn.  (For a length that the engine cannot allocate the
    constructor of the array throws first; the two are not told apart
    here.) *)
Definition getRandomValues (len : nat) : M (list Byte.byte) := fun w =>
  if 65536 <? Z.of_nat len then (Thrown QuotaExceededError, w)
  else
    (Returned (map (entropy w) (seq (entropy_pos w) len)),
     with_entropy_pos (entropy_pos w + len)%nat w).

(* ===================================================================== *)
(** ** Code generator *)
(* ===================================================================== *)

Definition chars : string :=
  "ABCDEFGHJKLMNPQRSTUVWXYZabcdefghijkmnopqrstuvwxyz23456789".

(** [s[i]] appended to a string: the character, or the text [undefined]
    when [i] is out of range. *)
Definition char_at (s : string) (i : nat) : string :=
  match String.get i s with
  | Some c => String c EmptyString
  | None => "undefined"
  end.

(** [for (i = 0; i < len; i++) out += chars[bytes[i] % chars.length]] *)
Fixpoint genCode_loop (bytes : list Byte.byte) (out : string) : string :=
  match bytes with
  | b :: bs =>
      genCode_loop bs
        (out ++ char_at chars (N.to_nat (Byte.to_N b) mod String.length chars)%nat)
  | [] => out
  end.

Definition genCode (len : nat) : M string :=
  bytes ← getRandomValues len;
  mret (genCode_loop bytes "").

(* ===================================================================== *)
(** ** Environment, requests and responses *)
(* ===================================================================== *)

(** The bindings and variables read from [globalThis].  [LINKS] tells
    whether the KV namespace is bound. *)
Record Env := {
  LINKS : bool;
  BASE_URL : option string;
  CORS_MODE : option string;
  CORS_ORIGINS : option string;
  RL_WINDOW_SEC : option string;
  RL_MAX_REQ : option string;
  DEDUP_TTL_SEC : option string;
}.

(** What [fd.get("longUrl")] can be besides [null]. *)
Inductive FormValue :=
| FormString (s : string)
| FormFile.

(** The parts of a request the worker looks at.  [req_protocol], [req_host]
    and [req_pathname] are those of [new URL(req.url)]; [req_form] is
    [None] when [req.formData()] rejects and otherwise the value of the
    field [longUrl]. *)
Record Request := {
  req_method : string;
  req_protocol : string;
  req_host : string;
  req_pathname : string;
  hdr_cf_connecting_ip : option string;
  hdr_x_forwarded_for : option string;
  hdr_origin : option string;
  hdr_access_control_request_headers : option string;
  req_form : option (option FormValue);
}.

(** The objects passed to [json]: [{Code: 0, Message}] and
    [{Code: 1, ShortUrl}]. *)
Inductive ApiObj :=
| ApiError (Message : string)
| ApiOk (ShortUrl : string).

Definition Code (o : ApiObj) : Z :=
  match o with ApiError _ => 0 | ApiOk _ => 1 end.

Inductive Body :=
| BodyNull
| BodyText (s : string)
| BodyJson (o : ApiObj).

Record Response := {
  status : Z;
  headers : list (string * string);
  body : Body;
}.

(** [headers[k] = v] and [headers.set(k, v)]: replaces the value of an
    existing name, appends a new one. *)
Fixpoint headers_set (k v : string) (h : list (string * string)) : list (string * string) :=
  match h with
  | (k', v') :: h' => if String.eqb k' k then (k, v) :: h' else (k', v') :: headers_set k v h'
  | [] => [(k, v)]
  end.

Definition set_header (k v : string) (r : Response) : Response :=
  {| status := status r; headers := headers_set k v (headers r); body := body r |}.

Definition json (obj : ApiObj) (st : Z) (extraHeaders : list (string * string)) : Response :=
  {| status := st;
     headers := fold_left (fun h kv => headers_set kv.1 kv.2 h) extraHeaders
                  [("content-type", "application/json; charset=utf-8")];
     body := BodyJson obj |}.

Definition text (msg : string) (st : Z) (extraHeaders : list (string * string)) : Response :=
  {| status := st;
     headers := fold_left (fun h kv => headers_set kv.1 kv.2 h) extraHeaders
                  [("content-type", "text/plain; charset=utf-8")];
     body := BodyText msg |}.

(* ---------------------------------------------------------------------- *)
(** *** CORS *)

Definition corsMode (env : Env) : string :=
  Js.toLowerCase (Js.or_default (CORS_MODE env) "open").

Definition getCorsAllowlist (env : Env) : list string :=
  let raw := Js.trim (Js.or_default (CORS_ORIGINS env) "") in
  if String.eqb raw "" then []
  else filter (fun s => s ≠ "") (map Js.trim (Js.split_comma raw)).

Definition cors_common (req : Request) (resp : Response) : Response :=
  let resp := set_header "Access-Control-Allow-Credentials" "false" resp in
  let resp := set_header "Access-Control-Allow-Methods" "POST, OPTIONS" resp in
  let reqHdr := hdr_access_control_request_headers req in
  let resp := set_header "Access-Control-Allow-Headers"
                (Js.or_default reqHdr "Content-Type") resp in
  set_header "Access-Control-Max-Age" "86400" resp.

Definition withCors (req : Request) (resp : Response) (env : Env) : Response :=
  let mode := corsMode env in
  if String.eqb mode "off" then resp
  else if String.eqb mode "open" then
    cors_common req (set_header "Access-Control-Allow-Origin" "*" resp)
  else
    let origin := Js.or_default (hdr_origin req) "" in
    let allow := getCorsAllowlist env in
    if String.eqb origin "" || negb (bool_decide (origin ∈ allow)) then resp
    else
      cors_common req
        (set_header "Vary" "Origin" (set_header "Access-Control-Allow-Origin" origin resp)).

(* ===================================================================== *)
(** ** The worker, over a platform *)
(* ===================================================================== *)

(** What the worker uses of a parsed URL: [x.protocol], and the
    serialization [x.href] that [Response.redirect] writes into
    [Location]. *)
Record URL := {
  url_protocol : string;
  url_href : string;
}.

(** Built-ins of the runtime that the worker calls and the repository does
    not define. *)
Record Platform := {
  (** [crypto.subtle.digest("SHA-1", new TextEncoder().encode(s))] *)
  sha1_digest : string -> list Byte.byte;
  (** The URL parser behind [new URL(u)] and [Response.redirect(u)],
      [None] when it fails (both then throw a [TypeError]) *)
  URL_parse : string -> option URL;
  (** The serialization of an http or https URL parses again, to a URL of
      the same scheme (in the URL Standard, serializing then parsing gives
      the same URL back). *)
  URL_href_scheme : forall u x,
    URL_parse u = Some x ->
    url_protocol x = "http:" \/ url_protocol x = "https:" ->
    url_protocol <$> URL_parse (url_href x) = Some (url_protocol x);
  (** [atob(s)], [None] when it throws *)
  atob : string -> option string;
  (** [new TextDecoder().decode(bytes)] of the bytes of a binary string *)
  utf8_decode : string -> string;
  encodeURIComponent : string -> string;
}.

(** [new URL(u).protocol], [None] when the constructor throws. *)
Definition URL_protocol (pf : Platform) (u : string) : option string :=
  url_protocol <$> URL_parse pf u.

Section Worker.

Variable pf : Platform.

(** The landing page template (the rest of the file): a pure function of
    the environment, whose text plays no role here. *)
Variable landingHtml : Env -> string.

(* ---------------------------------------------------------------------- *)
(** *** Helpers *)

(** [while (s.length % 4) s += "="]: at most three rounds. *)
Fixpoint pad4 (rounds : nat) (s : string) : string :=
  if (String.length s mod 4 =? 0)%nat then s
  else match rounds with
       | S r => pad4 r (s ++ "=")
       | O => s
       end.

(** [None] when [atob] throws. *)
Definition base64ToUtf8 (b64 : string) : option string :=
  let s := Js.trim b64 in
  let s := Js.replace_char "_" "/" (Js.replace_char "-" "+" s) in
  let s := pad4 3 s in
  bin ← atob pf s;
  Some (utf8_decode pf bin).

Definition isHttpUrl (u : string) : bool :=
  match URL_protocol pf u with
  | Some p => String.eqb p "http:" || String.eqb p "https:"
  | None => false
  end.

Definition getClientIp (req : Request) : string :=
  let cf := Js.or_default (hdr_cf_connecting_ip req) "" in
  if negb (String.eqb cf "") then cf
  else
    let fwd := Js.trim (Js.before_comma (Js.or_default (hdr_x_forwarded_for req) "")) in
    if negb (String.eqb fwd "") then fwd else "0.0.0.0".

(* ---------------------------------------------------------------------- *)
(** *** Rate limiting on the Cache API *)

Record RateLimit := { ok : bool; remaining : Z; resetIn : Z }.

Definition windowSec (env : Env) : Z :=
  Z.max 10 (Js.num_or (Js.parseInt (Js.or_default (RL_WINDOW_SEC env) "60")) 60).

Definition maxReq (env : Env) : Z :=
  Z.max 1 (Js.num_or (Js.parseInt (Js.or_default (RL_MAX_REQ env) "10")) 10).

Definition rl_bucket (env : Env) (now : Z) : Z := now / windowSec env.

Definition rl_key (env : Env) (now : Z) (ip : string) : string :=
  "https://ratelimit.local/short/" ++ Js.String_of (rl_bucket env now) ++ "/"
    ++ encodeURIComponent pf ip.

Definition rateLimit (req : Request) (env : Env) : M RateLimit :=
  let ip := getClientIp req in
  ms ← Date_now;
  let now := ms / 1000 in
  let bucket := rl_bucket env now in
  let cacheKey := rl_key env now ip in
  cached ← Cache.match_ cacheKey;
  let count := match cached with
               | Some t => Js.num_or (Js.parseInt t) 0
               | None => 0
               end in
  let resetIn := (bucket + 1) * windowSec env - now in
  if maxReq env <=? count then
    mret {| ok := false; remaining := 0; resetIn := resetIn |}
  else
    let count := count + 1 in
    let ttl := Z.max 1 resetIn in
    _ ← Cache.put cacheKey (Js.String_of count) ttl;
    mret {| ok := true; remaining := maxReq env - count; resetIn := resetIn |}.

(* ---------------------------------------------------------------------- *)
(** *** Optional de-duplication of long URLs *)

Definition hex_digit (n : N) : ascii :=
  match String.get (N.to_nat n) "0123456789abcdef" with
  | Some c => c
  | None => "0"%char
  end.

(** [b.toString(16).padStart(2, "0")] *)
Definition hex2 (b : Byte.byte) : string :=
  let n := Byte.to_N b in
  String (hex_digit (n / 16)%N) (String (hex_digit (n mod 16)%N) EmptyString).

Definition sha1Hex (input : string) : string :=
  fold_left (fun hex b => hex ++ hex2 b) (sha1_digest pf input) "".

Definition dedupTtl (env : Env) : Z :=
  Js.num_or (Js.parseInt (Js.or_default (DEDUP_TTL_SEC env) "0")) 0.

Definition dedupKey (longUrl : string) : string := "D:" ++ sha1Hex longUrl.

Definition getDedupCode (env : Env) (longUrl : string) : M (option string) :=
  let ttl := dedupTtl env in
  if ttl <=? 0 then mret None
  else LINKS.get (dedupKey longUrl).

Definition putDedupCode (env : Env) (longUrl code : string) : M unit :=
  let ttl := dedupTtl env in
  if ttl <=? 0 then mret tt
  else LINKS.put (dedupKey longUrl) code (Some ttl).

(* ---------------------------------------------------------------------- *)
(** *** Main logic *)

(** [Response.redirect(url, 302)]: parses [url], throws a [TypeError]
    when it is not a URL, and puts the serialization of the parsed URL (not
    the text given) in [Location]. *)
Definition Response_redirect (url : string) (st : Z) : M Response := fun w =>
  match URL_parse pf url with
  | Some x =>
      (Returned {| status := st; headers := [("location", url_href x)];
                   body := BodyNull |}, w)
  | None => (Thrown TypeError, w)
  end.

(** The allocation loop, [for (let i = 0; i < 6; i++)], with [tries] rounds
    left: the first generated code that [LINKS.get] does not find. *)
Fixpoint allocLoop (tries : nat) : M (option string) :=
  match tries with
  | S tries' =>
      c ← genCode 7;
      exists_ ← LINKS.get c;
      if negb (Js.truthy exists_) then mret (Some c) else allocLoop tries'
  | O => mret None
  end.

(** Allocation of a new code (the block under [if (!code)]): the loop,
    then the write of the Link and of the optional DedupEntry.  [None] when
    no code could be allocated. *)
Definition allocateNew (env : Env) (longUrl : string) : M (option string) :=
  code ← allocLoop 6;
  if negb (Js.truthy code) then mret None
  else
    let code := default "" code in
    _ ← LINKS.put code longUrl None;
    _ ← putDedupCode env longUrl code;
    mret (Some code).

(** The link allocator: de-duplication lookup with its dangling-entry
    check, then, without a trusted code, the allocation of a new one. *)
Definition allocate (env : Env) (longUrl : string) : M (option string) :=
  code ← getDedupCode env longUrl;
  code ← (if Js.truthy code then
            exists_ ← LINKS.get (default "" code);
            mret (if negb (Js.truthy exists_) then None else code)
          else mret code);
  if negb (Js.truthy code) then allocateNew env longUrl
  else mret code.

Definition rl_headers (rl : RateLimit) : list (string * string) :=
  [("x-rl-reset-in", Js.String_of (resetIn rl));
   ("x-rl-remaining", Js.String_of (remaining rl))].

(** [POST /short] *)
Definition createShort (req : Request) (env : Env) : M Response :=
  if negb (LINKS env) then
    mret (withCors req (json (ApiError "KV binding LINKS not found") 500 []) env)
  else
    rl ← rateLimit req env;
    if negb (ok rl) then
      mret (withCors req
              (json (ApiError "Rate limited. Please try again later.") 429 (rl_headers rl)) env)
    else
      match req_form req with
      | None => mret (withCors req (json (ApiError "Invalid form-data") 400 []) env)
      | Some fd =>
          match fd with
          | Some (FormString longUrlB64) =>
              if String.eqb (Js.trim longUrlB64) "" then
                mret (withCors req (json (ApiError "Missing longUrl") 400 []) env)
              else if 8192 <? Js.length longUrlB64 then
                mret (withCors req (json (ApiError "longUrl too large") 413 []) env)
              else
                match base64ToUtf8 longUrlB64 with
                | None =>
                    mret (withCors req (json (ApiError "Invalid base64 longUrl") 400 []) env)
                | Some longUrl =>
                    if 8192 <? Js.length longUrl then
                      mret (withCors req (json (ApiError "Decoded URL too large") 413 []) env)
                    else if negb (isHttpUrl longUrl) then
                      mret (withCors req
                              (json (ApiError "Decoded longUrl is not a valid http/https URL")
                                 400 []) env)
                    else
                      code ← allocate env longUrl;
                      match code with
                      | None =>
                          mret (withCors req
                                  (json (ApiError "Failed to allocate code") 500 []) env)
                      | Some code =>
                          let base :=
                            Js.strip_trailing_slashes
                              (Js.or_default (BASE_URL env)
                                 (req_protocol req ++ "//" ++ req_host req)) in
                          let shortUrl := base ++ "/" ++ code in
                          mret (withCors req (json (ApiOk shortUrl) 200 (rl_headers rl)) env)
                      end
                end
          | _ => mret (withCors req (json (ApiError "Missing longUrl") 400 []) env)
          end
      end.

(** The character class [[A-Za-z0-9_-]]. *)
Definition is_code_char (c : ascii) : bool :=
  let n := nat_of_ascii c in
  ((65 <=? n) && (n <=? 90) || (97 <=? n) && (n <=? 122) || (48 <=? n) && (n <=? 57)
   || (n =? 95) || (n =? 45))%nat.

Fixpoint all_chars (p : ascii -> bool) (s : string) : bool :=
  match s with
  | String c s' => p c && all_chars p s'
  | EmptyString => true
  end.

(** [path.match(/^\/([A-Za-z0-9_-]{3,64})$/)]: the captured group. *)
Definition match_code_path (path : string) : option string :=
  match path with
  | String "/" code =>
      if ((3 <=? String.length code) && (String.length code <=? 64))%nat
         && all_chars is_code_char code
      then Some code else None
  | _ => None
  end.

(** [GET/HEAD /:code], and the final 404. *)
Definition resolve (req : Request) (env : Env) : M Response :=
  match match_code_path (req_pathname req) with
  | Some code =>
      if String.eqb (req_method req) "GET" || String.eqb (req_method req) "HEAD" then
        if negb (LINKS env) then mret (text "KV binding LINKS not found" 500 [])
        else
          longUrl ← LINKS.get code;
          if negb (Js.truthy longUrl) then mret (text "Not Found" 404 [])
          else Response_redirect (default "" longUrl) 302
      else mret (text "Not Found" 404 [])
  | None => mret (text "Not Found" 404 [])
  end.

Definition handle (req : Request) (env : Env) : M Response :=
  let path := req_pathname req in
  if String.eqb path "/healthz" then mret (text "ok" 200 [])
  else if String.eqb path "/short" && String.eqb (req_method req) "OPTIONS" then
    mret (withCors req {| status := 204; headers := []; body := BodyNull |} env)
  else if String.eqb path "/short" && String.eqb (req_method req) "POST" then
    createShort req env
  else if String.eqb path "/" && String.eqb (req_method req) "GET" then
    mret {| status := 200;
            headers := [("content-type", "text/html; charset=utf-8")];
            body := BodyText (landingHtml env) |}
  else resolve req env.

End Worker.

(* ===================================================================== *)
(** ** Vocabulary of the properties *)
(* ===================================================================== *)

(** Value of a decimal numeral read left to right from accumulator [acc]. *)
Fixpoint uint_val (d : uint) (acc : Z) : Z :=
  match d with
  | Nil => acc
  | D0 d => uint_val d (10 * acc + 0)
  | D1 d => uint_val d (10 * acc + 1)
  | D2 d => uint_val d (10 * acc + 2)
  | D3 d => uint_val d (10 * acc + 3)
  | D4 d => uint_val d (10 * acc + 4)
  | D5 d => uint_val d (10 * acc + 5)
  | D6 d => uint_val d (10 * acc + 6)
  | D7 d => uint_val d (10 * acc + 7)
  | D8 d => uint_val d (10 * acc + 8)
  | D9 d => uint_val d (10 * acc + 9)
  end.

(** Membership in the generator's alphabet. *)
Definition in_chars (c : ascii) : bool :=
  existsb (Ascii.eqb c) (list_ascii_of_string chars).

(** The 62 case-sensitive letters and digits. *)
Definition is_alnum (c : ascii) : bool :=
  existsb (Ascii.eqb c)
    (list_ascii_of_string
       "ABCDEFGHIJKLMNOPQRSTUVWXYZabcdefghijklmnopqrstuvwxyz0123456789").

(** The visually ambiguous characters [0], [O], [1], [l], [I]. *)
Definition is_ambiguous (c : ascii) : bool :=
  existsb (Ascii.eqb c) (list_ascii_of_string "0O1lI").

(** A token as the generator makes them for the allocator. *)
Definition is_token (t : string) : Prop :=
  String.length t = 7%nat /\ all_chars in_chars t = true.

(** The [i]-th code the generator will produce from world [w], when asked
    for codes of length 7 one after the other. *)
Definition candidate (w : World) (i : nat) : string :=
  genCode_loop (map (entropy w) (seq (entropy_pos w + 7 * i) 7)) "".

(** The characters a token on the resolution path may contain. *)
Definition token_charset : string :=
  "ABCDEFGHIJKLMNOPQRSTUVWXYZabcdefghijklmnopqrstuvwxyz0123456789_-".

(** A token that fails shape validation: too short, too long, or with a
    character outside letters, digits, underscore and hyphen. *)
Definition malformed (token : string) : Prop :=
  (String.length token < 3)%nat \/ (64 < String.length token)%nat \/
  exists c, In c (list_ascii_of_string token) /\
            ~ In c (list_ascii_of_string token_charset).

Definition is_get (c : KvCall) : bool :=
  match c with KvGet _ => true | KvPut _ _ _ => false end.

(** Number of Link writes among some calls: a Link is put without
    [expirationTtl], a DedupEntry with one. *)
Fixpoint link_puts (calls : list KvCall) : nat :=
  match calls with
  | KvPut _ _ None :: cs => S (link_puts cs)
  | _ :: cs => link_puts cs
  | [] => O
  end.

(** The Link written for a long URL: the URL itself, without expiry. *)
Definition link_entry (longUrl : string) : KvEntry :=
  {| kv_value := longUrl; kv_expiration := None |}.

(** The DedupEntry recorded at time [now] for a code. *)
Definition dedup_entry (code : string) (now ttl : Z) : KvEntry :=
  {| kv_value := code; kv_expiration := Some (now + ttl) |}.

(** What two worlds share when only the KV namespace was used in between. *)
Record kv_frame (w w' : World) : Prop := {
  frame_cache : cache w' = cache w;
  frame_clock : clock_ms w' = clock_ms w;
  frame_entropy : entropy w' = entropy w;
  frame_fault : kv_fault w' = kv_fault w;
  frame_cache_calls : cache_calls w' = cache_calls w;
}.

(** Keys of DedupEntries start with [D:]. *)
Definition is_dedup_key (k : string) : bool :=
  match k with
  | String "D" (String ":" _) => true
  | _ => false
  end.

Section Vocabulary.

Variable pf : Platform.

(** The token the de-duplication step of the allocator trusts in world
    [w]: the recorded one, when de-duplication is on, the record is
    readable and non-empty, and the Link it names is readable too. *)
Definition dedup_live (env : Env) (w : World) (longUrl : string) : option string :=
  if dedupTtl env <=? 0 then None
  else
    match kv_read w (dedupKey pf longUrl) with
    | Some t => if Js.truthy (Some t) && Js.truthy (kv_read w t) then Some t else None
    | None => None
    end.

(** The runs of [allocate env longUrl] from world [w]: the outcome, the
    calls made on the KV binding (latest first) and the namespace left
    behind. *)
Inductive AllocRun (env : Env) (longUrl : string) (w : World) :
  Outcome (option string) -> list KvCall -> gmap string KvEntry -> Prop :=
| run_hit t gets :
    dedup_live env w longUrl = Some t ->
    Forall (fun c => is_get c = true) gets ->
    AllocRun env longUrl w (Returned (Some t)) gets (kv w)
| run_exhausted gets :
    dedup_live env w longUrl = None ->
    Forall (fun c => is_get c = true) gets ->
    (forall i, (i < 6)%nat -> Js.truthy (kv_read w (candidate w i)) = true) ->
    AllocRun env longUrl w (Returned None) gets (kv w)
| run_created i gets :
    let c := candidate w i in
    dedup_live env w longUrl = None ->
    Forall (fun c => is_get c = true) gets ->
    (i < 6)%nat ->
    Js.truthy (kv_read w c) = false ->
    (forall j, (j < i)%nat -> Js.truthy (kv_read w (candidate w j)) = true) ->
    dedupTtl env <= 0 ->
    AllocRun env longUrl w (Returned (Some c))
      (KvPut c longUrl None :: gets)
      (<[c := link_entry longUrl]> (kv w))
| run_created_recorded i gets :
    let c := candidate w i in
    let ttl := dedupTtl env in
    dedup_live env w longUrl = None ->
    Forall (fun c => is_get c = true) gets ->
    (i < 6)%nat ->
    Js.truthy (kv_read w c) = false ->
    (forall j, (j < i)%nat -> Js.truthy (kv_read w (candidate w j)) = true) ->
    0 < ttl ->
    kv_fault w (S (length (gets ++ kv_calls w))) = false ->
    AllocRun env longUrl w (Returned (Some c))
      (KvPut (dedupKey pf longUrl) c (Some ttl) :: KvPut c longUrl None :: gets)
      (<[dedupKey pf longUrl := dedup_entry c (now_sec w) ttl]>
         (<[c := link_entry longUrl]> (kv w)))
| run_get_failed k gets :
    Forall (fun c => is_get c = true) gets ->
    kv_fault w (length (gets ++ kv_calls w)) = true ->
    AllocRun env longUrl w (Thrown (KvError (KvGet k))) (KvGet k :: gets) (kv w)
| run_link_put_failed c gets :
    Forall (fun c => is_get c = true) gets ->
    kv_fault w (length (gets ++ kv_calls w)) = true ->
    AllocRun env longUrl w (Thrown (KvError (KvPut c longUrl None)))
      (KvPut c longUrl None :: gets) (kv w)
| run_record_failed i gets :
    let c := candidate w i in
    let ttl := dedupTtl env in
    dedup_live env w longUrl = None ->
    Forall (fun c => is_get c = true) gets ->
    (i < 6)%nat ->
    Js.truthy (kv_read w c) = false ->
    (forall j, (j < i)%nat -> Js.truthy (kv_read w (candidate w j)) = true) ->
    0 < ttl ->
    kv_fault w (S (length (gets ++ kv_calls w))) = true ->
    AllocRun env longUrl w
      (Thrown (KvError (KvPut (dedupKey pf longUrl) c (Some ttl))))
      (KvPut (dedupKey pf longUrl) c (Some ttl) :: KvPut c longUrl None :: gets)
      (<[c := link_entry longUrl]> (kv w)).

(** The long URL a creation request carries, when it passes every check of
    the handler: a non-blank string field of at most 8192 characters that
    decodes to at most 8192 characters forming an http or https URL. *)
Definition validated_longUrl (req : Request) : option string :=
  match req_form req with
  | Some (Some (FormString b64)) =>
      if String.eqb (Js.trim b64) "" then None
      else if 8192 <? Js.length b64 then None
      else
        match base64ToUtf8 pf b64 with
        | Some u =>
            if 8192 <? Js.length u then None
            else if isHttpUrl pf u then Some u
            else None
        | None => None
        end
  | _ => None
  end.

(** The count the rate limiter reads for a client at the world's time. *)
Definition rl_count (env : Env) (w : World) (ip : string) : Z :=
  match cache_read w (rl_key pf env (now_sec w) ip) with
  | Some t => Js.num_or (Js.parseInt t) 0
  | None => 0
  end.

(** The state in which the namespace is when only the worker has written
    to it: Links never expire and hold a non-empty URL; every DedupEntry
    names a token whose Link exists and holds a URL with the entry's
    hash. *)
Definition StoreInv (w : World) : Prop :=
  (forall k e, kv w !! k = Some e -> is_dedup_key k = false ->
     kv_expiration e = None /\ kv_value e <> "") /\
  (forall k e, kv w !! k = Some e -> is_dedup_key k = true ->
     is_token (kv_value e) /\
     exists v, kv w !! kv_value e = Some (link_entry v) /\ dedupKey pf v = k).


End Vocabulary.

(** The KV binding answers every call. *)
Definition kv_reliable (w : World) : Prop := forall n, kv_fault w n = false.


Section RequestVocabulary.

Variable pf : Platform.

(** The rate limiter lets the request in: the count it reads for the
    client is below the maximum. *)
Definition within_limit (req : Request) (env : Env) (w : World) : Prop :=
  rl_count pf env w (getClientIp req) < maxReq env.

(** A creation request: [POST /short]. *)
Definition is_create (req : Request) : Prop :=
  req_pathname req = "/short" /\ req_method req = "POST".

(** The response of the handler to a creation request whose long URL
    [longUrl] passed validation, from the outcome of the allocator. *)
Definition create_outcome (req : Request) (env : Env) (rl : RateLimit)
    (r : Outcome (option string)) : Outcome Response :=
  match r with
  | Returned (Some code) =>
      let base :=
        Js.strip_trailing_slashes
          (Js.or_default (BASE_URL env) (req_protocol req ++ "//" ++ req_host req)) in
      Returned (withCors req (json (ApiOk (base ++ "/" ++ code)) 200 (rl_headers rl)) env)
  | Returned None =>
      Returned (withCors req (json (ApiError "Failed to allocate code") 500 []) env)
  | Thrown e => Thrown e
  end.

End RequestVocabulary.

(** Two worlds in which the KV binding, the clock and the generator are in
    the same state. *)
Record same_kv_view (w w1 : World) : Prop := {
  view_kv : kv w1 = kv w;
  view_clock : clock_ms w1 = clock_ms w;
  view_entropy : entropy w1 = entropy w;
  view_entropy_pos : entropy_pos w1 = entropy_pos w;
  view_fault : kv_fault w1 = kv_fault w;
  view_calls : kv_calls w1 = kv_calls w;
}.

(** The decision of the rate limiter: [allowed] and [remaining]. *)
Definition decision (s : Outcome RateLimit * World) : option (bool * Z) :=
  match s.1 with
  | Returned rl => Some (ok rl, remaining rl)
  | Thrown _ => None
  end.

(** Status and body of the response of a run, if it ends with one. *)
Definition answer (s : Outcome Response * World) : option (Z * Body) :=
  match s.1 with
  | Returned resp => Some (status resp, body resp)
  | Thrown _ => None
  end.

(** Unfolds the local definitions that a case analysis on a run leaves in
    the context. *)
Ltac subst_lets := repeat match goal with x := _ |- _ => subst x end.

(* ===================================================================== *)
(** ** A reference platform and sample data *)
(* ===================================================================== *)

(** Concrete stand-ins for the built-ins, used to run the worker on sample
    requests.  The theorems below hold for every [Platform]; nothing in
    them depends on these choices. *)
Module Sample.

Definition b64_alphabet : string :=
  "ABCDEFGHIJKLMNOPQRSTUVWXYZabcdefghijklmnopqrstuvwxyz0123456789+/".

Fixpoint index_of (c : ascii) (s : string) (i : N) : option N :=
  match s with
  | String a s' => if Ascii.eqb a c then Some i else index_of c s' (i + 1)%N
  | EmptyString => None
  end.

Fixpoint b64_values (s : string) : option (list N) :=
  match s with
  | String c s' =>
      v ← index_of c b64_alphabet 0;
      vs ← b64_values s';
      Some (v :: vs)
  | EmptyString => Some []
  end.

Definition chr (n : N) : ascii := ascii_of_N (n mod 256).

(** Groups of four 6-bit values make three bytes; a final group of three
    makes two, of two makes one. *)
Fixpoint b64_bytes (vs : list N) : string :=
  match vs with
  | a :: b :: c :: d :: r =>
      String (chr (a * 4 + b / 16)) (String (chr (b * 16 + c / 4))
        (String (chr (c * 64 + d)) (b64_bytes r)))
  | [a; b; c] =>
      String (chr (a * 4 + b / 16)) (String (chr (b * 16 + c / 4)) EmptyString)
  | [a; b] => String (chr (a * 4 + b / 16)) EmptyString
  | _ => EmptyString
  end%N.

Fixpoint drop_spaces (s : string) : string :=
  match s with
  | String c s' =>
      if Ascii.is_space c then drop_spaces s' else String c (drop_spaces s')
  | EmptyString => EmptyString
  end.

(** Drops one trailing ['=']. *)
Fixpoint drop_pad (s : string) : string :=
  match s with
  | String "=" EmptyString => EmptyString
  | String c s' => String c (drop_pad s')
  | EmptyString => EmptyString
  end.

(** [atob]: forgiving base64 decoding. *)
Definition decode_base64 (s : string) : option string :=
  let s := drop_spaces s in
  let s := if (String.length s mod 4 =? 0)%nat then drop_pad (drop_pad s) else s in
  if (String.length s mod 4 =? 1)%nat then None
  else b64_bytes <$> b64_values s.

(** The text after a prefix. *)
Fixpoint after_prefix (p u : string) : option string :=
  match p with
  | String a p' =>
      match u with
      | String b u' => if Ascii.eqb a b then after_prefix p' u' else None
      | EmptyString => None
      end
  | EmptyString => Some u
  end.

(** Host and path as the URL serializer writes them: an empty path becomes
    [/]. *)
Fixpoint with_root_path (s : string) : string :=
  match s with
  | String c s' =>
      if Ascii.eqb c "/" then s
      else if Ascii.eqb c "?" || Ascii.eqb c "#" then String "/" s
      else String c (with_root_path s')
  | EmptyString => "/"
  end.

(** A URL [<scheme>//<rest>] with a non-empty rest. *)
Definition parse_with (scheme u : string) : option URL :=
  match after_prefix (scheme ++ "//") u with
  | Some (String c rest) =>
      Some {| url_protocol := scheme;
              url_href := scheme ++ "//" ++ with_root_path (String c rest) |}
  | _ => None
  end.

(** A stand-in for the URL parser, for the absolute URLs used in the
    samples: https, http and ftp URLs with a host. *)
Definition parse (u : string) : option URL :=
  match parse_with "https:" u with
  | Some x => Some x
  | None =>
      match parse_with "http:" u with
      | Some x => Some x
      | None => parse_with "ftp:" u
      end
  end.

(** A stand-in for the SHA-1 digest: the first twenty bytes of the text. *)
Definition digest (s : string) : list Byte.byte :=
  take 20 (list_byte_of_string s).

Program Definition platform : Platform :=
  {| sha1_digest := digest;
     URL_parse := parse;
     atob := decode_base64;
     utf8_decode := fun s => s;
     encodeURIComponent := fun s => s |}.
Next Obligation.
  intros u x H Hp.
  unfold parse in H.
  destruct (parse_with "https:" u) as [y|] eqn:E1.
  - injection H as ->. unfold parse_with in E1.
    destruct (after_prefix _ u) as [[|c r]|]; try discriminate E1.
    injection E1 as <-. cbn [url_protocol url_href with_root_path].
    destruct (Ascii.eqb c "/"); [reflexivity|]. destruct (_ || _); reflexivity.
  - destruct (parse_with "http:" u) as [y|] eqn:E2.
    + injection H as ->. unfold parse_with in E2.
      destruct (after_prefix _ u) as [[|c r]|]; try discriminate E2.
      injection E2 as <-. cbn [url_protocol url_href with_root_path].
      destruct (Ascii.eqb c "/"); [reflexivity|]. destruct (_ || _); reflexivity.
    + unfold parse_with in H.
      destruct (after_prefix _ u) as [[|c r]|]; try discriminate H.
      injection H as <-. destruct Hp as [Hp|Hp]; discriminate Hp.
Qed.

Definition page (env : Env) : string := "<!DOCTYPE html>".

(** No variable set: de-duplication off, window 60 s, 10 requests. *)
Definition env : Env :=
  {| LINKS := true; BASE_URL := None; CORS_MODE := None; CORS_ORIGINS := None;
     RL_WINDOW_SEC := None; RL_MAX_REQ := None; DEDUP_TTL_SEC := None |}.

(** De-duplication on for an hour. *)
Definition env_dedup : Env :=
  {| LINKS := true; BASE_URL := Some "https://s.example.com/";
     CORS_MODE := None; CORS_ORIGINS := None;
     RL_WINDOW_SEC := None; RL_MAX_REQ := None; DEDUP_TTL_SEC := Some "3600" |}.

(** Window of 60 s and at most 3 requests. *)
Definition env_rl : Env :=
  {| LINKS := true; BASE_URL := None; CORS_MODE := None; CORS_ORIGINS := None;
     RL_WINDOW_SEC := Some "60"; RL_MAX_REQ := Some "3"; DEDUP_TTL_SEC := None |}.

Definition longUrl : string := "https://example.com".

(** [POST /short] with [longUrl] in base64. *)
Definition create : Request :=
  {| req_method := "POST"; req_protocol := "https:"; req_host := "s.example.com";
     req_pathname := "/short";
     hdr_cf_connecting_ip := Some "203.0.113.7"; hdr_x_forwarded_for := None;
     hdr_origin := None; hdr_access_control_request_headers := None;
     req_form := Some (Some (FormString "aHR0cHM6Ly9leGFtcGxlLmNvbQ")) |}.

(** [POST /short] with the base64 of [ftp://example.com]. *)
Definition create_ftp : Request :=
  {| req_method := "POST"; req_protocol := "https:"; req_host := "s.example.com";
     req_pathname := "/short";
     hdr_cf_connecting_ip := Some "203.0.113.7"; hdr_x_forwarded_for := None;
     hdr_origin := None; hdr_access_control_request_headers := None;
     req_form := Some (Some (FormString "ZnRwOi8vZXhhbXBsZS5jb20=")) |}.

(** [GET /<token>] *)
Definition visit (token : string) : Request :=
  {| req_method := "GET"; req_protocol := "https:"; req_host := "s.example.com";
     req_pathname := "/" ++ token;
     hdr_cf_connecting_ip := Some "203.0.113.7"; hdr_x_forwarded_for := None;
     hdr_origin := None; hdr_access_control_request_headers := None;
     req_form := None |}.

(** An entropy stream of bytes 0, 37, 74, ... *)
Definition bytes (n : nat) : Byte.byte :=
  default Byte.x00 (Byte.of_N (N.of_nat (n * 37 mod 256))).

(** Empty stores, some instant in time, a reliable KV binding. *)
Definition world : World :=
  {| kv := ∅; cache := ∅; clock_ms := 1700000000000;
     entropy := bytes; entropy_pos := 0;
     kv_fault := fun _ => false; kv_calls := []; cache_calls := [] |}.

(** The same, with a KV binding that rejects its [n]-th call. *)
Definition world_failing (n : nat) : World :=
  {| kv := ∅; cache := ∅; clock_ms := 1700000000000;
     entropy := bytes; entropy_pos := 0;
     kv_fault := Nat.eqb n; kv_calls := []; cache_calls := [] |}.

(** The first code the generator makes from [world]. *)
Definition first_code : string := Eval vm_compute in candidate world 0.

(** A namespace whose only key is a DedupEntry for [longUrl] naming the
    token [stale], whose Link is gone. *)
Definition world_stale (stale : string) : World :=
  {| kv := {[ dedupKey platform longUrl :=
                {| kv_value := stale; kv_expiration := None |} ]};
     cache := ∅; clock_ms := 1700000000000;
     entropy := bytes; entropy_pos := 0;
     kv_fault := fun _ => false; kv_calls := []; cache_calls := [] |}.

(** A namespace that holds the first six codes the generator will make. *)
Definition world_full : World :=
  {| kv := list_to_map
             (map (fun i => (candidate world i, link_entry "https://taken.example"))
                (seq 0 6));
     cache := ∅; clock_ms := 1700000000000;
     entropy := bytes; entropy_pos := 0;
     kv_fault := fun _ => false; kv_calls := []; cache_calls := [] |}.

(** [world] after a first allocation for [longUrl], de-duplication on. *)
Definition world_created : World := (allocate platform env_dedup longUrl world).2.

End Sample.

(* ===================================================================== *)
(** ** Further vocabulary: headers, the page's encoder, sequences of calls *)
(* ===================================================================== *)

(** Reading a header of a response by the name the source writes it
    with. *)
Fixpoint headers_get (k : string) (h : list (string * string)) : option string :=
  match h with
  | (k', v) :: h' => if String.eqb k' k then Some v else headers_get k h'
  | [] => None
  end.

(** The header names [withCors] may set. *)
Definition cors_header_names : list string :=
  ["Access-Control-Allow-Origin"; "Vary"; "Access-Control-Allow-Credentials";
   "Access-Control-Allow-Methods"; "Access-Control-Allow-Headers";
   "Access-Control-Max-Age"].

(** [s.replace(/=/g, "")] and the like: every occurrence of a character
    removed. *)
Fixpoint remove_char (a : ascii) (s : string) : string :=
  match s with
  | String c s' => if Ascii.eqb c a then remove_char a s' else String c (remove_char a s')
  | EmptyString => EmptyString
  end.

(** What the script of the landing page does to the base64 text before it
    posts it:
    [.replace(/\+/g, "-").replace(/\//g, "_").replace(/=/g, "")]. *)
Definition page_urlsafe (b64 : string) : string :=
  remove_char "=" (Js.replace_char "/" "_" (Js.replace_char "+" "-" b64)).

(** The URL-safe spelling of a base64 text, padding kept. *)
Definition urlsafe (b64 : string) : string :=
  Js.replace_char "/" "_" (Js.replace_char "+" "-" b64).

(** The characters of standard base64, the padding apart. *)
Definition is_b64_char (c : ascii) : bool :=
  existsb (Ascii.eqb c)
    (list_ascii_of_string
       "ABCDEFGHIJKLMNOPQRSTUVWXYZabcdefghijklmnopqrstuvwxyz0123456789+/").

(** [n] times the padding character. *)
Fixpoint padding (n : nat) : string :=
  match n with
  | S n' => String "=" (padding n')
  | O => EmptyString
  end.

(** Lowercase hexadecimal digits. *)
Definition is_hex_char (c : ascii) : bool :=
  existsb (Ascii.eqb c) (list_ascii_of_string "0123456789abcdef").

(** The 256 byte values. *)
Definition all_bytes : list Byte.byte :=
  omap (fun n => Byte.of_N (N.of_nat n)) (seq 0 256).

(** A request on which the handler may use a store: a creation, or a
    [GET]/[HEAD] of a path of the shape of a code, [/healthz] apart. *)
Definition reaches_store (req : Request) : Prop :=
  (req_pathname req = "/short" /\ req_method req = "POST")
  \/ ((req_method req = "GET" \/ req_method req = "HEAD")
      /\ match_code_path (req_pathname req) <> None
      /\ req_pathname req <> "/healthz").

Definition is_put (c : KvCall) : bool := negb (is_get c).

Section CallSequences.

Variable pf : Platform.

(** Successive calls of the rate limiter for one request, each followed by
    a wait of the given number of milliseconds: the decisions made. *)
Fixpoint rl_run (req : Request) (env : Env) (waits : list Z) (w : World)
  : list (option (bool * Z)) :=
  match waits with
  | d :: waits' =>
      let s := rateLimit pf req env w in
      decision s :: rl_run req env waits' (advance_ms d s.2)
  | [] => []
  end.

(** The entry of the world's current window for a client holds count [k]
    and does not lapse before the end of the window; no entry stands for a
    count of 0. *)
Definition counter_is (env : Env) (w : World) (ip : string) (k : Z) : Prop :=
  match cache w !! rl_key pf env (now_sec w) ip with
  | Some e =>
      Js.num_or (Js.parseInt (ce_body e)) 0 = k
      /\ (rl_bucket env (now_sec w) + 1) * windowSec env <= ce_stored e + ce_max_age e
  | None => k = 0
  end.

End CallSequences.

(** The decision the [i]-th call of a window takes from count [k] under a
    maximum of [m]. *)
Definition expected_decision (m k : Z) (i : nat) : option (bool * Z) :=
  let c := k + Z.of_nat i in
  if c <? m then Some (true, m - (c + 1)) else Some (false, 0).

Definition is_allowed (d : option (bool * Z)) : bool :=
  match d with
  | Some (true, _) => true
  | _ => false
  end.

(** Total time waited. *)
Definition total_wait (waits : list Z) : Z := fold_right Z.add 0 waits.

(** An environment with another [BASE_URL]. *)
Definition with_BASE_URL (v : option string) (env : Env) : Env :=
  {| LINKS := LINKS env; BASE_URL := v; CORS_MODE := CORS_MODE env;
     CORS_ORIGINS := CORS_ORIGINS env; RL_WINDOW_SEC := RL_WINDOW_SEC env;
     RL_MAX_REQ := RL_MAX_REQ env; DEDUP_TTL_SEC := DEDUP_TTL_SEC env |}.

(** [n] slashes. *)
Fixpoint slashes (n : nat) : string :=
  match n with
  | S n' => String "/" (slashes n')
  | O => EmptyString
  end.

Section LinkVocabulary.

Variable pf : Platform.

(** Every value stored under a key that is not a DedupEntry key is an
    http or https URL. *)
Definition links_are_http (w : World) : Prop :=
  forall k e, kv w !! k = Some e -> is_dedup_key k = false ->
    isHttpUrl pf (kv_value e) = true.

End LinkVocabulary.

(** Further sample data. *)
Module Scenes.

(** No KV namespace bound. *)
Definition env_unbound : Env :=
  {| LINKS := false; BASE_URL := None; CORS_MODE := None; CORS_ORIGINS := None;
     RL_WINDOW_SEC := None; RL_MAX_REQ := None; DEDUP_TTL_SEC := None |}.

(** [Sample.world] after the three requests [Sample.env_rl] lets through
    in a window. *)
Definition world_spent : World :=
  let rl := rateLimit Sample.platform Sample.create Sample.env_rl in
  (rl (rl (rl Sample.world).2).2).2.

(** Another client. *)
Definition other_ip : string := "198.51.100.9".

(** The base64 text of [Sample.longUrl] without its padding. *)
Definition b64_body : string := "aHR0cHM6Ly9leGFtcGxlLmNvbQ".


(** [Sample.world] after a first creation, de-duplication on. *)
Definition world_after : World :=
  (handle Sample.platform Sample.page Sample.create Sample.env_dedup Sample.world).2.

End Scenes.

(* ===================================================================== *)
(** ** Numbers and strings *)
(* ===================================================================== *)

Module JsFacts.

Lemma parse_digits_uint d : forall acc,
  d <> Nil \/ is_Some acc ->
  Js.parse_digits (NilEmpty.string_of_uint d) acc = Some (uint_val d (default 0 acc)).
Proof.
  induction d; intros acc H; simpl;
    try (rewrite IHd by (right; eauto); reflexivity).
  destruct H as [H|[a ->]]; [congruence|reflexivity].
Qed.

Lemma uint_val_of_lu d : forall acc,
  uint_val d acc
  = Z.of_N (DecimalPos.Unsigned.of_lu (Decimal.rev d))
    + acc * 10 ^ Z.of_N (DecimalPos.Unsigned.usize d).
Proof.
  induction d; intros acc; simpl uint_val; simpl DecimalPos.Unsigned.usize;
    [ simpl; lia | .. ];
    unfold Decimal.rev at 1; simpl revapp; rewrite DecimalPos.Unsigned.of_lu_revapp;
    rewrite IHd; simpl DecimalPos.Unsigned.of_lu;
    rewrite N2Z.inj_succ, Z.pow_succ_r by lia;
    rewrite N2Z.inj_add, N2Z.inj_mul, N2Z.inj_pow;
    set (x := Z.of_N (DecimalPos.Unsigned.of_lu (Decimal.rev d)));
    set (y := Z.of_N 10 ^ Z.of_N (DecimalPos.Unsigned.usize d)); simpl Z.of_N; lia.
Qed.

Lemma uint_val_0 d : uint_val d 0 = Z.of_N (Pos.of_uint d).
Proof. rewrite uint_val_of_lu, DecimalPos.Unsigned.of_uint_alt. lia. Qed.

Lemma string_of_uint_head d :
  d <> Nil ->
  exists c s, NilEmpty.string_of_uint d = String c s /\ is_Some (Js.digit_of_ascii c).
Proof.
  destruct d; intros H; try congruence; simpl; eexists _, _;
    (split; [reflexivity | vm_compute; eauto]).
Qed.

Lemma parseInt_digits s c :
  is_Some (Js.digit_of_ascii c) ->
  Js.parseInt (String c s) = Js.parse_digits (String c s) None.
Proof.
  intros [d Hd]. unfold Js.parseInt.
  assert (Js.is_space c = false /\ c <> "-"%char /\ c <> "+"%char) as (Hs & Hm & Hp).
  { unfold Js.digit_of_ascii in Hd. unfold Js.is_space.
    destruct ((48 <=? nat_of_ascii c)%nat && (nat_of_ascii c <=? 57)%nat) eqn:E;
      [|discriminate].
    apply andb_true_iff in E as [E1 E2]. apply Nat.leb_le in E1, E2.
    split; [|split].
    - repeat (apply orb_false_iff; split); try apply andb_false_iff;
        try (apply Nat.eqb_neq; lia). right. apply Nat.leb_gt. lia.
    - intros ->. vm_compute in E1. lia.
    - intros ->. vm_compute in E1. lia. }
  simpl Js.trim_start. rewrite Hs.
  destruct c as [[] [] [] [] [] [] [] []]; try reflexivity; congruence.
Qed.

Lemma parse_pos p :
  Js.parse_digits (NilEmpty.string_of_uint (Pos.to_uint p)) None = Some (Z.pos p).
Proof.
  rewrite parse_digits_uint by (left; apply DecimalPos.Unsigned.to_uint_nonnil).
  simpl default. rewrite uint_val_0, DecimalPos.Unsigned.of_to. reflexivity.
Qed.

Lemma string_of_uint_nz d :
  d <> Nil -> NilZero.string_of_uint d = NilEmpty.string_of_uint d.
Proof. destruct d; congruence || reflexivity. Qed.

(** [parseInt(String(n), 10)] is [n]. *)
Lemma parseInt_String_of n : Js.parseInt (Js.String_of n) = Some n.
Proof.
  unfold Js.String_of. destruct n as [|p|p]; [reflexivity| |]; simpl Z.to_int;
    unfold NilZero.string_of_int;
    rewrite string_of_uint_nz by apply DecimalPos.Unsigned.to_uint_nonnil.
  - destruct (string_of_uint_head _ (DecimalPos.Unsigned.to_uint_nonnil p))
      as (c & s & E & Hc).
    rewrite E, parseInt_digits by exact Hc. rewrite <- E. apply parse_pos.
  - unfold Js.parseInt. simpl Js.trim_start.
    change (Js.is_space "-") with false. cbv iota.
    rewrite parse_pos. reflexivity.
Qed.

Lemma String_of_inj n m : Js.String_of n = Js.String_of m -> n = m.
Proof.
  intros H. apply (f_equal Js.parseInt) in H.
  rewrite !parseInt_String_of in H. congruence.
Qed.

Lemma num_or_0_String_of n : Js.num_or (Js.parseInt (Js.String_of n)) 0 = n.
Proof.
  rewrite parseInt_String_of. unfold Js.num_or.
  destruct (n =? 0) eqn:E; [apply Z.eqb_eq in E; congruence | reflexivity].
Qed.

Lemma app_cons a (s t : string) : String a s ++ t = String a (s ++ t).
Proof. reflexivity. Qed.

Lemma app_nil_l (t : string) : "" ++ t = t.
Proof. reflexivity. Qed.

Lemma app_nil_r (s : string) : s ++ "" = s.
Proof. induction s; [reflexivity | rewrite app_cons, IHs; reflexivity]. Qed.

Lemma length_app (s t : string) :
  String.length (s ++ t) = (String.length s + String.length t)%nat.
Proof. induction s; [reflexivity | rewrite app_cons; cbn; f_equal; exact IHs]. Qed.

Lemma app_assoc (s t u : string) : (s ++ t) ++ u = s ++ (t ++ u).
Proof. induction s; [reflexivity | rewrite !app_cons; f_equal; exact IHs]. Qed.

Lemma app_inv_tail (s t u : string) : s ++ u = t ++ u -> s = t.
Proof.
  revert t. induction s as [|a s IH]; intros [|b t] H.
  - reflexivity.
  - apply (f_equal String.length) in H.
    rewrite ?app_cons, ?app_nil_l in H. cbn in H. rewrite length_app in H. lia.
  - apply (f_equal String.length) in H.
    rewrite ?app_cons, ?app_nil_l in H. cbn in H. rewrite length_app in H. lia.
  - rewrite !app_cons in H. injection H as -> H. f_equal. apply IH, H.
Qed.

Lemma all_chars_app p (s t : string) :
  all_chars p (s ++ t) = all_chars p s && all_chars p t.
Proof.
  induction s; [reflexivity | rewrite app_cons; cbn; rewrite IHs; apply andb_assoc].
Qed.

Lemma all_chars_In p (s : string) :
  all_chars p s = true <-> forall c, In c (list_ascii_of_string s) -> p c = true.
Proof.
  induction s as [|a s IH]; cbn.
  - split; [intros _ c [] | reflexivity].
  - rewrite andb_true_iff, IH. split.
    + intros [Ha Hs] c [<-|Hc]; auto.
    + intros H. split; [apply H; left; reflexivity | intros c Hc; apply H; right; exact Hc].
Qed.

Lemma get_In i : forall (s : string) c,
  String.get i s = Some c -> In c (list_ascii_of_string s).
Proof.
  induction i as [|i IH]; intros [|a s] c H; cbn in H; try discriminate.
  - injection H as ->. left; reflexivity.
  - right. apply IH, H.
Qed.

Lemma get_lt i : forall (s : string),
  (i < String.length s)%nat -> is_Some (String.get i s).
Proof.
  induction i as [|i IH]; intros [|a s] H; cbn in *; try lia; eauto.
  apply IH; lia.
Qed.

Lemma truthy_Some s : Js.truthy (Some s) = true <-> s <> "".
Proof.
  unfold Js.truthy. destruct (String.eqb_spec s ""); cbn; split; congruence.
Qed.

End JsFacts.

(* ===================================================================== *)
(** ** The code generator *)
(* ===================================================================== *)

Lemma chars_length : String.length chars = 57%nat.
Proof. reflexivity. Qed.

Lemma chars_NoDup : NoDup (list_ascii_of_string chars).
Proof. apply (bool_decide_unpack _). vm_compute. exact I. Qed.

Lemma in_chars_alnum_unambiguous c :
  in_chars c = is_alnum c && negb (is_ambiguous c).
Proof. destruct c as [[] [] [] [] [] [] [] []]; reflexivity. Qed.

Lemma in_chars_In c : in_chars c = true <-> In c (list_ascii_of_string chars).
Proof.
  unfold in_chars. rewrite existsb_exists. split.
  - intros (x & Hx & E). apply Ascii.eqb_eq in E. subst. exact Hx.
  - intros H. exists c. split; [exact H | apply Ascii.eqb_refl].
Qed.

Lemma char_at_chars (k : nat) :
  exists c, char_at chars (k mod String.length chars) = String c EmptyString
            /\ in_chars c = true.
Proof.
  unfold char_at.
  destruct (JsFacts.get_lt (k mod String.length chars) chars) as [c Hc].
  { apply Nat.mod_upper_bound. rewrite chars_length. lia. }
  rewrite Hc. exists c. split; [reflexivity|].
  apply in_chars_In. eapply JsFacts.get_In, Hc.
Qed.

Lemma genCode_loop_out bytes : forall out,
  genCode_loop bytes out = out ++ genCode_loop bytes "".
Proof.
  induction bytes as [|b bs IH]; intros out; cbn [genCode_loop].
  - symmetry. apply JsFacts.app_nil_r.
  - rewrite IH. rewrite (IH ("" ++ _)).
    rewrite JsFacts.app_nil_l. apply JsFacts.app_assoc.
Qed.

Lemma genCode_loop_spec bytes :
  String.length (genCode_loop bytes "") = length bytes
  /\ all_chars in_chars (genCode_loop bytes "") = true.
Proof.
  induction bytes as [|b bs [IHl IHc]]; [split; reflexivity|].
  cbn [genCode_loop]. rewrite genCode_loop_out, JsFacts.app_nil_l.
  destruct (char_at_chars (N.to_nat (Byte.to_N b))) as (c & -> & Hc).
  rewrite JsFacts.app_cons, JsFacts.app_nil_l. split.
  - cbn [String.length length]. f_equal. exact IHl.
  - cbn [all_chars]. rewrite Hc, IHc. reflexivity.
Qed.

Lemma genCode_run n w :
  Z.of_nat n <= 65536 ->
  genCode n w
  = (Returned (genCode_loop (map (entropy w) (seq (entropy_pos w) n)) ""),
     with_entropy_pos (entropy_pos w + n) w).
Proof.
  intros Hn. unfold genCode, mbind, M_bind, getRandomValues.
  apply Z.ltb_ge in Hn. rewrite Hn. reflexivity.
Qed.

Lemma genCode_too_long n w :
  65536 < Z.of_nat n -> genCode n w = (Thrown QuotaExceededError, w).
Proof.
  intros Hn. unfold genCode, mbind, M_bind, getRandomValues.
  apply Z.ltb_lt in Hn. rewrite Hn. reflexivity.
Qed.

(** C2, as the specification words it, fails: the alphabet does not have 58
    symbols. *)
Lemma C2_alphabet_is_not_58 : String.length chars <> 58%nat.
Proof. rewrite chars_length. discriminate. Qed.

(** C2 (amended): the generator's alphabet has exactly 57 symbols, all
    different: the case-sensitive letters and digits without 0, O, 1, l and
    I.  For every length [n] of at most 65536, [genCode n] returns a string
    of exactly [n] characters, each of them in the alphabet (and consumes
    [n] bytes of entropy); for every longer [n] it returns no string: the
    random source refuses the request, the generator throws and no entropy
    is consumed. *)
Theorem C2_genCode_alphabet :
  String.length chars = 57%nat
  /\ NoDup (list_ascii_of_string chars)
  /\ (forall c, In c (list_ascii_of_string chars)
                <-> is_alnum c = true /\ is_ambiguous c = false)
  /\ (forall (n : nat) (w : World),
        Z.of_nat n <= 65536 ->
        exists code,
          genCode n w = (Returned code, with_entropy_pos (entropy_pos w + n) w)
          /\ String.length code = n
          /\ forall c, In c (list_ascii_of_string code) ->
                       In c (list_ascii_of_string chars))
  /\ (forall (n : nat) (w : World),
        65536 < Z.of_nat n -> exists e, genCode n w = (Thrown e, w)).
Proof.
  split; [exact chars_length|]. split; [exact chars_NoDup|]. split; [|split].
  - intros c. rewrite <- in_chars_In, in_chars_alnum_unambiguous.
    rewrite andb_true_iff, negb_true_iff. reflexivity.
  - intros n w Hn. eexists. split; [apply genCode_run, Hn|].
    destruct (genCode_loop_spec (map (entropy w) (seq (entropy_pos w) n))) as [Hl Hc].
    split.
    + rewrite Hl, length_map, length_seq. reflexivity.
    + intros c Hin. apply in_chars_In.
      exact (proj1 (JsFacts.all_chars_In _ _) Hc c Hin).
  - intros n w Hn. exists QuotaExceededError. apply genCode_too_long, Hn.
Qed.

(* ===================================================================== *)
(** ** Runs of the store operations *)
(* ===================================================================== *)

Lemma kv_frame_refl w : kv_frame w w.
Proof. split; reflexivity. Qed.

Lemma kv_frame_trans w1 w2 w3 : kv_frame w1 w2 -> kv_frame w2 w3 -> kv_frame w1 w3.
Proof. intros [] []. split; congruence. Qed.

Lemma kv_frame_log c w : kv_frame w (log_kv c w).
Proof. split; reflexivity. Qed.

Lemma kv_frame_with_kv m w : kv_frame w (with_kv m w).
Proof. split; reflexivity. Qed.

Lemma kv_frame_entropy_pos p w : kv_frame w (with_entropy_pos p w).
Proof. split; reflexivity. Qed.

Lemma kv_frame_now w w' : kv_frame w w' -> now_sec w' = now_sec w.
Proof. intros []. unfold now_sec. congruence. Qed.

Lemma kv_read_ext w w' k :
  kv w' = kv w -> now_sec w' = now_sec w -> kv_read w' k = kv_read w k.
Proof. unfold kv_read. intros -> ->. reflexivity. Qed.

Lemma get_run key w :
  LINKS.get key w
  = (if kv_fault w (length (kv_calls w))
     then Thrown (KvError (KvGet key))
     else Returned (kv_read w key),
     log_kv (KvGet key) w).
Proof. unfold LINKS.get. destruct (kv_fault w _); reflexivity. Qed.

Lemma put_run key value ttl w :
  LINKS.put key value ttl w
  = if kv_fault w (length (kv_calls w))
    then (Thrown (KvError (KvPut key value ttl)), log_kv (KvPut key value ttl) w)
    else (Returned tt,
          with_kv (<[key := {| kv_value := value;
                               kv_expiration := (fun t => now_sec w + t) <$> ttl |}]> (kv w))
            (log_kv (KvPut key value ttl) w)).
Proof. reflexivity. Qed.

Lemma candidate_token w i : is_token (candidate w i).
Proof.
  unfold candidate, is_token.
  destruct (genCode_loop_spec (map (entropy w) (seq (entropy_pos w + 7 * i) 7)))
    as [Hl Hc].
  rewrite Hl, length_map, length_seq. split; [reflexivity | exact Hc].
Qed.

Lemma token_truthy t : is_token t -> Js.truthy (Some t) = true.
Proof. intros [Hl _]. apply JsFacts.truthy_Some. intros ->. discriminate. Qed.

Lemma allocLoop_S n w :
  allocLoop (S n) w =
  let c := candidate w 0 in
  let w1 := log_kv (KvGet c) (with_entropy_pos (entropy_pos w + 7) w) in
  if kv_fault w (length (kv_calls w)) then (Thrown (KvError (KvGet c)), w1)
  else if negb (Js.truthy (kv_read w c)) then (Returned (Some c), w1)
  else allocLoop n w1.
Proof.
  unfold candidate. rewrite Nat.mul_0_r, Nat.add_0_r.
  cbn [allocLoop]. unfold mbind, M_bind. rewrite genCode_run by (cbn; lia). rewrite get_run.
  cbn [kv_fault with_entropy_pos kv_calls].
  destruct (kv_fault w (length (kv_calls w))); [reflexivity|].
  change (kv_read (with_entropy_pos (entropy_pos w + 7) w)) with (kv_read w).
  destruct (negb (Js.truthy (kv_read w _))); reflexivity.
Qed.

Lemma candidate_shift w c i :
  candidate (log_kv c (with_entropy_pos (entropy_pos w + 7) w)) i = candidate w (S i).
Proof.
  unfold candidate. cbn [entropy entropy_pos log_kv with_entropy_pos].
  replace (entropy_pos w + 7 + 7 * i)%nat with (entropy_pos w + 7 * S i)%nat by lia.
  reflexivity.
Qed.

(** The allocation loop only reads: it answers the first candidate the
    namespace does not hold, or nothing when all [n] candidates are
    held. *)
Lemma allocLoop_spec n : forall w r w',
  allocLoop n w = (r, w') ->
  kv_frame w w' /\ kv w' = kv w /\
  exists gets : list KvCall,
    kv_calls w' = (gets ++ kv_calls w)%list /\ Forall (fun c => is_get c = true) gets /\
    match r with
    | Returned (Some c) =>
        exists i, (i < n)%nat /\ c = candidate w i /\ Js.truthy (kv_read w c) = false
                  /\ forall j, (j < i)%nat -> Js.truthy (kv_read w (candidate w j)) = true
    | Returned None =>
        forall i, (i < n)%nat -> Js.truthy (kv_read w (candidate w i)) = true
    | Thrown e =>
        exists k (gets' : list KvCall),
          e = KvError (KvGet k) /\ gets = KvGet k :: gets'
          /\ kv_fault w (length (gets' ++ kv_calls w)%list) = true
    end.
Proof.
  induction n as [|n IH]; intros w r w' H.
  - injection H as <- <-. split; [apply kv_frame_refl|]. split; [reflexivity|].
    exists []. split; [reflexivity|]. split; [constructor|]. intros i Hi. lia.
  - rewrite allocLoop_S in H. cbv zeta in H.
    set (c := candidate w 0) in *.
    set (w1 := log_kv (KvGet c) (with_entropy_pos (entropy_pos w + 7) w)) in *.
    assert (Hf1 : kv_frame w w1) by (split; reflexivity).
    destruct (kv_fault w (length (kv_calls w))) eqn:Ef.
    { injection H as <- <-. split; [exact Hf1|]. split; [reflexivity|].
      exists [KvGet c]. split; [reflexivity|]. split; [repeat constructor|].
      exists c, []. auto. }
    destruct (Js.truthy (kv_read w c)) eqn:Et; cbn [negb] in H.
    + apply IH in H as (Hf & Hkv & gets & Hc & Hg & Hr).
      split; [eapply kv_frame_trans; eassumption|]. split; [exact Hkv|].
      exists (gets ++ [KvGet c])%list. split; [rewrite Hc, <- List.app_assoc; reflexivity|].
      split; [apply Forall_app; split; [exact Hg | repeat constructor]|].
      destruct r as [[c'|]|e].
      * destruct Hr as (i & Hi & -> & Hr & Hfirst). exists (S i).
        unfold w1 in *. rewrite candidate_shift in *.
        split; [lia|]. split; [reflexivity|]. split; [exact Hr|].
        intros [|j] Hj; [exact Et|].
        specialize (Hfirst j ltac:(lia)). rewrite candidate_shift in Hfirst. exact Hfirst.
      * intros [|i] Hi; [exact Et|].
        specialize (Hr i ltac:(lia)). unfold w1 in Hr.
        rewrite candidate_shift in Hr. exact Hr.
      * destruct Hr as (k & gets' & -> & -> & Hfault).
        exists k, (gets' ++ [KvGet c])%list. split; [reflexivity|]. split; [reflexivity|].
        rewrite <- List.app_assoc. exact Hfault.
    + injection H as <- <-. split; [exact Hf1|]. split; [reflexivity|].
      exists [KvGet c]. split; [reflexivity|]. split; [repeat constructor|].
      exists 0%nat. split; [lia|]. split; [reflexivity|]. split; [exact Et|].
      intros j Hj. lia.
Qed.

(* ===================================================================== *)
(** ** Runs of the allocator *)
(* ===================================================================== *)

Section AllocatorFacts.

Variable pf : Platform.

Lemma dedup_live_log env c w u : dedup_live pf env (log_kv c w) u = dedup_live pf env w u.
Proof. reflexivity. Qed.

Lemma dedup_live_off env w u : dedupTtl env <= 0 -> dedup_live pf env w u = None.
Proof.
  intros H. unfold dedup_live.
  destruct (dedupTtl env <=? 0) eqn:E; [reflexivity | apply Z.leb_gt in E; lia].
Qed.

(** A run seen from after one more read is a run with that read added. *)
Lemma AllocRun_log env u w c r calls m :
  is_get c = true ->
  AllocRun pf env u (log_kv c w) r calls m ->
  AllocRun pf env u w r (calls ++ [c])%list m.
Proof.
  intros Hc H.
  assert (Hg : forall gets, Forall (fun c => is_get c = true) gets ->
                 Forall (fun c => is_get c = true) (gets ++ [c])%list).
  { intros gets Hgets. apply Forall_app. split; [exact Hgets | repeat constructor; exact Hc]. }
  destruct H;
    subst_lets;
    change (kv (log_kv c w)) with (kv w);
    change (candidate (log_kv c w)) with (candidate w) in *;
    change (now_sec (log_kv c w)) with (now_sec w);
    change (kv_read (log_kv c w)) with (kv_read w) in *;
    change (kv_fault (log_kv c w)) with (kv_fault w) in *;
    change (kv_calls (log_kv c w)) with (c :: kv_calls w) in *;
    rewrite ?dedup_live_log in *;
    rewrite <- ?app_comm_cons.
  - apply run_hit; auto.
  - apply run_exhausted; auto.
  - apply (run_created pf env u w i); auto.
  - apply (run_created_recorded pf env u w i); auto.
    rewrite <- List.app_assoc. assumption.
  - apply (run_get_failed pf env u w k); auto.
    rewrite <- List.app_assoc. assumption.
  - apply (run_link_put_failed pf env u w); auto.
    rewrite <- List.app_assoc. assumption.
  - apply (run_record_failed pf env u w i); auto.
    rewrite <- List.app_assoc. assumption.
Qed.

Lemma allocateNew_run env u w r w' :
  allocateNew pf env u w = (r, w') ->
  dedup_live pf env w u = None ->
  kv_frame w w' /\
  exists calls : list KvCall,
    kv_calls w' = (calls ++ kv_calls w)%list /\ AllocRun pf env u w r calls (kv w').
Proof.
  intros H Hd. unfold allocateNew, mbind, M_bind in H.
  destruct (allocLoop 6 w) as [r1 w1] eqn:EL.
  apply allocLoop_spec in EL as (Hf & Hkv & gets & Hc & Hg & Hr).
  destruct r1 as [[c|]|e].
  - destruct Hr as (i & Hi & -> & Hr & Hfirst).
    rewrite (token_truthy _ (candidate_token w i)) in H. cbn [negb default from_option] in H. unfold id in H.
    rewrite put_run in H.
    assert (Hfault : kv_fault w1 = kv_fault w) by apply Hf.
    rewrite Hfault, Hc in H.
    destruct (kv_fault w (length (gets ++ kv_calls w)%list)) eqn:E1.
    { injection H as <- <-. split; [eapply kv_frame_trans; [exact Hf | apply kv_frame_log]|].
      eexists. split; [cbn [kv_calls log_kv]; rewrite Hc; apply app_comm_cons|].
      cbn [kv log_kv]. rewrite Hkv. apply run_link_put_failed; [exact Hg | exact E1]. }
    unfold putDedupCode in H.
    destruct (dedupTtl env <=? 0) eqn:Ettl.
    { injection H as <- <-.
      split; [eapply kv_frame_trans; [exact Hf | split; reflexivity]|].
      eexists. split; [cbn [kv_calls log_kv with_kv]; rewrite Hc; apply app_comm_cons|].
      cbn [kv log_kv with_kv fmap option_fmap option_map]. rewrite Hkv.
      apply (run_created pf env u w i); auto. apply Z.leb_le, Ettl. }
    apply Z.leb_gt in Ettl. rewrite put_run in H.
    cbn [kv_fault kv_calls with_kv log_kv length] in H. rewrite Hfault, Hc in H.
    assert (Hnow : now_sec w1 = now_sec w) by (apply kv_frame_now, Hf).
    destruct (kv_fault w (S (length (gets ++ kv_calls w)%list))) eqn:E2;
      injection H as <- <-.
    + split; [eapply kv_frame_trans; [exact Hf | split; reflexivity]|].
      eexists. split; [cbn [kv_calls log_kv with_kv]; rewrite Hc;
                       rewrite 2 app_comm_cons; reflexivity|].
      cbn [kv log_kv with_kv fmap option_fmap option_map]. rewrite Hkv.
      apply (run_record_failed pf env u w i); auto.
    + split; [eapply kv_frame_trans; [exact Hf | split; reflexivity]|].
      eexists. split; [cbn [kv_calls log_kv with_kv]; rewrite Hc;
                       rewrite 2 app_comm_cons; reflexivity|].
      cbn [kv log_kv with_kv fmap option_fmap option_map]. rewrite Hkv.
      unfold now_sec at 1. cbn [clock_ms with_kv log_kv]. fold (now_sec w1). rewrite Hnow.
      apply (run_created_recorded pf env u w i); auto.
  - cbn in H. injection H as <- <-. split; [exact Hf|].
    exists gets. split; [exact Hc|]. rewrite Hkv. apply run_exhausted; auto.
  - injection H as <- <-. split; [exact Hf|].
    destruct Hr as (k & gets' & -> & -> & Hfault).
    eexists. split; [exact Hc|]. rewrite Hkv. apply run_get_failed; [|exact Hfault].
    inversion Hg; assumption.
Qed.

(** Every run of the allocator is one of the runs of [AllocRun], and leaves
    the cache, the clock and the fault plan alone. *)
Lemma allocate_run env u w r w' :
  allocate pf env u w = (r, w') ->
  kv_frame w w' /\
  exists calls : list KvCall,
    kv_calls w' = (calls ++ kv_calls w)%list /\ AllocRun pf env u w r calls (kv w').
Proof.
  intros H. unfold allocate, getDedupCode in H.
  destruct (dedupTtl env <=? 0) eqn:Ettl.
  { apply Z.leb_le in Ettl. change (allocateNew pf env u w = (r, w')) in H.
    apply allocateNew_run in H; [exact H | apply dedup_live_off, Ettl]. }
  unfold mbind at 1, M_bind at 1 in H. rewrite get_run in H.
  destruct (kv_fault w (length (kv_calls w))) eqn:E0.
  { injection H as <- <-. split; [apply kv_frame_log|].
    exists [KvGet (dedupKey pf u)]. split; [reflexivity|].
    cbn [kv log_kv]. apply run_get_failed; [constructor | exact E0]. }
  set (w1 := log_kv (KvGet (dedupKey pf u)) w) in *.
  destruct (kv_read w (dedupKey pf u)) as [t|] eqn:Ed.
  2:{ change (allocateNew pf env u w1 = (r, w')) in H.
      apply allocateNew_run in H as (Hf & calls & Hc & Hrun).
      2:{ unfold dedup_live. rewrite Ettl. change (kv_read w1) with (kv_read w).
          rewrite Ed. reflexivity. }
      split; [eapply kv_frame_trans; [apply kv_frame_log | exact Hf]|].
      exists (calls ++ [KvGet (dedupKey pf u)])%list.
      split; [rewrite Hc, <- List.app_assoc; reflexivity|].
      apply AllocRun_log; [reflexivity | exact Hrun]. }
  destruct (Js.truthy (Some t)) eqn:Et.
  2:{ unfold mbind at 1, M_bind at 1 in H. cbn [mret M_ret] in H. rewrite Et in H.
      change (allocateNew pf env u w1 = (r, w')) in H.
      apply allocateNew_run in H as (Hf & calls & Hc & Hrun).
      2:{ unfold dedup_live. rewrite Ettl. change (kv_read w1) with (kv_read w).
          rewrite Ed, Et. reflexivity. }
      split; [eapply kv_frame_trans; [apply kv_frame_log | exact Hf]|].
      exists (calls ++ [KvGet (dedupKey pf u)])%list.
      split; [rewrite Hc, <- List.app_assoc; reflexivity|].
      apply AllocRun_log; [reflexivity | exact Hrun]. }
  unfold mbind at 1, M_bind at 1 in H. unfold mbind at 1, M_bind at 1 in H.
  cbn [default from_option] in H. unfold id in H. rewrite get_run in H.
  change (kv_fault w1 (length (kv_calls w1))) with (kv_fault w (S (length (kv_calls w)))) in H.
  destruct (kv_fault w (S (length (kv_calls w)))) eqn:E1.
  { injection H as <- <-. split; [split; reflexivity|].
    exists [KvGet t; KvGet (dedupKey pf u)]. split; [reflexivity|].
    change (kv (log_kv (KvGet t) w1)) with (kv w).
    apply run_get_failed; [repeat constructor | exact E1]. }
  set (w2 := log_kv (KvGet t) w1) in *.
  change (kv_read w1 t) with (kv_read w t) in H. cbn [mret M_ret] in H.
  destruct (Js.truthy (kv_read w t)) eqn:Ex; cbn [negb] in H.
  - rewrite Et in H. cbn [negb] in H. injection H as <- <-.
    split; [split; reflexivity|].
    exists [KvGet t; KvGet (dedupKey pf u)]. split; [reflexivity|].
    change (kv w2) with (kv w).
    apply run_hit; [|repeat constructor].
    unfold dedup_live. rewrite Ettl, Ed, Et, Ex. reflexivity.
  - change (allocateNew pf env u w2 = (r, w')) in H.
    apply allocateNew_run in H as (Hf & calls & Hc & Hrun).
    2:{ unfold dedup_live. rewrite Ettl. change (kv_read w2) with (kv_read w).
        rewrite Ed, Et, Ex. reflexivity. }
    split; [eapply kv_frame_trans; [|exact Hf]; split; reflexivity|].
    exists ((calls ++ [KvGet t]) ++ [KvGet (dedupKey pf u)])%list.
    split; [rewrite Hc, <- !List.app_assoc; reflexivity|].
    apply AllocRun_log; [reflexivity|]. apply AllocRun_log; [reflexivity | exact Hrun].
Qed.

End AllocatorFacts.

(* ===================================================================== *)
(** ** Runs of the rate limiter and of the handler *)
(* ===================================================================== *)

Lemma withCors_status req resp env : status (withCors req resp env) = status resp.
Proof.
  unfold withCors.
  destruct (String.eqb (corsMode env) "off"); [reflexivity|].
  destruct (String.eqb (corsMode env) "open"); [reflexivity|].
  destruct (_ || _); reflexivity.
Qed.

Lemma withCors_body req resp env : body (withCors req resp env) = body resp.
Proof.
  unfold withCors.
  destruct (String.eqb (corsMode env) "off"); [reflexivity|].
  destruct (String.eqb (corsMode env) "open"); [reflexivity|].
  destruct (_ || _); reflexivity.
Qed.

Section HandlerFacts.

Variable pf : Platform.
Variable landingHtml : Env -> string.

(** What the rate limiter does, in one equation. *)
Lemma rateLimit_run req env w :
  let ip := getClientIp req in
  let key := rl_key pf env (now_sec w) ip in
  let count := rl_count pf env w ip in
  let reset := (rl_bucket env (now_sec w) + 1) * windowSec env - now_sec w in
  rateLimit pf req env w =
  if maxReq env <=? count then
    (Returned {| ok := false; remaining := 0; resetIn := reset |},
     log_cache (CacheMatch key) w)
  else
    (Returned {| ok := true; remaining := maxReq env - (count + 1); resetIn := reset |},
     with_cache
       (<[key := {| ce_body := Js.String_of (count + 1);
                    ce_stored := now_sec w;
                    ce_max_age := Z.max 1 reset |}]> (cache w))
       (log_cache (CachePut key (Js.String_of (count + 1)) (Z.max 1 reset))
          (log_cache (CacheMatch key) w))).
Proof.
  cbv zeta. unfold rateLimit, rl_count, mbind, M_bind, Date_now, Cache.match_.
  fold (now_sec w).
  change (cache_read (log_cache _ w)) with (cache_read w).
  destruct (maxReq env <=? _); reflexivity.
Qed.

(** The world after the rate limiter has admitted a request. *)
Lemma rateLimit_within_limit req env w :
  within_limit pf req env w ->
  exists rl w1,
    rateLimit pf req env w = (Returned rl, w1) /\ ok rl = true /\
    kv w1 = kv w /\ kv_calls w1 = kv_calls w /\ kv_fault w1 = kv_fault w /\
    clock_ms w1 = clock_ms w /\ entropy w1 = entropy w /\ entropy_pos w1 = entropy_pos w /\
    cache w1
    = <[rl_key pf env (now_sec w) (getClientIp req) :=
          {| ce_body := Js.String_of (rl_count pf env w (getClientIp req) + 1);
             ce_stored := now_sec w;
             ce_max_age :=
               Z.max 1 ((rl_bucket env (now_sec w) + 1) * windowSec env - now_sec w) |}]>
        (cache w).
Proof.
  intros H. unfold within_limit in H. rewrite rateLimit_run. cbv zeta.
  destruct (maxReq env <=? _) eqn:E; [apply Z.leb_le in E; lia|].
  eexists _, _. split; [reflexivity|]. repeat split; reflexivity.
Qed.

Lemma handle_create req env w :
  is_create req -> handle pf landingHtml req env w = createShort pf req env w.
Proof. intros [Hp Hm]. unfold handle. rewrite Hp, Hm. reflexivity. Qed.

(** A creation request that the rate limiter admits and whose long URL does
    not pass validation is answered 400 or 413 from the world the rate
    limiter left. *)
Lemma createShort_rejected req env w rl w1 :
  LINKS env = true ->
  rateLimit pf req env w = (Returned rl, w1) -> ok rl = true ->
  validated_longUrl pf req = None ->
  exists resp,
    createShort pf req env w = (Returned resp, w1)
    /\ (status resp = 400 \/ status resp = 413).
Proof.
  intros HL Hrl Hok Hv. unfold createShort. rewrite HL. cbn [negb].
  unfold mbind at 1, M_bind at 1. rewrite Hrl, Hok.
  cbn [negb]. unfold validated_longUrl in Hv.
  destruct (req_form req) as [[[b64|]|]|];
    try (eexists; split; [reflexivity|]; rewrite withCors_status; left; reflexivity).
  destruct (String.eqb (Js.trim b64) "");
    [eexists; split; [reflexivity|]; rewrite withCors_status; left; reflexivity|].
  destruct (8192 <? Js.length b64);
    [eexists; split; [reflexivity|]; rewrite withCors_status; right; reflexivity|].
  destruct (base64ToUtf8 pf b64) as [u|];
    [|eexists; split; [reflexivity|]; rewrite withCors_status; left; reflexivity].
  destruct (8192 <? Js.length u);
    [eexists; split; [reflexivity|]; rewrite withCors_status; right; reflexivity|].
  destruct (isHttpUrl pf u); [discriminate|].
  eexists; split; [reflexivity|]; rewrite withCors_status; left; reflexivity.
Qed.

(** A creation request that is admitted and valid goes through the
    allocator, whose outcome decides the response. *)
Lemma createShort_accepted req env w rl w1 u :
  LINKS env = true ->
  rateLimit pf req env w = (Returned rl, w1) -> ok rl = true ->
  validated_longUrl pf req = Some u ->
  createShort pf req env w
  = (create_outcome req env rl (allocate pf env u w1).1, (allocate pf env u w1).2).
Proof.
  intros HL Hrl Hok Hv. unfold createShort. rewrite HL. cbn [negb].
  unfold mbind at 1, M_bind at 1. rewrite Hrl, Hok. cbn [negb].
  unfold validated_longUrl in Hv.
  destruct (req_form req) as [[[b64|]|]|]; try discriminate.
  destruct (String.eqb (Js.trim b64) ""); [discriminate|].
  destruct (8192 <? Js.length b64); [discriminate|].
  destruct (base64ToUtf8 pf b64) as [u'|]; [|discriminate].
  destruct (8192 <? Js.length u'); [discriminate|].
  destruct (isHttpUrl pf u'); [|discriminate]. injection Hv as ->. cbn [negb].
  unfold mbind, M_bind.
  destruct (allocate pf env u w1) as [[[c|]|e] w']; reflexivity.
Qed.

Lemma validated_longUrl_http req u :
  validated_longUrl pf req = Some u -> isHttpUrl pf u = true /\ Js.length u <= 8192.
Proof.
  unfold validated_longUrl.
  destruct (req_form req) as [[[b64|]|]|]; try discriminate.
  destruct (String.eqb (Js.trim b64) ""); [discriminate|].
  destruct (8192 <? Js.length b64); [discriminate|].
  destruct (base64ToUtf8 pf b64) as [u'|]; [|discriminate].
  destruct (8192 <? Js.length u') eqn:El; [discriminate|].
  destruct (isHttpUrl pf u') eqn:Eh; [|discriminate].
  intros [= <-]. split; [exact Eh | apply Z.ltb_ge, El].
Qed.

End HandlerFacts.

(* ===================================================================== *)
(** ** The claims *)
(* ===================================================================== *)

Lemma is_code_char_charset c :
  is_code_char c = existsb (Ascii.eqb c) (list_ascii_of_string token_charset).
Proof. destruct c as [[] [] [] [] [] [] [] []]; reflexivity. Qed.

Lemma in_chars_code_char c : in_chars c = true -> is_code_char c = true.
Proof. destruct c as [[] [] [] [] [] [] [] []]; vm_compute; congruence. Qed.

Lemma is_code_char_In c :
  is_code_char c = true <-> In c (list_ascii_of_string token_charset).
Proof.
  rewrite is_code_char_charset, existsb_exists. split.
  - intros (x & Hx & E). apply Ascii.eqb_eq in E. subst. exact Hx.
  - intros H. exists c. split; [exact H | apply Ascii.eqb_refl].
Qed.

Lemma malformed_no_match token : malformed token -> match_code_path ("/" ++ token) = None.
Proof.
  intros H. rewrite JsFacts.app_cons, JsFacts.app_nil_l. unfold match_code_path.
  destruct H as [H|[H|(c & Hin & Hc)]].
  - apply Nat.leb_gt in H. rewrite H. reflexivity.
  - apply Nat.leb_gt in H. rewrite H, andb_false_r. reflexivity.
  - assert (all_chars is_code_char token = false) as ->;
      [|rewrite andb_false_r; reflexivity].
    destruct (all_chars is_code_char token) eqn:E; [|reflexivity].
    exfalso. apply Hc, is_code_char_In.
    exact (proj1 (JsFacts.all_chars_In _ _) E c Hin).
Qed.

Lemma token_match t : is_token t -> match_code_path ("/" ++ t) = Some t.
Proof.
  intros [Hl Hc]. rewrite JsFacts.app_cons, JsFacts.app_nil_l. unfold match_code_path.
  rewrite Hl. cbn [Nat.leb andb].
  assert (all_chars is_code_char t = true) as ->; [|reflexivity].
  apply JsFacts.all_chars_In. intros c Hin. apply in_chars_code_char.
  exact (proj1 (JsFacts.all_chars_In _ _) Hc c Hin).
Qed.

Lemma token_not_dedup_key t : is_token t -> is_dedup_key t = false.
Proof.
  intros [Hl Hc]. destruct t as [|a [|b t]]; try discriminate Hl.
  cbn [all_chars] in Hc. apply andb_true_iff in Hc as [_ Hc].
  apply andb_true_iff in Hc as [Hb _].
  unfold is_dedup_key.
  destruct a as [[] [] [] [] [] [] [] []]; try reflexivity.
  destruct b as [[] [] [] [] [] [] [] []]; try reflexivity. discriminate.
Qed.

Section Claims.

Variable pf : Platform.
Variable landingHtml : Env -> string.

(** C9: with de-duplication disabled (no [DEDUP_TTL_SEC], the default, or a
    configured value that is not positive), [getDedupCode] answers
    absent and [putDedupCode] writes nothing; both hand the world back
    untouched, so neither calls the KV binding and the namespace is
    unchanged. *)
Theorem C9_dedup_disabled_is_noop (env : Env) (longUrl code : string) (w : World) :
  DEDUP_TTL_SEC env = None \/ dedupTtl env <= 0 ->
  getDedupCode pf env longUrl w = (Returned None, w)
  /\ putDedupCode pf env longUrl code w = (Returned tt, w).
Proof.
  intros H.
  assert (Hle : (dedupTtl env <=? 0) = true).
  { apply Z.leb_le. destruct H as [H|H]; [|exact H].
    unfold dedupTtl. rewrite H. vm_compute. discriminate. }
  unfold getDedupCode, putDedupCode. rewrite Hle. split; reflexivity.
Qed.

(** C6: for every token that fails shape validation (shorter than 3,
    longer than 64, or with a character outside letters, digits, underscore
    and hyphen), the resolver answers 404 Not Found and hands the world
    back untouched: no call on the KV binding is made.  The same holds of
    the whole handler, the landing page [GET /] apart. *)
Theorem C6_malformed_token_not_found (req : Request) (env : Env) (w : World)
    (token : string) :
  req_pathname req = "/" ++ token ->
  malformed token ->
  resolve pf req env w = (Returned (text "Not Found" 404 []), w)
  /\ (token <> "" \/ req_method req <> "GET" ->
      handle pf landingHtml req env w = (Returned (text "Not Found" 404 []), w)).
Proof.
  intros Hp Hm.
  assert (Hres : resolve pf req env w = (Returned (text "Not Found" 404 []), w)).
  { unfold resolve. rewrite Hp, (malformed_no_match _ Hm). reflexivity. }
  split; [exact Hres|]. intros Hl. unfold handle.
  destruct (String.eqb_spec (req_pathname req) "/healthz") as [E|_].
  { exfalso. rewrite Hp in E. rewrite JsFacts.app_cons, JsFacts.app_nil_l in E.
    injection E as ->. apply malformed_no_match in Hm. discriminate. }
  destruct (String.eqb_spec (req_pathname req) "/short") as [E|_].
  { exfalso. rewrite Hp in E. rewrite JsFacts.app_cons, JsFacts.app_nil_l in E.
    injection E as ->. apply malformed_no_match in Hm. discriminate. }
  cbn [andb].
  destruct (String.eqb_spec (req_pathname req) "/") as [E|_]; [|exact Hres].
  destruct (String.eqb_spec (req_method req) "GET") as [E'|_]; [|exact Hres].
  exfalso. rewrite Hp in E. rewrite JsFacts.app_cons, JsFacts.app_nil_l in E.
  injection E as ->. destruct Hl; congruence.
Qed.

Lemma same_kv_view_read w w1 k : same_kv_view w w1 -> kv_read w1 k = kv_read w k.
Proof.
  intros []. apply kv_read_ext; [assumption | unfold now_sec; congruence].
Qed.

Lemma same_kv_view_candidate w w1 i : same_kv_view w w1 -> candidate w1 i = candidate w i.
Proof. intros []. unfold candidate. congruence. Qed.

Lemma same_kv_view_dedup_live env w w1 u :
  same_kv_view w w1 -> dedup_live pf env w1 u = dedup_live pf env w u.
Proof.
  intros H. unfold dedup_live. rewrite !(same_kv_view_read w w1) by exact H.
  destruct (kv_read w (dedupKey pf u)); [|reflexivity].
  rewrite (same_kv_view_read w w1) by exact H. reflexivity.
Qed.

(** Runs only depend on the state of the KV binding, the clock and the
    generator. *)
Lemma AllocRun_view env u w w1 r calls m :
  same_kv_view w w1 -> AllocRun pf env u w1 r calls m -> AllocRun pf env u w r calls m.
Proof.
  intros Hv H.
  pose proof (fun k => same_kv_view_read w w1 k Hv) as Hread.
  pose proof (fun i => same_kv_view_candidate w w1 i Hv) as Hcand.
  pose proof (same_kv_view_dedup_live env w w1 u Hv) as Hlive.
  assert (Hnow : now_sec w1 = now_sec w) by (destruct Hv; unfold now_sec; congruence).
  destruct Hv as [Hkv _ _ _ Hfault Hcalls].
  assert (Hall : forall n : nat,
            (forall j, (j < n)%nat -> Js.truthy (kv_read w1 (candidate w1 j)) = true) ->
            forall j, (j < n)%nat -> Js.truthy (kv_read w (candidate w j)) = true).
  { intros n Hn j Hj. rewrite <- Hcand, <- Hread. exact (Hn j Hj). }
  destruct H;
    subst_lets;
    rewrite ?Hkv, ?Hnow, ?Hlive, ?Hfault, ?Hcalls, ?Hcand in *;
    repeat match goal with
           | H : context [kv_read w1 _] |- _ => rewrite Hread in H
           end.
  - apply run_hit; auto.
  - apply run_exhausted; auto. eapply Hall; eassumption.
  - apply (run_created pf env u w i); auto. eapply Hall; eassumption.
  - apply (run_created_recorded pf env u w i); auto. eapply Hall; eassumption.
  - apply (run_get_failed pf env u w k); auto.
  - apply (run_link_put_failed pf env u w); auto.
  - apply (run_record_failed pf env u w i); auto. eapply Hall; eassumption.
Qed.

(** A valid creation request that the rate limiter admits: what the
    handler does is what the allocator does, from a world with the same KV
    binding, clock and generator. *)
Lemma handle_create_run req env w u r w' :
  is_create req -> LINKS env = true -> within_limit pf req env w ->
  validated_longUrl pf req = Some u ->
  handle pf landingHtml req env w = (r, w') ->
  exists rl ra (calls : list KvCall),
    r = create_outcome req env rl ra
    /\ kv_calls w' = (calls ++ kv_calls w)%list
    /\ AllocRun pf env u w ra calls (kv w')
    /\ kv_fault w' = kv_fault w /\ clock_ms w' = clock_ms w.
Proof.
  intros Hc HL Ha Hv H. rewrite (handle_create pf landingHtml _ _ _ Hc) in H.
  destruct (rateLimit_within_limit pf req env w Ha)
    as (rl & w1 & Hrl & Hok & Hkv & Hcalls & Hfault & Hclock & Hent & Hpos & _).
  rewrite (createShort_accepted pf req env w rl w1 u HL Hrl Hok Hv) in H.
  destruct (allocate pf env u w1) as [ra w2] eqn:Ea. cbn [fst snd] in H.
  injection H as <- <-.
  apply allocate_run in Ea as (Hf & calls & Hc2 & Hrun).
  exists rl, ra, calls. split; [reflexivity|].
  split; [rewrite Hc2, Hcalls; reflexivity|].
  split; [apply (AllocRun_view env u w w1); [split; assumption | exact Hrun]|].
  destruct Hf. split; congruence.
Qed.

(** C4: when each of the six generated candidates is already held by the
    namespace (and no trusted DedupEntry short-cuts the allocation), the
    creation request fails with a 500 response, "Failed to allocate code",
    and makes no write: the namespace is unchanged and every call made on
    the KV binding is a read. *)
Theorem C4_allocation_exhausted (req : Request) (env : Env) (w : World)
    (longUrl : string) :
  is_create req -> LINKS env = true -> within_limit pf req env w ->
  validated_longUrl pf req = Some longUrl ->
  kv_reliable w ->
  dedup_live pf env w longUrl = None ->
  (forall i, (i < 6)%nat -> Js.truthy (kv_read w (candidate w i)) = true) ->
  exists resp w' (calls : list KvCall),
    handle pf landingHtml req env w = (Returned resp, w')
    /\ status resp = 500
    /\ body resp = BodyJson (ApiError "Failed to allocate code")
    /\ kv w' = kv w
    /\ kv_calls w' = (calls ++ kv_calls w)%list
    /\ Forall (fun c => is_get c = true) calls.
Proof.
  intros Hc HL Ha Hv Hrel Hd Hfull.
  destruct (handle pf landingHtml req env w) as [r w'] eqn:E.
  destruct (handle_create_run req env w longUrl r w' Hc HL Ha Hv E)
    as (rl & ra & calls & -> & Hcalls & Hrun & _).
  remember (kv w') as m eqn:Hm.
  destruct Hrun;
    subst_lets;
    try congruence;
    try (rewrite Hrel in *; discriminate);
    try (rewrite Hfull in * by assumption; discriminate).
  eexists _, w', gets. split; [reflexivity|].
  rewrite withCors_status, withCors_body. repeat split; auto.
Qed.

Lemma kv_read_Some w k v :
  kv_read w k = Some v -> exists e, kv w !! k = Some e /\ kv_value e = v.
Proof.
  unfold kv_read. destruct (kv w !! k) as [e|]; [|discriminate].
  intros H. exists e. split; [reflexivity|].
  destruct (kv_expiration e) as [x|]; [destruct (x <=? now_sec w)|]; congruence.
Qed.

(** A key that can still be read at a later time, from the same namespace,
    reads the same. *)
Lemma kv_read_later w w' k v :
  kv w' = kv w -> kv_read w k = Some v -> is_Some (kv_read w' k) -> kv_read w' k = Some v.
Proof.
  intros Hkv Hr Hs. unfold kv_read in *. rewrite Hkv in *.
  destruct (kv w !! k) as [e|]; [|discriminate].
  destruct (kv_expiration e) as [x|]; [|exact Hr].
  destruct (x <=? now_sec w); [discriminate|].
  destruct (x <=? now_sec w'); [destruct Hs; discriminate | exact Hr].
Qed.

Lemma kv_read_link w k u : kv w !! k = Some (link_entry u) -> kv_read w k = Some u.
Proof. unfold kv_read. intros ->. reflexivity. Qed.


Lemma dedupKey_token u t : is_token t -> dedupKey pf u <> t.
Proof.
  intros Ht E. apply token_not_dedup_key in Ht. rewrite <- E in Ht. discriminate.
Qed.


Lemma isHttpUrl_nonempty u :
  URL_protocol pf "" = None -> isHttpUrl pf u = true -> u <> "".
Proof. intros He H ->. unfold isHttpUrl in H. rewrite He in H. discriminate. Qed.

Lemma dedup_live_Some env w u t :
  dedup_live pf env w u = Some t ->
  0 < dedupTtl env /\ kv_read w (dedupKey pf u) = Some t
  /\ Js.truthy (Some t) = true /\ Js.truthy (kv_read w t) = true.
Proof.
  unfold dedup_live. destruct (dedupTtl env <=? 0) eqn:E; [discriminate|].
  apply Z.leb_gt in E. destruct (kv_read w (dedupKey pf u)) as [t'|]; [|discriminate].
  destruct (Js.truthy (Some t')) eqn:Et; [|discriminate].
  destruct (Js.truthy (kv_read w t')) eqn:Ex; [|discriminate].
  cbn. intros [= <-]. auto.
Qed.


(** A visit of [/<token>] reaches the resolver. *)
Lemma handle_visit req env w t :
  is_token t -> req_pathname req = "/" ++ t ->
  handle pf landingHtml req env w = resolve pf req env w.
Proof.
  intros Ht Hp. unfold handle. rewrite Hp.
  rewrite JsFacts.app_cons, JsFacts.app_nil_l.
  destruct (String.eqb_spec (String "/" t) "/healthz") as [E|_].
  { injection E as ->. destruct Ht as [_ Ht]. discriminate. }
  destruct (String.eqb_spec (String "/" t) "/short") as [E|_].
  { injection E as ->. destruct Ht as [Ht _]. discriminate. }
  destruct (String.eqb_spec (String "/" t) "/") as [E|_].
  { injection E as ->. destruct Ht as [Ht _]. discriminate. }
  reflexivity.
Qed.

(** What [isHttpUrl] accepts parses, to an http or https URL whose
    serialization [isHttpUrl] accepts too. *)
Lemma isHttpUrl_parse u :
  isHttpUrl pf u = true ->
  exists x, URL_parse pf u = Some x
            /\ (url_protocol x = "http:" \/ url_protocol x = "https:")
            /\ isHttpUrl pf (url_href x) = true.
Proof.
  unfold isHttpUrl at 1, URL_protocol. intros H.
  destruct (URL_parse pf u) as [x|] eqn:Ex; [|discriminate H].
  cbn [fmap option_fmap option_map] in H.
  assert (Hp : url_protocol x = "http:" \/ url_protocol x = "https:").
  { apply orb_true_iff in H as [H|H]; apply String.eqb_eq in H; auto. }
  exists x. split; [reflexivity|]. split; [exact Hp|].
  unfold isHttpUrl, URL_protocol. rewrite (URL_href_scheme pf u x Ex Hp). exact H.
Qed.


Lemma link_puts_app (a b : list KvCall) :
  link_puts (a ++ b)%list = (link_puts a + link_puts b)%nat.
Proof.
  induction a as [|[k|k v [ttl|]] a IH]; cbn [link_puts app]; rewrite ?IH; reflexivity.
Qed.

Lemma link_puts_gets gets :
  Forall (fun c => is_get c = true) gets -> link_puts gets = 0%nat.
Proof.
  induction 1 as [|[k|k v ttl] gets Hc _ IH]; [reflexivity | exact IH | discriminate].
Qed.

(** A trusted DedupEntry is answered from two reads. *)
Lemma allocate_hit env u w t :
  0 < dedupTtl env ->
  kv_read w (dedupKey pf u) = Some t ->
  Js.truthy (Some t) = true ->
  Js.truthy (kv_read w t) = true ->
  kv_fault w (length (kv_calls w)) = false ->
  kv_fault w (S (length (kv_calls w))) = false ->
  allocate pf env u w
  = (Returned (Some t), log_kv (KvGet t) (log_kv (KvGet (dedupKey pf u)) w)).
Proof.
  intros Httl Hd Ht Hx Hf0 Hf1. unfold allocate, getDedupCode.
  apply Z.leb_gt in Httl. rewrite Httl.
  unfold mbind at 1, M_bind at 1. rewrite get_run, Hf0, Hd, Ht.
  unfold mbind at 1, M_bind at 1. unfold mbind at 1, M_bind at 1.
  cbn [default from_option]. unfold id. rewrite get_run.
  change (kv_fault (log_kv _ w) (length (kv_calls (log_kv _ w))))
    with (kv_fault w (S (length (kv_calls w)))).
  rewrite Hf1. change (kv_read (log_kv _ w) t) with (kv_read w t). rewrite Hx.
  cbn [negb mret M_ret]. rewrite Ht. reflexivity.
Qed.

(** C7: with de-duplication enabled, when [allocate] has returned a token
    for a long URL and is called again for the same URL after some time,
    while the DedupEntry of the URL has not expired (the TTL window) and
    the Link of the token is still in the namespace, it returns the same
    token; over the two calls at most one Link was put. *)
Theorem C7_dedup_returns_same_token (env : Env) (longUrl : string) (w0 w1 : World)
    (token : string) (d : Z) :
  0 < dedupTtl env ->
  allocate pf env longUrl w0 = (Returned (Some token), w1) ->
  0 <= d ->
  is_Some (kv_read (advance_ms d w1) (dedupKey pf longUrl)) ->
  Js.truthy (kv_read (advance_ms d w1) token) = true ->
  kv_fault w1 (length (kv_calls w1)) = false ->
  kv_fault w1 (S (length (kv_calls w1))) = false ->
  exists w3 (calls : list KvCall),
    allocate pf env longUrl (advance_ms d w1) = (Returned (Some token), w3)
    /\ kv_calls w3 = (calls ++ kv_calls w0)%list
    /\ (link_puts calls <= 1)%nat.
Proof.
  intros Httl H1 _ Hwin Hlink Hf0 Hf1.
  apply allocate_run in H1 as (_ & calls & Hcalls & Hrun).
  set (w2 := advance_ms d w1) in *.
  assert (Hfacts : kv_read w2 (dedupKey pf longUrl) = Some token
                   /\ Js.truthy (Some token) = true
                   /\ (link_puts calls <= 1)%nat).
  { remember (kv w1) as m eqn:Hm. remember (Returned (Some token)) as r eqn:Hr.
    destruct Hrun;
      subst_lets; try discriminate;
      injection Hr as <-.
    - apply dedup_live_Some in H as (_ & Hd & Ht & _).
      split; [|split; [exact Ht | rewrite link_puts_gets by assumption; lia]].
      apply (kv_read_later w0); [symmetry; exact Hm | exact Hd | exact Hwin].
    - lia.
    - split; [|split; [apply token_truthy, candidate_token|]].
      + destruct Hwin as [v Hv]. rewrite Hv. f_equal.
        apply kv_read_Some in Hv as (e & He & <-).
        change (kv (advance_ms d w1)) with (kv w1) in He.
        rewrite <- Hm, lookup_insert_eq in He.
        injection He as <-. reflexivity.
      + cbn [link_puts]. rewrite link_puts_gets by assumption. lia. }
  destruct Hfacts as (Hd & Ht & Hputs).
  eexists _, ([KvGet token; KvGet (dedupKey pf longUrl)] ++ calls)%list.
  split; [apply allocate_hit; assumption|].
  split; [subst w2; cbn [kv_calls log_kv advance_ms]; rewrite Hcalls; reflexivity|].
  rewrite link_puts_app. cbn [link_puts]. lia.
Qed.

(** C8 (amended): with de-duplication enabled, when the DedupEntry of a
    URL names a token whose Link is absent, a successful [allocate] for
    that URL ignores the entry: it returns the first generated candidate
    that the namespace does not hold (a token that may happen to be the
    stale one again), writes its Link and overwrites the DedupEntry with
    the new token.  No key of the namespace is deleted. *)
Theorem C8_stale_entry_bypassed (env : Env) (longUrl : string) (w w' : World)
    (stale token : string) :
  0 < dedupTtl env ->
  kv_read w (dedupKey pf longUrl) = Some stale ->
  Js.truthy (kv_read w stale) = false ->
  allocate pf env longUrl w = (Returned (Some token), w') ->
  (exists i, (i < 6)%nat /\ token = candidate w i
             /\ forall j, (j < i)%nat -> Js.truthy (kv_read w (candidate w j)) = true)
  /\ is_token token
  /\ Js.truthy (kv_read w token) = false
  /\ kv w' = <[dedupKey pf longUrl := dedup_entry token (now_sec w) (dedupTtl env)]>
               (<[token := link_entry longUrl]> (kv w))
  /\ (forall k, is_Some (kv w !! k) -> is_Some (kv w' !! k)).
Proof.
  intros Httl Hd Habs H. apply allocate_run in H as (_ & calls & _ & Hrun).
  remember (kv w') as m eqn:Hm. remember (Returned (Some token)) as r eqn:Hr.
  destruct Hrun;
    subst_lets; try discriminate;
    injection Hr as <-.
  - apply dedup_live_Some in H as (_ & Hd' & _ & Hx). congruence.
  - lia.
  - split; [eauto|]. split; [apply candidate_token|]. split; [assumption|].
    split; [reflexivity|].
    intros k Hk. rewrite !lookup_insert_is_Some.
    destruct (decide (dedupKey pf longUrl = k)); [left; assumption | right].
    split; [assumption|].
    destruct (decide (candidate w i = k)); [left; assumption | right; auto].
Qed.

(** C3 (amended): when the last call a valid, admitted creation request
    makes on the KV binding is the write of the DedupEntry and the binding
    rejects it, the rejection is not caught: the handler produces no
    response and ends with that exception, although the Link put just
    before it succeeded and stays in the namespace. *)
Theorem C3_record_failure_propagates (req : Request) (env : Env) (w w' : World)
    (longUrl code : string) (r : Outcome Response) (calls : list KvCall) :
  is_create req -> LINKS env = true -> within_limit pf req env w ->
  validated_longUrl pf req = Some longUrl ->
  handle pf landingHtml req env w = (r, w') ->
  kv_calls w'
  = (KvPut (dedupKey pf longUrl) code (Some (dedupTtl env)) :: calls ++ kv_calls w)%list ->
  kv_fault w (length (calls ++ kv_calls w)%list) = true ->
  r = Thrown (KvError (KvPut (dedupKey pf longUrl) code (Some (dedupTtl env))))
  /\ kv w' !! code = Some (link_entry longUrl)
  /\ exists gets, calls = KvPut code longUrl None :: gets
                  /\ Forall (fun c => is_get c = true) gets.
Proof.
  intros Hc HL Ha Hv H Hlast Hfault.
  destruct (handle_create_run req env w longUrl r w' Hc HL Ha Hv H)
    as (rl & ra & calls0 & -> & Hcalls & Hrun & _).
  rewrite Hcalls, app_comm_cons in Hlast. apply app_inv_tail in Hlast. subst calls0.
  remember (kv w') as m eqn:Hm.
  remember (KvPut (dedupKey pf longUrl) code (Some (dedupTtl env)) :: calls) as cs eqn:Hcs.
  destruct Hrun;
    subst_lets;
    try discriminate Hcs;
    try match goal with
        | Hg : Forall _ ?g |- _ => rewrite Hcs in Hg; inversion Hg; discriminate
        end.
  - injection Hcs as <- <-. cbn [length app] in Hfault. congruence.
  - injection Hcs as <- <-. cbn [create_outcome].
    split; [reflexivity|]. split; [apply lookup_insert_eq|]. eauto.
Qed.

(* ---------------------------------------------------------------------- *)
(** *** Rate limiter *)

Lemma windowSec_pos env : 0 < windowSec env.
Proof. unfold windowSec. lia. Qed.

Lemma rl_key_bucket env now now' ip :
  rl_bucket env now = rl_bucket env now' -> rl_key pf env now ip = rl_key pf env now' ip.
Proof. unfold rl_key. intros ->. reflexivity. Qed.

Lemma rl_key_inj env now now' ip :
  rl_key pf env now ip = rl_key pf env now' ip -> rl_bucket env now = rl_bucket env now'.
Proof.
  unfold rl_key. intros H. apply String.app_inj in H.
  apply JsFacts.app_inv_tail in H. apply JsFacts.String_of_inj, H.
Qed.

(** Inside a window, the end of the window is ahead. *)
Lemma bucket_end env now now' :
  rl_bucket env now' = rl_bucket env now ->
  now' < (rl_bucket env now + 1) * windowSec env.
Proof.
  intros <-. unfold rl_bucket. pose proof (windowSec_pos env) as HW.
  pose proof (Z.mul_succ_div_gt now' (windowSec env) HW). lia.
Qed.

(** One call of the rate limiter followed by a wait. *)
Lemma rl_step req env w d :
  let ip := getClientIp req in
  let s := rateLimit pf req env w in
  let w' := advance_ms d s.2 in
  clock_ms w' = clock_ms w + d
  /\ (forall now', rl_bucket env now' <> rl_bucket env (now_sec w) ->
        cache w' !! rl_key pf env now' ip = cache w !! rl_key pf env now' ip)
  /\ (rl_count pf env w ip < maxReq env ->
        decision s = Some (true, maxReq env - (rl_count pf env w ip + 1))
        /\ (rl_bucket env (now_sec w') = rl_bucket env (now_sec w) ->
            rl_count pf env w' ip = rl_count pf env w ip + 1))
  /\ (maxReq env <= rl_count pf env w ip -> decision s = Some (false, 0)).
Proof.
  cbv zeta. rewrite rateLimit_run. cbv zeta.
  destruct (maxReq env <=? rl_count pf env w (getClientIp req)) eqn:E.
  - apply Z.leb_le in E. split; [reflexivity|]. split; [reflexivity|].
    split; [intros; lia | intros; reflexivity].
  - apply Z.leb_gt in E. split; [reflexivity|]. split.
    { intros now' Hb. cbn [snd cache advance_ms with_cache].
      apply lookup_insert_ne. intros Hk. apply rl_key_inj in Hk. congruence. }
    split; [|intros; lia]. intros _. split; [reflexivity|]. intros Hb.
    unfold rl_count at 1, cache_read.
    rewrite (rl_key_bucket env _ (now_sec w) _ Hb).
    cbn [snd cache advance_ms with_cache]. rewrite lookup_insert_eq.
    cbn [ce_stored ce_max_age ce_body].
    pose proof (bucket_end env (now_sec w) _ Hb) as Hend.
    destruct (_ <? _) eqn:Efresh; [apply JsFacts.num_or_0_String_of|].
    apply Z.ltb_ge in Efresh.
    unfold now_sec in *. cbn [snd clock_ms advance_ms with_cache log_cache] in *. lia.
Qed.

Lemma rl_count_fresh env w ip :
  cache w !! rl_key pf env (now_sec w) ip = None -> rl_count pf env w ip = 0.
Proof. unfold rl_count, cache_read. intros ->. reflexivity. Qed.

(** C5: with a window of 60 seconds and a maximum of 3, for a client
    without counters, the first three calls within one window are allowed
    with remaining 2, 1 and 0, the fourth call in that window is refused
    with remaining 0, and a call after the window boundary is allowed
    again.  On every allowed call (second part, for any world) the counter
    read is incremented and put back with a max-age of max(1, resetIn),
    where resetIn = (bucket + 1) * W - now. *)
Theorem C5_fixed_window_counter (env : Env) (req : Request) (w0 : World)
    (d1 d2 d3 d4 : Z) :
  windowSec env = 60 -> maxReq env = 3 ->
  (forall now, cache w0 !! rl_key pf env now (getClientIp req) = None) ->
  0 <= d1 -> 0 <= d2 -> 0 <= d3 -> 0 <= d4 ->
  (clock_ms w0 + d1 + d2 + d3) / 1000 / 60 = now_sec w0 / 60 ->
  (clock_ms w0 + d1 + d2 + d3 + d4) / 1000 / 60 <> now_sec w0 / 60 ->
  let s1 := rateLimit pf req env w0 in
  let s2 := rateLimit pf req env (advance_ms d1 s1.2) in
  let s3 := rateLimit pf req env (advance_ms d2 s2.2) in
  let s4 := rateLimit pf req env (advance_ms d3 s3.2) in
  let s5 := rateLimit pf req env (advance_ms d4 s4.2) in
  (decision s1 = Some (true, 2) /\ decision s2 = Some (true, 1)
   /\ decision s3 = Some (true, 0) /\ decision s4 = Some (false, 0)
   /\ decision s5 = Some (true, 2))
  /\ forall w, within_limit pf req env w ->
       let key := rl_key pf env (now_sec w) (getClientIp req) in
       let count := rl_count pf env w (getClientIp req) in
       let reset := (rl_bucket env (now_sec w) + 1) * 60 - now_sec w in
       exists w',
         rateLimit pf req env w
         = (Returned {| ok := true; remaining := 3 - (count + 1); resetIn := reset |}, w')
         /\ cache w' !! key
            = Some {| ce_body := Js.String_of (count + 1); ce_stored := now_sec w;
                      ce_max_age := Z.max 1 reset |}
         /\ cache_calls w'
            = CachePut key (Js.String_of (count + 1)) (Z.max 1 reset)
                :: CacheMatch key :: cache_calls w.
Proof.
  intros HW HM Hfresh Hd1 Hd2 Hd3 Hd4 Hsame Hnext. cbv zeta. split.
  - set (ip := getClientIp req).
    assert (Hb : forall now, rl_bucket env now = now / 60)
      by (intros now; unfold rl_bucket; rewrite HW; reflexivity).
    destruct (rl_step req env w0 d1) as (Hc1 & Ho1 & Ha1 & _).
    set (w1 := advance_ms d1 (rateLimit pf req env w0).2) in *.
    destruct (rl_step req env w1 d2) as (Hc2 & Ho2 & Ha2 & _).
    set (w2 := advance_ms d2 (rateLimit pf req env w1).2) in *.
    destruct (rl_step req env w2 d3) as (Hc3 & Ho3 & Ha3 & _).
    set (w3 := advance_ms d3 (rateLimit pf req env w2).2) in *.
    destruct (rl_step req env w3 d4) as (Hc4 & Ho4 & _ & Hr4).
    set (w4 := advance_ms d4 (rateLimit pf req env w3).2) in *.
    destruct (rl_step req env w4 0) as (_ & _ & Ha5 & _).
    fold ip in Ho1, Ho2, Ho3, Ho4, Ha1, Ha2, Ha3, Hr4, Ha5.
    assert (Hn0 : now_sec w0 = clock_ms w0 / 1000) by reflexivity.
    assert (Hn1 : now_sec w1 = (clock_ms w0 + d1) / 1000)
      by (unfold now_sec; rewrite Hc1; reflexivity).
    assert (Hn2 : now_sec w2 = (clock_ms w0 + d1 + d2) / 1000)
      by (unfold now_sec; rewrite Hc2, Hc1; reflexivity).
    assert (Hn3 : now_sec w3 = (clock_ms w0 + d1 + d2 + d3) / 1000)
      by (unfold now_sec; rewrite Hc3, Hc2, Hc1; reflexivity).
    assert (Hn4 : now_sec w4 = (clock_ms w0 + d1 + d2 + d3 + d4) / 1000)
      by (unfold now_sec; rewrite Hc4, Hc3, Hc2, Hc1; reflexivity).
    assert (Hmono : now_sec w0 <= now_sec w1 <= now_sec w2 /\ now_sec w2 <= now_sec w3).
    { rewrite Hn0, Hn1, Hn2, Hn3. repeat split; apply Z.div_le_mono; lia. }
    assert (Hb1 : now_sec w1 / 60 = now_sec w0 / 60 /\ now_sec w2 / 60 = now_sec w0 / 60
                  /\ now_sec w3 / 60 = now_sec w0 / 60).
    { rewrite <- Hn3 in Hsame. destruct Hmono as ([H01 H12] & H23).
      pose proof (Z.div_le_mono _ _ 60 ltac:(lia) H01).
      pose proof (Z.div_le_mono _ _ 60 ltac:(lia) H12).
      pose proof (Z.div_le_mono _ _ 60 ltac:(lia) H23). lia. }
    destruct Hb1 as (Hb1 & Hb2 & Hb3).
    rewrite HM in *.
    assert (C0 : rl_count pf env w0 ip = 0) by apply rl_count_fresh, Hfresh.
    destruct Ha1 as [D1 C1]; [lia|]. rewrite !Hb in C1. specialize (C1 Hb1).
    destruct Ha2 as [D2 C2]; [lia|]. rewrite !Hb in C2. specialize (C2 ltac:(lia)).
    destruct Ha3 as [D3 C3]; [lia|]. rewrite !Hb in C3. specialize (C3 ltac:(lia)).
    specialize (Hr4 ltac:(lia)).
    assert (C4 : rl_count pf env w4 ip = 0).
    { apply rl_count_fresh.
      assert (Hne : rl_bucket env (now_sec w4) <> rl_bucket env (now_sec w0))
        by (rewrite !Hb, Hn4; exact Hnext).
      rewrite Ho4 by (rewrite !Hb in *; lia).
      rewrite Ho3 by (rewrite !Hb in *; lia).
      rewrite Ho2 by (rewrite !Hb in *; lia).
      rewrite Ho1 by exact Hne. apply Hfresh. }
    destruct Ha5 as [D5 _]; [lia|].
    rewrite D1, D2, D3, Hr4, D5, ?C2, ?C1, ?C0, ?C4. repeat split; reflexivity.
  - intros w Ha. cbv zeta. unfold within_limit in Ha. rewrite rateLimit_run. cbv zeta.
    destruct (maxReq env <=? _) eqn:E; [apply Z.leb_le in E; lia|].
    rewrite HW, HM. eexists. split; [reflexivity|].
    split; [apply lookup_insert_eq | reflexivity].
Qed.

(** C10: a creation request that the rate limiter admits leaves the
    client's window counter one higher, stored in the cache, whatever the
    handler does next; when the long URL then fails validation (missing,
    oversized, undecodable or not http/https), the request is answered 400
    or 413 without any call on the KV binding, and the unit of quota
    stays consumed. *)
Theorem C10_allowed_request_consumes_quota (req : Request) (env : Env) (w w' : World)
    (r : Outcome Response) :
  is_create req -> LINKS env = true -> within_limit pf req env w ->
  handle pf landingHtml req env w = (r, w') ->
  let ip := getClientIp req in
  let key := rl_key pf env (now_sec w) ip in
  let count := rl_count pf env w ip in
  cache w' !! key
  = Some {| ce_body := Js.String_of (count + 1); ce_stored := now_sec w;
            ce_max_age :=
              Z.max 1 ((rl_bucket env (now_sec w) + 1) * windowSec env - now_sec w) |}
  /\ rl_count pf env w' ip = count + 1
  /\ (validated_longUrl pf req = None ->
      exists resp, r = Returned resp /\ (status resp = 400 \/ status resp = 413)
                   /\ kv w' = kv w /\ kv_calls w' = kv_calls w).
Proof.
  intros Hc HL Ha H. cbv zeta.
  rewrite (handle_create pf landingHtml _ _ _ Hc) in H.
  destruct (rateLimit_within_limit pf req env w Ha)
    as (rl & w1 & Hrl & Hok & Hkv & Hcalls & Hfault & Hclock & Hent & Hpos & Hcache).
  assert (Hw' : cache w' = cache w1 /\ clock_ms w' = clock_ms w1
                /\ (validated_longUrl pf req = None ->
                    exists resp, r = Returned resp
                                 /\ (status resp = 400 \/ status resp = 413) /\ w' = w1)).
  { destruct (validated_longUrl pf req) as [u|] eqn:Hv.
    - rewrite (createShort_accepted pf req env w rl w1 u HL Hrl Hok Hv) in H.
      destruct (allocate pf env u w1) as [ra w2] eqn:Ea. cbn [fst snd] in H.
      injection H as <- <-. apply allocate_run in Ea as ([] & _).
      split; [assumption|]. split; [assumption | discriminate].
    - destruct (createShort_rejected pf req env w rl w1 HL Hrl Hok Hv)
        as (resp & Hresp & Hst).
      rewrite Hresp in H. injection H as <- <-.
      split; [reflexivity|]. split; [reflexivity|]. intros _. eauto. }
  destruct Hw' as (Hcw & Hcl & Hrej).
  assert (Hnow : now_sec w' = now_sec w) by (unfold now_sec; congruence).
  assert (Hlook : cache w' !! rl_key pf env (now_sec w) (getClientIp req)
                  = Some {| ce_body :=
                              Js.String_of (rl_count pf env w (getClientIp req) + 1);
                            ce_stored := now_sec w;
                            ce_max_age :=
                              Z.max 1 ((rl_bucket env (now_sec w) + 1) * windowSec env
                                       - now_sec w) |}).
  { rewrite Hcw, Hcache. apply lookup_insert_eq. }
  split; [exact Hlook|]. split.
  - unfold rl_count at 1, cache_read. rewrite Hnow, Hlook.
    cbn [ce_stored ce_max_age ce_body].
    destruct (_ <? _) eqn:Efresh; [apply JsFacts.num_or_0_String_of|].
    apply Z.ltb_ge in Efresh. lia.
  - intros Hv. destruct (Hrej Hv) as (resp & -> & Hst & ->).
    exists resp. auto.
Qed.

End Claims.

(* ===================================================================== *)
(** ** The namespace the worker builds *)
(* ===================================================================== *)

Section StoreInvariant.

Variable pf : Platform.
Variable landingHtml : Env -> string.
Hypothesis URL_rejects_empty : URL_protocol pf "" = None.

Lemma StoreInv_empty w : kv w = ∅ -> StoreInv pf w.
Proof.
  intros H. split; intros k e He; rewrite H, lookup_empty in He; discriminate.
Qed.

Lemma StoreInv_kv w w' : kv w' = kv w -> StoreInv pf w -> StoreInv pf w'.
Proof. unfold StoreInv. intros ->. auto. Qed.

(** Writing the Link of a token that could not be read keeps the
    invariant. *)
Lemma StoreInv_link w w' c u :
  StoreInv pf w -> is_token c -> Js.truthy (kv_read w c) = false -> u <> "" ->
  kv w' = <[c := link_entry u]> (kv w) -> StoreInv pf w'.
Proof.
  intros [I1 I2] Hc Habs Hu Hkv. split; intros k e He Hk; rewrite Hkv in *.
  - destruct (decide (c = k)) as [<-|Hne].
    + rewrite lookup_insert_eq in He. injection He as <-. split; [reflexivity | exact Hu].
    + rewrite lookup_insert_ne in He by exact Hne. eauto.
  - assert (Hne : c <> k).
    { intros <-. rewrite (token_not_dedup_key c Hc) in Hk. discriminate. }
    rewrite lookup_insert_ne in He by exact Hne.
    destruct (I2 k e He Hk) as (Ht & v & Hv & Hd). split; [exact Ht|].
    exists v. split; [|exact Hd].
    rewrite lookup_insert_ne; [exact Hv|]. intros Heq. rewrite <- Heq in Hv.
    destruct (I1 _ _ Hv (token_not_dedup_key _ Hc)) as [_ Hne'].
    rewrite (kv_read_link _ _ _ Hv) in Habs. cbn [kv_value link_entry] in Hne'.
    apply JsFacts.truthy_Some in Hne'. congruence.
Qed.

(** Recording the DedupEntry of a Link that exists keeps the invariant. *)
Lemma StoreInv_record w w' c u now ttl :
  StoreInv pf w -> is_token c -> kv w !! c = Some (link_entry u) ->
  kv w' = <[dedupKey pf u := dedup_entry c now ttl]> (kv w) -> StoreInv pf w'.
Proof.
  intros [I1 I2] Hc Hl Hkv. split; intros k e He Hk; rewrite Hkv in *.
  - assert (Hne : dedupKey pf u <> k) by (intros <-; discriminate).
    rewrite lookup_insert_ne in He by exact Hne. eauto.
  - destruct (decide (dedupKey pf u = k)) as [<-|Hne].
    + rewrite lookup_insert_eq in He. injection He as <-. split; [exact Hc|].
      exists u. split; [|reflexivity]. cbn [kv_value dedup_entry].
      rewrite lookup_insert_ne by (apply dedupKey_token, Hc). exact Hl.
    + rewrite lookup_insert_ne in He by exact Hne.
      destruct (I2 k e He Hk) as (Ht & v & Hv & Hd). split; [exact Ht|].
      exists v. split; [|exact Hd].
      rewrite lookup_insert_ne by (apply dedupKey_token, Ht). exact Hv.
Qed.

(** The allocator keeps the invariant, whatever its outcome. *)
Lemma StoreInv_allocate env u w r w' :
  isHttpUrl pf u = true -> StoreInv pf w ->
  allocate pf env u w = (r, w') -> StoreInv pf w'.
Proof.
  intros Hu Hinv H. apply allocate_run in H as (_ & calls & _ & Hrun).
  pose proof (isHttpUrl_nonempty pf u URL_rejects_empty Hu) as Hne.
  remember (kv w') as m eqn:Hm.
  destruct Hrun; subst_lets;
    try (apply (StoreInv_kv w); [congruence | exact Hinv]).
  - eapply StoreInv_link; eauto using candidate_token.
  - set (w1 := with_kv (<[candidate w i := link_entry u]> (kv w)) w).
    assert (H1' : StoreInv pf w1).
    { eapply (StoreInv_link w w1); eauto using candidate_token. }
    eapply (StoreInv_record w1 w'); eauto using candidate_token.
    apply lookup_insert_eq.
  - eapply StoreInv_link; eauto using candidate_token.
Qed.

(** Time passing keeps the invariant. *)
Lemma StoreInv_advance d w : StoreInv pf w -> StoreInv pf (advance_ms d w).
Proof. apply StoreInv_kv. reflexivity. Qed.

Lemma resolve_kv req env w r w' : resolve pf req env w = (r, w') -> kv w' = kv w.
Proof.
  assert (Hret : forall (x : Response) w0,
            (mret x : M Response) w0 = (r, w') -> kv w' = kv w0).
  { intros x w0 H. injection H as _ <-. reflexivity. }
  unfold resolve. destruct (match_code_path (req_pathname req)) as [code|];
    [|apply Hret].
  destruct (_ || _); [|apply Hret].
  destruct (LINKS env); cbn [negb]; [|apply Hret].
  unfold mbind, M_bind. rewrite get_run.
  destruct (kv_fault w _); [intros H; injection H as _ <-; reflexivity|].
  destruct (negb _); [intros H; apply Hret in H; exact H|].
  unfold Response_redirect. cbv beta.
  destruct (URL_parse pf (default "" (kv_read w code)));
    intros H; injection H as _ <-; reflexivity.
Qed.

Lemma rateLimit_kv req env w : kv (rateLimit pf req env w).2 = kv w.
Proof. rewrite rateLimit_run. cbv zeta. destruct (_ <=? _); reflexivity. Qed.

(** X22: Every request keeps the invariant: the namespace is only written by
    the allocator, for a long URL that passed validation. *)
Theorem StoreInv_handle req env w r w' :
  StoreInv pf w -> handle pf landingHtml req env w = (r, w') -> StoreInv pf w'.
Proof.
  intros Hinv H. unfold handle in H.
  destruct (String.eqb (req_pathname req) "/healthz");
    [injection H as <- <-; exact Hinv|].
  destruct (_ && _); [injection H as <- <-; exact Hinv|].
  destruct (_ && _).
  2:{ destruct (_ && _); [injection H as <- <-; exact Hinv|].
      apply resolve_kv in H. eapply StoreInv_kv; eassumption. }
  unfold createShort in H.
  destruct (LINKS env); cbn [negb] in H; [|injection H as <- <-; exact Hinv].
  unfold mbind at 1, M_bind at 1 in H.
  pose proof (rateLimit_kv req env w) as Hkv.
  assert (Hrl : exists rl, (rateLimit pf req env w).1 = Returned rl).
  { rewrite rateLimit_run. cbv zeta. destruct (_ <=? _); eauto. }
  destruct Hrl as [rl Hrl].
  destruct (rateLimit pf req env w) as [o w1]. cbn [fst snd] in *. subst o.
  assert (Hinv1 : StoreInv pf w1) by (eapply StoreInv_kv; eassumption).
  destruct (negb (ok rl)); [injection H as <- <-; exact Hinv1|].
  destruct (req_form req) as [[[b64|]|]|];
    try (injection H as <- <-; exact Hinv1).
  destruct (String.eqb (Js.trim b64) ""); [injection H as <- <-; exact Hinv1|].
  destruct (8192 <? Js.length b64); [injection H as <- <-; exact Hinv1|].
  destruct (base64ToUtf8 pf b64) as [u|]; [|injection H as <- <-; exact Hinv1].
  destruct (8192 <? Js.length u); [injection H as <- <-; exact Hinv1|].
  destruct (isHttpUrl pf u) eqn:Hu; cbn [negb] in H;
    [|injection H as <- <-; exact Hinv1].
  unfold mbind, M_bind in H.
  destruct (allocate pf env u w1) as [ra w2] eqn:Ea.
  apply (StoreInv_allocate _ _ _ _ _ Hu Hinv1) in Ea.
  destruct ra as [[c|]|e]; injection H as <- <-; exact Ea.
Qed.

(** X23: After a creating call, the DedupEntry is readable exactly until
    [expirationTtl] seconds have passed. *)
Lemma dedup_window_after_creation env u w0 w1 t d :
  0 < dedupTtl env -> dedup_live pf env w0 u = None ->
  allocate pf env u w0 = (Returned (Some t), w1) ->
  is_Some (kv_read (advance_ms d w1) (dedupKey pf u))
  <-> now_sec (advance_ms d w1) < now_sec w0 + dedupTtl env.
Proof.
  intros Httl Hd H. apply allocate_run in H as (_ & calls & _ & Hrun).
  remember (kv w1) as m eqn:Hm. remember (Returned (Some t)) as r eqn:Hr.
  destruct Hrun; subst_lets;
    try discriminate; try congruence; try lia.
  unfold kv_read. change (kv (advance_ms d w1)) with (kv w1).
  rewrite <- Hm, lookup_insert_eq. cbn [kv_expiration kv_value dedup_entry].
  destruct (_ <=? _) eqn:E.
  - apply Z.leb_le in E. split; [intros [? ?]; discriminate | lia].
  - apply Z.leb_gt in E. split; [lia | eauto].
Qed.

End StoreInvariant.

(* ===================================================================== *)
(** ** The claims on sample runs *)
(* ===================================================================== *)

(** C3, as the specification words it, fails.  De-duplication is on and the
    KV binding rejects its fourth call, the write of the DedupEntry: the
    Link has been written, and the request does not complete with a 200
    response; the handler ends with the exception of the rejected write. *)
Lemma C3_record_failure_is_surfaced :
  let run := handle Sample.platform Sample.page Sample.create Sample.env_dedup
               (Sample.world_failing 3) in
  kv_calls run.2
  = [KvPut (dedupKey Sample.platform Sample.longUrl) Sample.first_code (Some 3600);
     KvPut Sample.first_code Sample.longUrl None;
     KvGet Sample.first_code;
     KvGet (dedupKey Sample.platform Sample.longUrl)]
  /\ kv run.2 !! Sample.first_code = Some (link_entry Sample.longUrl)
  /\ run.1 = Thrown (KvError (KvPut (dedupKey Sample.platform Sample.longUrl)
                                Sample.first_code (Some 3600)))
  /\ ~ exists resp, run.1 = Returned resp /\ status resp = 200.
Proof.
  cbv zeta. split; [vm_compute; reflexivity|]. split; [vm_compute; reflexivity|].
  assert (H : (handle Sample.platform Sample.page Sample.create Sample.env_dedup
                 (Sample.world_failing 3)).1
              = Thrown (KvError (KvPut (dedupKey Sample.platform Sample.longUrl)
                                   Sample.first_code (Some 3600))))
    by (vm_compute; reflexivity).
  split; [exact H|]. intros (resp & Hr & _). rewrite H in Hr. discriminate.
Qed.

(** C8, as the specification words it, fails.  The DedupEntry of the URL
    names a token whose Link is absent, and the generator draws that very
    token again: [allocate] returns it, so the new token is not distinct
    from the stale one. *)
Lemma C8_new_token_equals_stale :
  let w := Sample.world_stale Sample.first_code in
  0 < dedupTtl Sample.env_dedup
  /\ kv_read w (dedupKey Sample.platform Sample.longUrl) = Some Sample.first_code
  /\ kv_read w Sample.first_code = None
  /\ (allocate Sample.platform Sample.env_dedup Sample.longUrl w).1
     = Returned (Some Sample.first_code).
Proof. cbv zeta. repeat split; vm_compute; reflexivity. Qed.



Lemma C3_record_failure_propagates_witness :
  let run := handle Sample.platform Sample.page Sample.create Sample.env_dedup
               (Sample.world_failing 3) in
  let put := KvPut (dedupKey Sample.platform Sample.longUrl) Sample.first_code
               (Some (dedupTtl Sample.env_dedup)) in
  run.1 = Thrown (KvError put)
  /\ kv run.2 !! Sample.first_code = Some (link_entry Sample.longUrl)
  /\ exists gets,
       [KvPut Sample.first_code Sample.longUrl None; KvGet Sample.first_code;
        KvGet (dedupKey Sample.platform Sample.longUrl)]
       = KvPut Sample.first_code Sample.longUrl None :: gets
       /\ Forall (fun c => is_get c = true) gets.
Proof.
  cbv zeta.
  apply (C3_record_failure_propagates Sample.platform Sample.page Sample.create
           Sample.env_dedup (Sample.world_failing 3)).
  - split; reflexivity.
  - reflexivity.
  - vm_compute. reflexivity.
  - vm_compute. reflexivity.
  - apply surjective_pairing.
  - vm_compute. reflexivity.
  - reflexivity.
Defined.

Lemma C4_allocation_exhausted_witness :
  exists resp w' (calls : list KvCall),
    handle Sample.platform Sample.page Sample.create Sample.env_dedup Sample.world_full
    = (Returned resp, w')
    /\ status resp = 500
    /\ body resp = BodyJson (ApiError "Failed to allocate code")
    /\ kv w' = kv Sample.world_full
    /\ kv_calls w' = (calls ++ kv_calls Sample.world_full)%list
    /\ Forall (fun c => is_get c = true) calls.
Proof.
  apply (C4_allocation_exhausted Sample.platform Sample.page Sample.create
           Sample.env_dedup Sample.world_full Sample.longUrl).
  - split; reflexivity.
  - reflexivity.
  - vm_compute. reflexivity.
  - vm_compute. reflexivity.
  - intros n. reflexivity.
  - vm_compute. reflexivity.
  - intros i Hi.
    do 6 (destruct i as [|i]; [vm_compute; reflexivity|]). lia.
Defined.

Lemma C5_fixed_window_counter_witness :
  let s1 := rateLimit Sample.platform Sample.create Sample.env_rl Sample.world in
  let s2 := rateLimit Sample.platform Sample.create Sample.env_rl (advance_ms 1000 s1.2) in
  let s3 := rateLimit Sample.platform Sample.create Sample.env_rl (advance_ms 1000 s2.2) in
  let s4 := rateLimit Sample.platform Sample.create Sample.env_rl (advance_ms 1000 s3.2) in
  let s5 := rateLimit Sample.platform Sample.create Sample.env_rl (advance_ms 60000 s4.2) in
  decision s1 = Some (true, 2) /\ decision s2 = Some (true, 1)
  /\ decision s3 = Some (true, 0) /\ decision s4 = Some (false, 0)
  /\ decision s5 = Some (true, 2).
Proof.
  apply (C5_fixed_window_counter Sample.platform Sample.env_rl Sample.create Sample.world
           1000 1000 1000 60000).
  - reflexivity.
  - reflexivity.
  - intros now. apply lookup_empty.
  - lia.
  - lia.
  - lia.
  - lia.
  - vm_compute. reflexivity.
  - vm_compute. discriminate.
Defined.

Lemma C6_malformed_token_not_found_witness :
  resolve Sample.platform (Sample.visit "a.b") Sample.env Sample.world
  = (Returned (text "Not Found" 404 []), Sample.world)
  /\ ("a.b" <> "" \/ req_method (Sample.visit "a.b") <> "GET" ->
      handle Sample.platform Sample.page (Sample.visit "a.b") Sample.env Sample.world
      = (Returned (text "Not Found" 404 []), Sample.world)).
Proof.
  apply (C6_malformed_token_not_found Sample.platform Sample.page).
  - reflexivity.
  - right. right. exists "."%char. split.
    + vm_compute. auto.
    + vm_compute. intuition discriminate.
Defined.

Lemma C7_dedup_returns_same_token_witness :
  exists w3 (calls : list KvCall),
    allocate Sample.platform Sample.env_dedup Sample.longUrl
      (advance_ms 600000 Sample.world_created)
    = (Returned (Some Sample.first_code), w3)
    /\ kv_calls w3 = (calls ++ kv_calls Sample.world)%list
    /\ (link_puts calls <= 1)%nat.
Proof.
  apply (C7_dedup_returns_same_token Sample.platform).
  - vm_compute. reflexivity.
  - vm_compute. reflexivity.
  - lia.
  - vm_compute. eexists. reflexivity.
  - vm_compute. reflexivity.
  - reflexivity.
  - reflexivity.
Defined.

Lemma C8_stale_entry_bypassed_witness :
  let w := Sample.world_stale "zzzzzzz" in
  let w' := (allocate Sample.platform Sample.env_dedup Sample.longUrl w).2 in
  (exists i, (i < 6)%nat /\ Sample.first_code = candidate w i
             /\ forall j, (j < i)%nat -> Js.truthy (kv_read w (candidate w j)) = true)
  /\ is_token Sample.first_code
  /\ Js.truthy (kv_read w Sample.first_code) = false
  /\ kv w' = <[dedupKey Sample.platform Sample.longUrl :=
                 dedup_entry Sample.first_code (now_sec w) (dedupTtl Sample.env_dedup)]>
               (<[Sample.first_code := link_entry Sample.longUrl]> (kv w))
  /\ (forall k, is_Some (kv w !! k) -> is_Some (kv w' !! k)).
Proof.
  cbv zeta.
  apply (C8_stale_entry_bypassed Sample.platform Sample.env_dedup Sample.longUrl
           (Sample.world_stale "zzzzzzz") _ "zzzzzzz").
  - vm_compute. reflexivity.
  - vm_compute. reflexivity.
  - vm_compute. reflexivity.
  - vm_compute. reflexivity.
Defined.

Lemma C9_dedup_disabled_is_noop_witness :
  getDedupCode Sample.platform Sample.env Sample.longUrl Sample.world
  = (Returned None, Sample.world)
  /\ putDedupCode Sample.platform Sample.env Sample.longUrl Sample.first_code Sample.world
     = (Returned tt, Sample.world).
Proof.
  apply (C9_dedup_disabled_is_noop Sample.platform). left. reflexivity.
Defined.

Lemma C10_allowed_request_consumes_quota_witness :
  let run := handle Sample.platform Sample.page Sample.create_ftp Sample.env Sample.world in
  let ip := getClientIp Sample.create_ftp in
  let key := rl_key Sample.platform Sample.env (now_sec Sample.world) ip in
  let count := rl_count Sample.platform Sample.env Sample.world ip in
  cache run.2 !! key
  = Some {| ce_body := Js.String_of (count + 1); ce_stored := now_sec Sample.world;
            ce_max_age :=
              Z.max 1 ((rl_bucket Sample.env (now_sec Sample.world) + 1)
                       * windowSec Sample.env - now_sec Sample.world) |}
  /\ rl_count Sample.platform Sample.env run.2 ip = count + 1
  /\ (validated_longUrl Sample.platform Sample.create_ftp = None ->
      exists resp, run.1 = Returned resp /\ (status resp = 400 \/ status resp = 413)
                   /\ kv run.2 = kv Sample.world
                   /\ kv_calls run.2 = kv_calls Sample.world).
Proof.
  cbv zeta.
  apply (C10_allowed_request_consumes_quota Sample.platform Sample.page Sample.create_ftp
           Sample.env Sample.world).
  - split; reflexivity.
  - reflexivity.
  - vm_compute. reflexivity.
  - apply surjective_pairing.
Defined.

(* ---------------------------------------------------------------------- *)
(** *** Scenarios *)

(** [POST /short] with the base64 of [https://example.com]: 200 and a short
    URL made of the configured base and the new token. *)
Example create_example :
  answer (handle Sample.platform Sample.page Sample.create Sample.env_dedup Sample.world)
  = Some (200, BodyJson (ApiOk "https://s.example.com/AoT7kQ4")).
Proof. vm_compute. reflexivity. Qed.

(** [POST /short] with the base64 of [ftp://example.com]: 400. *)
Example create_ftp_example :
  answer (handle Sample.platform Sample.page Sample.create_ftp Sample.env Sample.world)
  = Some (400, BodyJson (ApiError "Decoded longUrl is not a valid http/https URL")).
Proof. vm_compute. reflexivity. Qed.

(** [GET /<token>] after the creation: 302; for an unknown token: 404. *)
Example visit_example :
  answer (handle Sample.platform Sample.page (Sample.visit "AoT7kQ4") Sample.env_dedup
            Sample.world_created)
  = Some (302, BodyNull)
  /\ answer (handle Sample.platform Sample.page (Sample.visit "AoT7kQ5") Sample.env_dedup
               Sample.world_created)
     = Some (404, BodyText "Not Found").
Proof. split; vm_compute; reflexivity. Qed.

(** A second creation for the same URL, ten minutes later, reuses the
    token and writes nothing. *)
Example create_twice_example :
  let run := handle Sample.platform Sample.page Sample.create Sample.env_dedup
               (advance_ms 600000 Sample.world_created) in
  answer run = Some (200, BodyJson (ApiOk "https://s.example.com/AoT7kQ4"))
  /\ kv run.2 = kv Sample.world_created
  /\ link_puts (kv_calls run.2) = 1%nat.
Proof. cbv zeta. repeat split; vm_compute; reflexivity. Qed.

(* ===================================================================== *)
(** ** Beyond the claims: routing and responses *)
(* ===================================================================== *)

Lemma headers_get_set_eq k v h : headers_get k (headers_set k v h) = Some v.
Proof.
  induction h as [|[k' v'] h IH]; cbn [headers_set headers_get].
  - rewrite String.eqb_refl. reflexivity.
  - destruct (String.eqb k' k) eqn:E; cbn [headers_get].
    + rewrite String.eqb_refl. reflexivity.
    + rewrite E. exact IH.
Qed.

Lemma headers_get_set_ne k k' v h :
  k <> k' -> headers_get k' (headers_set k v h) = headers_get k' h.
Proof.
  intros Hne. induction h as [|[k0 v0] h IH]; cbn [headers_set headers_get].
  - apply String.eqb_neq in Hne. rewrite Hne. reflexivity.
  - destruct (String.eqb k0 k) eqn:E; cbn [headers_get].
    + apply String.eqb_eq in E. subst k0.
      apply String.eqb_neq in Hne. rewrite Hne. reflexivity.
    + destruct (String.eqb k0 k'); [reflexivity | exact IH].
Qed.

Lemma cors_common_other req resp k :
  ~ In k cors_header_names ->
  headers_get k (headers (cors_common req resp)) = headers_get k (headers resp).
Proof.
  intros Hk. unfold cors_common, set_header. cbn [headers].
  rewrite !headers_get_set_ne; [reflexivity|..];
    intros <-; apply Hk; cbn; tauto.
Qed.

(** [withCors] leaves alone every header that is not one of its own. *)
Lemma withCors_other req resp env k :
  ~ In k cors_header_names ->
  headers_get k (headers (withCors req resp env)) = headers_get k (headers resp).
Proof.
  intros Hk. unfold withCors.
  destruct (String.eqb (corsMode env) "off"); [reflexivity|].
  destruct (String.eqb (corsMode env) "open").
  - rewrite cors_common_other by exact Hk. unfold set_header. cbn [headers].
    apply headers_get_set_ne. intros <-. apply Hk. cbn. tauto.
  - destruct (_ || _); [reflexivity|].
    rewrite cors_common_other by exact Hk. unfold set_header. cbn [headers].
    rewrite !headers_get_set_ne; [reflexivity|..]; intros <-; apply Hk; cbn; tauto.
Qed.

Section BeyondClaims.

Variable pf : Platform.
Variable landingHtml : Env -> string.

(** X1: Only a creation and the [GET]/[HEAD] of a path shaped like a code can
    reach a store: every other request is answered 200, 204 or 404 and the
    world (KV namespace, cache, call logs, entropy) is handed back as it
    was, whatever the environment. *)
Theorem other_routes_leave_the_world (req : Request) (env : Env) (w : World) :
  ~ reaches_store req ->
  exists resp,
    handle pf landingHtml req env w = (Returned resp, w)
    /\ (status resp = 200 \/ status resp = 204 \/ status resp = 404).
Proof.
  intros Hn. unfold reaches_store in Hn. unfold handle.
  destruct (String.eqb_spec (req_pathname req) "/healthz") as [Eh|Eh].
  { eexists. split; [reflexivity | left; reflexivity]. }
  destruct (String.eqb_spec (req_pathname req) "/short") as [Es|Es]; cbn [andb].
  - destruct (String.eqb_spec (req_method req) "OPTIONS") as [Eo|Eo].
    { eexists. split; [reflexivity|]. rewrite withCors_status. right; left; reflexivity. }
    destruct (String.eqb_spec (req_method req) "POST") as [Ep|Ep]; [tauto|].
    rewrite Es. cbn [String.eqb Ascii.eqb andb].
    unfold resolve. rewrite Es.
    change (match_code_path "/short") with (Some "short").
    destruct (String.eqb_spec (req_method req) "GET") as [Eg|Eg].
    { exfalso. apply Hn. right. rewrite Es. split; [auto|]. split; discriminate. }
    destruct (String.eqb_spec (req_method req) "HEAD") as [Ed|Ed].
    { exfalso. apply Hn. right. rewrite Es. split; [auto|]. split; discriminate. }
    eexists. split; [reflexivity | right; right; reflexivity].
  - destruct (String.eqb (req_pathname req) "/" && String.eqb (req_method req) "GET").
    { eexists. split; [reflexivity | left; reflexivity]. }
    unfold resolve.
    destruct (match_code_path (req_pathname req)) as [code|] eqn:Em;
      [|eexists; split; [reflexivity | right; right; reflexivity]].
    destruct (String.eqb_spec (req_method req) "GET") as [Eg|Eg].
    { exfalso. apply Hn. right. split; [auto|]. split; [congruence | exact Eh]. }
    destruct (String.eqb_spec (req_method req) "HEAD") as [Ed|Ed].
    { exfalso. apply Hn. right. split; [auto|]. split; [congruence | exact Eh]. }
    eexists. split; [reflexivity | right; right; reflexivity].
Qed.

(** X2: Without the KV binding no request changes anything, not even a
    rate-limit counter: a creation is answered 500 with the JSON error "KV
    binding LINKS not found", a visit of a code 500 with the same text. *)
Theorem missing_binding_answers_500 (req : Request) (env : Env) (w : World) :
  LINKS env = false ->
  exists resp,
    handle pf landingHtml req env w = (Returned resp, w)
    /\ (is_create req ->
        status resp = 500
        /\ body resp = BodyJson (ApiError "KV binding LINKS not found"))
    /\ ((req_method req = "GET" \/ req_method req = "HEAD") ->
        req_pathname req <> "/healthz" ->
        match_code_path (req_pathname req) <> None ->
        status resp = 500 /\ body resp = BodyText "KV binding LINKS not found").
Proof.
  intros HL.
  assert (Hnot_create : (req_method req = "GET" \/ req_method req = "HEAD") ->
                        ~ is_create req).
  { intros [Hm|Hm] [_ Hp]; rewrite Hm in Hp; discriminate. }
  assert (Hroot : match_code_path "/" = None) by reflexivity.
  unfold handle.
  destruct (String.eqb_spec (req_pathname req) "/healthz") as [Eh|Eh].
  { eexists. split; [reflexivity|]. split.
    - intros [Hp _]. rewrite Hp in Eh. discriminate.
    - intros _ Hne. contradiction. }
  destruct (String.eqb_spec (req_pathname req) "/short") as [Es|Es]; cbn [andb].
  - destruct (String.eqb_spec (req_method req) "OPTIONS") as [Eo|Eo].
    { eexists. split; [reflexivity|]. split.
      - intros [_ Hm]. rewrite Hm in Eo. discriminate.
      - intros [Hm|Hm]; rewrite Hm in Eo; discriminate. }
    destruct (String.eqb_spec (req_method req) "POST") as [Ep|Ep].
    + unfold createShort. rewrite HL. cbn [negb]. eexists. split; [reflexivity|].
      rewrite withCors_status, withCors_body. split; [auto|].
      intros [Hm|Hm]; rewrite Hm in Ep; discriminate.
    + rewrite Es. cbn [String.eqb Ascii.eqb andb]. unfold resolve. rewrite Es.
      change (match_code_path "/short") with (Some "short"). rewrite HL. cbn [negb].
      destruct (String.eqb_spec (req_method req) "GET") as [Eg|Eg]; cbn [orb].
      { eexists. split; [reflexivity|]. split; [|auto]. intros [_ Hm]. congruence. }
      destruct (String.eqb_spec (req_method req) "HEAD") as [Ed|Ed].
      { eexists. split; [reflexivity|]. split; [|auto]. intros [_ Hm]. congruence. }
      eexists. split; [reflexivity|]. split; [intros [_ Hm]; congruence|].
      intros [Hm|Hm]; congruence.
  - destruct (String.eqb_spec (req_pathname req) "/") as [Er|Er]; cbn [andb].
    + destruct (String.eqb (req_method req) "GET").
      * eexists. split; [reflexivity|]. split; [intros [Hp _]; congruence|].
        intros _ _ Hm. rewrite Er, Hroot in Hm. contradiction.
      * unfold resolve. rewrite Er, Hroot. eexists. split; [reflexivity|].
        split; [intros [Hp _]; congruence|].
        intros _ _ Hm. contradiction.
    + unfold resolve. rewrite HL. cbn [negb].
      destruct (match_code_path (req_pathname req)) as [code|].
      * destruct (String.eqb_spec (req_method req) "GET") as [Eg|Eg]; cbn [orb].
        { eexists. split; [reflexivity|]. split; [intros [Hp _]; congruence | auto]. }
        destruct (String.eqb_spec (req_method req) "HEAD") as [Ed|Ed].
        { eexists. split; [reflexivity|]. split; [intros [Hp _]; congruence | auto]. }
        eexists. split; [reflexivity|]. split; [intros [Hp _]; congruence|].
        intros [Hm|Hm]; congruence.
      * eexists. split; [reflexivity|]. split; [intros [Hp _]; congruence|].
        intros _ _ Hm. contradiction.
Qed.

(** X3: A creation request over the limit is answered 429 before anything
    else is looked at: the form is not read, the KV binding is not called,
    the counter is not touched (the cache is only read), and the response
    carries [x-rl-remaining: 0] and the seconds left in the window. *)
Theorem refused_request_changes_nothing (req : Request) (env : Env) (w : World) :
  is_create req -> LINKS env = true ->
  maxReq env <= rl_count pf env w (getClientIp req) ->
  let key := rl_key pf env (now_sec w) (getClientIp req) in
  let reset := (rl_bucket env (now_sec w) + 1) * windowSec env - now_sec w in
  exists resp,
    handle pf landingHtml req env w = (Returned resp, log_cache (CacheMatch key) w)
    /\ status resp = 429
    /\ body resp = BodyJson (ApiError "Rate limited. Please try again later.")
    /\ headers_get "x-rl-remaining" (headers resp) = Some "0"
    /\ headers_get "x-rl-reset-in" (headers resp) = Some (Js.String_of reset).
Proof.
  intros Hc HL Hover. cbv zeta.
  rewrite (handle_create pf landingHtml _ _ _ Hc). unfold createShort. rewrite HL.
  cbn [negb]. unfold mbind at 1, M_bind at 1. rewrite rateLimit_run. cbv zeta.
  apply Z.leb_le in Hover. rewrite Hover. cbn [ok negb remaining resetIn].
  eexists. split; [reflexivity|].
  rewrite withCors_status, withCors_body.
  rewrite !withCors_other by (cbn; intuition discriminate).
  repeat split; reflexivity.
Qed.

(** X4: The contract of the creation endpoint: every response to [POST
    /short] is JSON, with a status among 200, 400, 413, 429 and 500, and
    its [Code] is 1 exactly when the status is 200, in which case the
    body holds the short URL. *)
Theorem create_response_contract (req : Request) (env : Env) (w w' : World)
    (resp : Response) :
  is_create req ->
  handle pf landingHtml req env w = (Returned resp, w') ->
  In (status resp) [200; 400; 413; 429; 500]
  /\ headers_get "content-type" (headers resp) = Some "application/json; charset=utf-8"
  /\ exists obj, body resp = BodyJson obj /\ (Code obj = 1 <-> status resp = 200).
Proof.
  intros Hc H. rewrite (handle_create pf landingHtml _ _ _ Hc) in H.
  assert (Hleaf : forall (obj : ApiObj) (st : Z) (extra : list (string * string)) w0,
            (mret (withCors req (json obj st extra) env) : M Response) w0
            = (Returned resp, w') ->
            headers_get "content-type" (headers (json obj st extra))
            = Some "application/json; charset=utf-8" ->
            In st [200; 400; 413; 429; 500] -> (Code obj = 1 <-> st = 200) ->
            In (status resp) [200; 400; 413; 429; 500]
            /\ headers_get "content-type" (headers resp)
               = Some "application/json; charset=utf-8"
            /\ exists obj, body resp = BodyJson obj /\ (Code obj = 1 <-> status resp = 200)).
  { intros obj st extra w0 E Hct Hst Hcode. injection E as <- _.
    rewrite withCors_status, withCors_body, withCors_other by (cbn; intuition discriminate).
    split; [exact Hst|]. split; [exact Hct|]. exists obj. split; [reflexivity | exact Hcode]. }
  unfold createShort in H.
  destruct (LINKS env); cbn [negb] in H;
    [|eapply Hleaf; [exact H | reflexivity | cbn; tauto | cbn; split; discriminate]].
  unfold mbind at 1, M_bind at 1 in H. rewrite rateLimit_run in H. cbv zeta in H.
  destruct (maxReq env <=? _); cbn [ok negb] in H;
    [eapply Hleaf; [exact H | reflexivity | cbn; tauto | cbn; split; discriminate]|].
  destruct (req_form req) as [[[b64|]|]|];
    try (eapply Hleaf; [exact H | reflexivity | cbn; tauto | cbn; split; discriminate]).
  destruct (String.eqb (Js.trim b64) "");
    [eapply Hleaf; [exact H | reflexivity | cbn; tauto | cbn; split; discriminate]|].
  destruct (8192 <? Js.length b64);
    [eapply Hleaf; [exact H | reflexivity | cbn; tauto | cbn; split; discriminate]|].
  destruct (base64ToUtf8 pf b64) as [u|];
    [|eapply Hleaf; [exact H | reflexivity | cbn; tauto | cbn; split; discriminate]].
  destruct (8192 <? Js.length u);
    [eapply Hleaf; [exact H | reflexivity | cbn; tauto | cbn; split; discriminate]|].
  destruct (negb (isHttpUrl pf u));
    [eapply Hleaf; [exact H | reflexivity | cbn; tauto | cbn; split; discriminate]|].
  unfold mbind, M_bind in H.
  destruct (allocate pf env u _) as [[[c|]|e] w2]; [| |discriminate].
  - eapply Hleaf; [exact H | reflexivity | cbn; tauto | cbn; split; reflexivity].
  - eapply Hleaf; [exact H | reflexivity | cbn; tauto | cbn; split; discriminate].
Qed.

End BeyondClaims.

(* ===================================================================== *)
(** ** Beyond the claims: the rate limiter *)
(* ===================================================================== *)

Section RateLimiterFacts.

Variable pf : Platform.

Lemma resetIn_bounds env now :
  1 <= (rl_bucket env now + 1) * windowSec env - now <= windowSec env.
Proof.
  unfold rl_bucket. pose proof (windowSec_pos env) as HW.
  pose proof (Z.div_mod now (windowSec env) ltac:(lia)) as Hdm.
  pose proof (Z.mod_pos_bound now (windowSec env) HW) as Hm.
  set (q := now / windowSec env) in *. set (W := windowSec env) in *.
  replace ((q + 1) * W - now) with (W - now mod W) by lia. lia.
Qed.

(** X5: The rate limiter on any configuration and any world: it never fails
    and never uses the KV binding; the window is at least 10 seconds and the
    maximum at least 1 (60 and 10 when nothing is configured); the time to
    the reset lies between 1 second and the window, so the floor of
    [Math.max(1, resetIn)] never applies; [remaining] is never negative,
    and is 0 on a refusal. *)
Theorem rateLimit_bounds (req : Request) (env : Env) (w : World) :
  exists rl w',
    rateLimit pf req env w = (Returned rl, w')
    /\ kv w' = kv w /\ kv_calls w' = kv_calls w
    /\ 10 <= windowSec env /\ 1 <= maxReq env
    /\ (RL_WINDOW_SEC env = None -> windowSec env = 60)
    /\ (RL_MAX_REQ env = None -> maxReq env = 10)
    /\ 1 <= resetIn rl <= windowSec env
    /\ Z.max 1 (resetIn rl) = resetIn rl
    /\ 0 <= remaining rl
    /\ (ok rl = false -> remaining rl = 0).
Proof.
  pose proof (resetIn_bounds env (now_sec w)) as Hr.
  assert (HW : 10 <= windowSec env) by (unfold windowSec; lia).
  assert (HM : 1 <= maxReq env) by (unfold maxReq; lia).
  assert (HWd : RL_WINDOW_SEC env = None -> windowSec env = 60)
    by (intros E; unfold windowSec; rewrite E; reflexivity).
  assert (HMd : RL_MAX_REQ env = None -> maxReq env = 10)
    by (intros E; unfold maxReq; rewrite E; reflexivity).
  rewrite rateLimit_run. cbv zeta.
  destruct (maxReq env <=? _) eqn:E; eexists _, _; (split; [reflexivity|]);
    cbn [kv kv_calls log_cache with_cache ok remaining resetIn].
  - repeat split; auto; lia.
  - apply Z.leb_gt in E. repeat split; auto; try lia; try discriminate.
Qed.

(** X6: Counters are per client: a call for one client leaves the count of
    every client whose address encodes differently as it was. *)
Theorem rateLimit_other_client (req : Request) (env : Env) (w : World) (ip : string) :
  encodeURIComponent pf ip <> encodeURIComponent pf (getClientIp req) ->
  rl_count pf env (rateLimit pf req env w).2 ip = rl_count pf env w ip.
Proof.
  intros Hne.
  assert (Hk : rl_key pf env (now_sec w) (getClientIp req) <> rl_key pf env (now_sec w) ip).
  { unfold rl_key. intros E. do 3 apply String.app_inj in E. congruence. }
  rewrite rateLimit_run. cbv zeta. destruct (maxReq env <=? _); [reflexivity|].
  unfold rl_count, cache_read. cbn [snd cache with_cache log_cache].
  change (now_sec (with_cache _ _)) with (now_sec w).
  rewrite lookup_insert_ne by exact Hk. reflexivity.
Qed.

Lemma counter_is_count env w ip k :
  counter_is pf env w ip k -> rl_count pf env w ip = k.
Proof.
  unfold counter_is, rl_count, cache_read.
  destruct (cache w !! _) as [e|]; [|intros ->; reflexivity].
  intros [Hk He]. pose proof (bucket_end env (now_sec w) (now_sec w) eq_refl).
  destruct (_ <? _) eqn:E; [exact Hk | apply Z.ltb_ge in E; lia].
Qed.

Lemma bucket_between env a b c :
  a <= b <= c -> rl_bucket env c = rl_bucket env a -> rl_bucket env b = rl_bucket env a.
Proof.
  unfold rl_bucket. intros [Hab Hbc] E. pose proof (windowSec_pos env) as HW.
  pose proof (Z.div_le_mono _ _ (windowSec env) HW Hab).
  pose proof (Z.div_le_mono _ _ (windowSec env) HW Hbc). lia.
Qed.

Lemma expected_decision_0 m k :
  expected_decision m k 0
  = if m <=? k then Some (false, 0) else Some (true, m - (k + 1)).
Proof.
  unfold expected_decision. cbv zeta. rewrite Z.add_0_r.
  destruct (k <? m) eqn:E1, (m <=? k) eqn:E2; try reflexivity;
    [apply Z.ltb_lt in E1; apply Z.leb_le in E2 | apply Z.ltb_ge in E1; apply Z.leb_gt in E2];
    lia.
Qed.

Lemma expected_decision_S m k i :
  expected_decision m k (S i)
  = expected_decision m (if m <=? k then k else k + 1) i.
Proof.
  unfold expected_decision. cbv zeta.
  destruct (m <=? k) eqn:E.
  - apply Z.leb_le in E.
    assert (E1 : (k + Z.of_nat (S i) <? m) = false) by (apply Z.ltb_ge; lia).
    assert (E2 : (k + Z.of_nat i <? m) = false) by (apply Z.ltb_ge; lia).
    rewrite E1, E2. reflexivity.
  - replace (k + Z.of_nat (S i)) with (k + 1 + Z.of_nat i) by lia. reflexivity.
Qed.

(** The decisions of successive calls inside one window. *)
Lemma rl_run_window req env waits : forall w k,
  counter_is pf env w (getClientIp req) k ->
  Forall (fun d => 0 <= d) waits ->
  rl_bucket env ((clock_ms w + total_wait waits) / 1000) = rl_bucket env (now_sec w) ->
  rl_run pf req env waits w
  = map (expected_decision (maxReq env) k) (seq 0 (length waits)).
Proof.
  induction waits as [|d waits IH]; intros w k Hk Hpos Hwin; [reflexivity|].
  inversion Hpos as [|? ? Hd Hpos']; subst.
  assert (Htot : 0 <= total_wait waits).
  { clear -Hpos'. induction Hpos'; cbn; [lia|]. unfold total_wait in *. lia. }
  cbn [rl_run length seq map]. cbv zeta.
  pose proof (counter_is_count env w _ k Hk) as Hcount.
  rewrite <- seq_shift, map_map.
  set (w1 := advance_ms d (rateLimit pf req env w).2).
  assert (Hclock : clock_ms w1 = clock_ms w + d).
  { unfold w1. rewrite rateLimit_run. cbv zeta. destruct (_ <=? _); reflexivity. }
  assert (Hb1 : rl_bucket env (now_sec w1) = rl_bucket env (now_sec w)).
  { apply (bucket_between env _ _ ((clock_ms w + total_wait (d :: waits)) / 1000));
      [|exact Hwin].
    unfold now_sec. rewrite Hclock. cbn [total_wait fold_right].
    fold (total_wait waits). split; apply Z.div_le_mono; lia. }
  assert (Hk1 : counter_is pf env w1 (getClientIp req)
                  (if maxReq env <=? k then k else k + 1)).
  { unfold counter_is. rewrite Hb1, (rl_key_bucket pf env _ _ _ Hb1).
    unfold w1. rewrite rateLimit_run. cbv zeta. rewrite Hcount.
    destruct (maxReq env <=? k); cbn [snd cache advance_ms with_cache log_cache].
    - exact Hk.
    - rewrite lookup_insert_eq. cbn [ce_body ce_stored ce_max_age].
      split; [apply JsFacts.num_or_0_String_of | lia]. }
  f_equal.
  - rewrite expected_decision_0, rateLimit_run. cbv zeta. rewrite Hcount.
    destruct (maxReq env <=? k); reflexivity.
  - rewrite (IH w1 _ Hk1 Hpos').
    + apply map_ext. intros i. symmetry. apply expected_decision_S.
    + rewrite Hb1, Hclock. rewrite <- Hwin. f_equal. f_equal.
      cbn [total_wait fold_right]. fold (total_wait waits). lia.
Qed.

Lemma allowed_count m k n :
  length (filter (fun d => is_allowed d = true) (map (expected_decision m k) (seq 0 n)))
  = Nat.min n (Z.to_nat (m - k)).
Proof.
  induction n as [|n IH]; [reflexivity|].
  rewrite seq_S, map_app, filter_app, length_app, IH. cbn [map plus].
  unfold expected_decision. cbv zeta.
  destruct (_ <? m) eqn:E.
  - apply Z.ltb_lt in E. rewrite filter_cons_True by reflexivity.
    rewrite filter_nil. cbn [length]. lia.
  - apply Z.ltb_ge in E. rewrite filter_cons_False by (cbn; discriminate).
    rewrite filter_nil. cbn [length]. lia.
Qed.

(** X7: The quota of a window: whatever the rhythm of the calls of one client
    inside one window, call number [i] (from 0) is allowed exactly when the
    count at the start of the window plus [i] is below the maximum; so at
    most [maxReq - k] calls are allowed, the first ones, and all the later
    ones are refused. *)
Theorem window_quota (req : Request) (env : Env) (waits : list Z) (w : World) (k : Z) :
  counter_is pf env w (getClientIp req) k ->
  Forall (fun d => 0 <= d) waits ->
  rl_bucket env ((clock_ms w + total_wait waits) / 1000) = rl_bucket env (now_sec w) ->
  rl_run pf req env waits w
  = map (expected_decision (maxReq env) k) (seq 0 (length waits))
  /\ length (filter (fun d => is_allowed d = true) (rl_run pf req env waits w))
     = Nat.min (length waits) (Z.to_nat (maxReq env - k)).
Proof.
  intros Hk Hpos Hwin. rewrite (rl_run_window req env waits w k Hk Hpos Hwin).
  split; [reflexivity | apply allowed_count].
Qed.

End RateLimiterFacts.

(* ===================================================================== *)
(** ** Beyond the claims: CORS and the client address *)
(* ===================================================================== *)

Lemma split_comma_aux_nonempty s : forall cur, Js.split_comma_aux cur s <> [].
Proof.
  induction s as [|c s IH]; intros cur; cbn [Js.split_comma_aux]; [discriminate|].
  destruct (Ascii.eqb c ","); [discriminate | apply IH].
Qed.

Lemma split_comma_aux_join s : forall cur,
  String.concat "," (Js.split_comma_aux cur s) = cur ++ s.
Proof.
  induction s as [|c s IH]; intros cur; cbn [Js.split_comma_aux].
  - rewrite JsFacts.app_nil_r. reflexivity.
  - destruct (Ascii.eqb_spec c ",") as [->|_].
    + pose proof (split_comma_aux_nonempty s "") as Hne. specialize (IH "").
      destruct (Js.split_comma_aux "" s) as [|x l]; [contradiction|].
      change (String.concat "," (cur :: x :: l))
        with (cur ++ "," ++ String.concat "," (x :: l)).
      rewrite IH. reflexivity.
    + rewrite IH, JsFacts.app_assoc. reflexivity.
Qed.

Lemma trim_start_chars c s :
  In c (list_ascii_of_string (Js.trim_start s)) -> In c (list_ascii_of_string s).
Proof.
  induction s as [|a s IH]; cbn [Js.trim_start]; [auto|].
  destruct (Js.is_space a); [intros H; right; apply IH, H | auto].
Qed.

Lemma trim_end_chars c s :
  In c (list_ascii_of_string (Js.trim_end s)) -> In c (list_ascii_of_string s).
Proof.
  induction s as [|a s IH]; cbn [Js.trim_end]; [auto|].
  destruct (Js.trim_end s) as [|b t] eqn:E.
  - destruct (Js.is_space a); cbn; [tauto|]. intros [H|[]]. left. exact H.
  - cbn [list_ascii_of_string]. intros [H|H]; [left; exact H | right; apply IH, H].
Qed.

Lemma trim_chars c s :
  In c (list_ascii_of_string (Js.trim s)) -> In c (list_ascii_of_string s).
Proof. intros H. apply trim_start_chars, trim_end_chars, H. Qed.

Lemma before_comma_no_comma s :
  ~ In ","%char (list_ascii_of_string (Js.before_comma s)).
Proof.
  induction s as [|a s IH]; cbn [Js.before_comma]; [auto|].
  destruct (Ascii.eqb_spec a ",") as [->|Hne]; [auto|].
  cbn [list_ascii_of_string]. intros [H|H]; [congruence | exact (IH H)].
Qed.

(** The first entry of a comma-separated text: what stands before the
    first comma, or the whole text when there is none. *)
Lemma before_comma_split s :
  exists rest,
    s = Js.before_comma s ++ rest /\ (rest = "" \/ exists r, rest = String "," r).
Proof.
  induction s as [|a s (rest & IH & Hrest)]; cbn [Js.before_comma].
  - exists "". split; [reflexivity | left; reflexivity].
  - destruct (Ascii.eqb_spec a ",") as [->|Hne].
    + exists (String "," s). split; [reflexivity | right; eauto].
    + exists rest. split; [|exact Hrest].
      rewrite JsFacts.app_cons, <- IH. reflexivity.
Qed.

(** X8: The client address is never empty.  A non-empty [cf-connecting-ip]
    header wins whatever [x-forwarded-for] says.  Without it, the address
    is read from [x-forwarded-for]: it is the first entry of the header
    (the text before the first comma, or the whole text when there is
    none), trimmed, and 0.0.0.0 when that is empty; so it holds no comma.
    With neither header it is 0.0.0.0. *)
Theorem getClientIp_spec (req : Request) :
  getClientIp req <> ""
  /\ (forall ip, hdr_cf_connecting_ip req = Some ip -> ip <> "" -> getClientIp req = ip)
  /\ (Js.or_default (hdr_cf_connecting_ip req) "" = "" ->
      ~ In ","%char (list_ascii_of_string (getClientIp req))
      /\ (hdr_x_forwarded_for req = None -> getClientIp req = "0.0.0.0")
      /\ (forall fwd, hdr_x_forwarded_for req = Some fwd ->
            exists first rest,
              fwd = first ++ rest
              /\ ~ In ","%char (list_ascii_of_string first)
              /\ (rest = "" \/ exists r, rest = String "," r)
              /\ getClientIp req
                 = if String.eqb (Js.trim first) "" then "0.0.0.0" else Js.trim first)).
Proof.
  unfold getClientIp. split; [|split].
  - destruct (String.eqb_spec (Js.or_default (hdr_cf_connecting_ip req) "") "");
      cbn [negb]; [|assumption].
    destruct (String.eqb_spec
                (Js.trim (Js.before_comma (Js.or_default (hdr_x_forwarded_for req) ""))) "");
      cbn [negb]; [discriminate | assumption].
  - intros ip -> Hip. unfold Js.or_default.
    apply String.eqb_neq in Hip. rewrite Hip. cbn [negb]. rewrite Hip. reflexivity.
  - intros ->. cbn [String.eqb negb]. split; [|split].
    + destruct (negb _).
      * intros H. apply trim_chars in H. exact (before_comma_no_comma _ H).
      * cbn. intuition discriminate.
    + intros ->. reflexivity.
    + intros fwd ->.
      assert (E : Js.or_default (Some fwd) "" = fwd).
      { unfold Js.or_default. destruct (String.eqb_spec fwd "") as [->|_]; reflexivity. }
      rewrite E. destruct (before_comma_split fwd) as (rest & Hsplit & Hrest).
      exists (Js.before_comma fwd), rest. split; [exact Hsplit|].
      split; [apply before_comma_no_comma|]. split; [exact Hrest|].
      destruct (String.eqb (Js.trim (Js.before_comma fwd)) ""); reflexivity.
Qed.

(** X9: The allow-list of origins: its entries are exactly the non-empty
    trimmed pieces of the trimmed [CORS_ORIGINS] between commas (pieces
    that, joined by commas, give that text back). *)
Theorem getCorsAllowlist_spec (env : Env) (origin : string) :
  let raw := Js.trim (Js.or_default (CORS_ORIGINS env) "") in
  String.concat "," (Js.split_comma raw) = raw
  /\ (origin ∈ getCorsAllowlist env
      <-> origin <> "" /\ exists piece, In piece (Js.split_comma raw) /\ Js.trim piece = origin).
Proof.
  cbv zeta. split; [apply split_comma_aux_join|].
  unfold getCorsAllowlist.
  destruct (String.eqb_spec (Js.trim (Js.or_default (CORS_ORIGINS env) "")) "") as [E|E].
  - rewrite E. split; [intros H; inversion H|].
    intros (Hne & piece & [<-|[]] & Hp). cbn in Hp. congruence.
  - rewrite list_elem_of_filter, list_elem_of_In, in_map_iff. split.
    + intros (Hne & piece & Hp & Hin). eauto.
    + intros (Hne & piece & Hin & Hp). eauto.
Qed.

Lemma cors_common_origin req resp :
  headers_get "Access-Control-Allow-Origin" (headers (cors_common req resp))
  = headers_get "Access-Control-Allow-Origin" (headers resp)
  /\ headers_get "Access-Control-Allow-Credentials" (headers (cors_common req resp))
     = Some "false"
  /\ headers_get "Access-Control-Allow-Headers" (headers (cors_common req resp))
     = Some (Js.or_default (hdr_access_control_request_headers req) "Content-Type").
Proof.
  unfold cors_common, set_header. cbn [headers]. split; [|split].
  - rewrite !headers_get_set_ne by discriminate. reflexivity.
  - rewrite !headers_get_set_ne by discriminate. apply headers_get_set_eq.
  - rewrite headers_get_set_ne by discriminate. apply headers_get_set_eq.
Qed.

(** X10: The CORS policy.  [withCors] never changes the status, the body or a
    header that is not a CORS header.  With [CORS_MODE] unset the mode is
    [open].  In mode [off] the response is returned as it is; in mode
    [open] any origin is allowed, without credentials, and the requested
    headers are echoed; in any other mode the origin of the request is
    allowed only when it is non-empty and on the allow-list, and is then
    echoed with [Vary: Origin], and otherwise the response is returned as it
    is. *)
Theorem withCors_policy (req : Request) (resp : Response) (env : Env) :
  let out := withCors req resp env in
  let origin := Js.or_default (hdr_origin req) "" in
  (status out = status resp /\ body out = body resp
   /\ forall k, ~ In k cors_header_names ->
                headers_get k (headers out) = headers_get k (headers resp))
  /\ (CORS_MODE env = None -> corsMode env = "open")
  /\ (corsMode env = "off" -> out = resp)
  /\ (corsMode env = "open" ->
      headers_get "Access-Control-Allow-Origin" (headers out) = Some "*"
      /\ headers_get "Access-Control-Allow-Credentials" (headers out) = Some "false"
      /\ headers_get "Access-Control-Allow-Headers" (headers out)
         = Some (Js.or_default (hdr_access_control_request_headers req) "Content-Type"))
  /\ (corsMode env <> "off" -> corsMode env <> "open" ->
      (origin <> "" /\ origin ∈ getCorsAllowlist env ->
       headers_get "Access-Control-Allow-Origin" (headers out) = Some origin
       /\ headers_get "Vary" (headers out) = Some "Origin"
       /\ headers_get "Access-Control-Allow-Credentials" (headers out) = Some "false")
      /\ (~ (origin <> "" /\ origin ∈ getCorsAllowlist env) -> out = resp)).
Proof.
  cbv zeta. split; [|split; [|split; [|split]]].
  - split; [apply withCors_status|]. split; [apply withCors_body|].
    intros k Hk. apply withCors_other, Hk.
  - intros E. unfold corsMode. rewrite E. reflexivity.
  - intros E. unfold withCors. rewrite E. reflexivity.
  - intros E. unfold withCors. rewrite E.
    change (String.eqb "open" "off") with false.
    change (String.eqb "open" "open") with true. cbv iota.
    destruct (cors_common_origin req (set_header "Access-Control-Allow-Origin" "*" resp))
      as (H1 & H2 & H3).
    rewrite H1, H2, H3. split; [|auto]. unfold set_header. cbn [headers].
    apply headers_get_set_eq.
  - intros Hoff Hopen. unfold withCors.
    apply String.eqb_neq in Hoff, Hopen. rewrite Hoff, Hopen.
    destruct (String.eqb_spec (Js.or_default (hdr_origin req) "") "") as [E|E]; cbn [orb].
    { split; [intros [H _]; contradiction | reflexivity]. }
    destruct (bool_decide_reflect (Js.or_default (hdr_origin req) "" ∈ getCorsAllowlist env))
      as [Hin|Hin]; cbn [negb].
    + split; [|intros H; exfalso; apply H; auto]. intros _.
      destruct (cors_common_origin req
                  (set_header "Vary" "Origin"
                     (set_header "Access-Control-Allow-Origin"
                        (Js.or_default (hdr_origin req) "") resp))) as (H1 & H2 & _).
      rewrite H1, H2. split; [|split; [|reflexivity]].
      * unfold set_header. cbn [headers].
        rewrite headers_get_set_ne by discriminate. apply headers_get_set_eq.
      * unfold cors_common, set_header. cbn [headers].
        rewrite !headers_get_set_ne by discriminate. apply headers_get_set_eq.
    + split; [intros [_ H]; contradiction | reflexivity].
Qed.

(* ===================================================================== *)
(** ** Beyond the claims: base64 texts *)
(* ===================================================================== *)

Lemma replace_char_empty a b s : Js.replace_char a b s = "" <-> s = "".
Proof. destruct s; cbn; split; congruence. Qed.

Lemma trim_start_replace a b s :
  Js.is_space a = false -> Js.is_space b = false ->
  Js.trim_start (Js.replace_char a b s) = Js.replace_char a b (Js.trim_start s).
Proof.
  intros Ha Hb. induction s as [|c s IH]; [reflexivity|].
  cbn [Js.replace_char Js.trim_start].
  destruct (Ascii.eqb_spec c a) as [->|Hne].
  - rewrite Hb, Ha. cbn [Js.replace_char]. rewrite Ascii.eqb_refl. reflexivity.
  - destruct (Js.is_space c); [exact IH|].
    cbn [Js.replace_char]. apply Ascii.eqb_neq in Hne. rewrite Hne. reflexivity.
Qed.

Lemma trim_end_replace a b s :
  Js.is_space a = false -> Js.is_space b = false ->
  Js.trim_end (Js.replace_char a b s) = Js.replace_char a b (Js.trim_end s).
Proof.
  intros Ha Hb. induction s as [|c s IH]; [reflexivity|].
  cbn [Js.replace_char Js.trim_end]. rewrite IH.
  destruct (Js.trim_end s) as [|d t] eqn:E; cbn [Js.replace_char].
  - destruct (Ascii.eqb_spec c a) as [->|Hne].
    + rewrite Hb, Ha. cbn [Js.replace_char]. rewrite Ascii.eqb_refl. reflexivity.
    + destruct (Js.is_space c); [reflexivity|].
      cbn [Js.replace_char]. apply Ascii.eqb_neq in Hne. rewrite Hne. reflexivity.
  - reflexivity.
Qed.

Lemma trim_replace a b s :
  Js.is_space a = false -> Js.is_space b = false ->
  Js.trim (Js.replace_char a b s) = Js.replace_char a b (Js.trim s).
Proof.
  intros Ha Hb. unfold Js.trim.
  rewrite trim_start_replace, trim_end_replace by assumption. reflexivity.
Qed.

(** Normalising the URL-safe spelling gives what normalising the text
    itself gives. *)
Lemma normalise_urlsafe s :
  Js.replace_char "_" "/" (Js.replace_char "-" "+" (urlsafe s))
  = Js.replace_char "_" "/" (Js.replace_char "-" "+" s).
Proof.
  unfold urlsafe. induction s as [|c s IH]; [reflexivity|].
  cbn [Js.replace_char]. rewrite IH. f_equal.
  destruct c as [[] [] [] [] [] [] [] []]; reflexivity.
Qed.

Lemma trim_urlsafe b64 : Js.trim (urlsafe b64) = urlsafe (Js.trim b64).
Proof. unfold urlsafe. rewrite !trim_replace by reflexivity. reflexivity. Qed.

Section Base64Facts.

Variable pf : Platform.

(** X11: Standard and URL-safe base64 are the same to the server: a text and
    its URL-safe spelling ([-] for [+], [_] for [/]) decode alike, or fail
    alike. *)
Theorem base64ToUtf8_urlsafe (b64 : string) :
  base64ToUtf8 pf (urlsafe b64) = base64ToUtf8 pf b64.
Proof.
  unfold base64ToUtf8. rewrite trim_urlsafe, normalise_urlsafe. reflexivity.
Qed.

End Base64Facts.

Lemma length_app_eq (s : string) :
  (String.length (s ++ "=") mod 4 = (String.length s mod 4 + 1) mod 4)%nat.
Proof.
  rewrite JsFacts.length_app. cbn [String.length].
  rewrite (Nat.Div0.add_mod (String.length s) 1 4). reflexivity.
Qed.

Lemma pad4_done n s : (String.length s mod 4 = 0)%nat -> pad4 n s = s.
Proof. intros H. destruct n; cbn [pad4]; rewrite H; reflexivity. Qed.

Lemma pad4_more n s :
  (String.length s mod 4 <> 0)%nat -> pad4 (S n) s = pad4 n (s ++ "=").
Proof.
  intros H. cbn [pad4]. apply Nat.eqb_neq in H. rewrite H. reflexivity.
Qed.

Lemma app_padding (s : string) k : (s ++ "=") ++ padding k = s ++ padding (S k).
Proof. rewrite JsFacts.app_assoc. reflexivity. Qed.

Lemma padding_least (s : string) (j : nat) :
  ((String.length s + j) mod 4 = 0)%nat ->
  ((4 - String.length s mod 4) mod 4 <= j)%nat.
Proof.
  intros Hj. rewrite (Nat.Div0.add_mod _ j 4) in Hj.
  pose proof (Nat.mod_upper_bound (String.length s) 4 ltac:(lia)) as Hlt.
  pose proof (Nat.mod_upper_bound j 4 ltac:(lia)) as Hj4.
  pose proof (Nat.Div0.mod_le j 4) as Hjle.
  destruct (String.length s mod 4)%nat as [|[|[|[|r]]]]; [cbn; lia| | | |lia];
    destruct (j mod 4)%nat as [|[|[|[|q]]]]; cbn in Hj |- *; lia.
Qed.

Lemma pad4_padding (s : string) (n : nat) :
  (3 <= n)%nat ->
  pad4 n s = s ++ padding ((4 - String.length s mod 4) mod 4).
Proof.
  intros Hn.
  pose proof (Nat.mod_upper_bound (String.length s) 4 ltac:(lia)) as Hlt.
  destruct n as [|[|[|n]]]; try lia.
  destruct (String.length s mod 4)%nat as [|[|[|[|r]]]] eqn:E; [| | | |lia].
  - rewrite pad4_done by exact E. cbn. rewrite JsFacts.app_nil_r. reflexivity.
  - rewrite pad4_more by lia.
    assert (E1 : (String.length (s ++ "=") mod 4 = 2)%nat)
      by (rewrite length_app_eq, E; reflexivity).
    rewrite pad4_more by lia.
    assert (E2 : (String.length ((s ++ "=") ++ "=") mod 4 = 3)%nat)
      by (rewrite length_app_eq, E1; reflexivity).
    rewrite pad4_more by lia.
    rewrite pad4_done by (rewrite length_app_eq, E2; reflexivity).
    rewrite !JsFacts.app_assoc. reflexivity.
  - rewrite pad4_more by lia.
    assert (E1 : (String.length (s ++ "=") mod 4 = 3)%nat)
      by (rewrite length_app_eq, E; reflexivity).
    rewrite pad4_more by lia.
    rewrite pad4_done by (rewrite length_app_eq, E1; reflexivity).
    rewrite !JsFacts.app_assoc. reflexivity.
  - rewrite pad4_more by lia.
    rewrite pad4_done by (rewrite length_app_eq, E; reflexivity). reflexivity.
Qed.

(** X12: The padding loop [while (s.length % 4) s += "="]: three rounds are
    always enough; it appends the least number of [=] (at most three) that
    makes the length a multiple of 4, and nothing when the length already
    is one. *)
Theorem pad4_spec (s : string) (n : nat) :
  (3 <= n)%nat ->
  let k := ((4 - String.length s mod 4) mod 4)%nat in
  pad4 n s = s ++ padding k
  /\ (String.length (pad4 n s) mod 4 = 0)%nat
  /\ (k <= 3)%nat
  /\ (forall j, ((String.length s + j) mod 4 = 0)%nat -> (k <= j)%nat).
Proof.
  intros Hn. cbv zeta.
  pose proof (Nat.mod_upper_bound (String.length s) 4 ltac:(lia)) as Hlt.
  split; [exact (pad4_padding s n Hn)|]. split; [|split; [|apply padding_least]].
  - rewrite (pad4_padding s n Hn), JsFacts.length_app.
    assert (Hlp : forall k, String.length (padding k) = k)
      by (induction k; cbn; congruence).
    rewrite Hlp, (Nat.Div0.add_mod _ _ 4).
    destruct (String.length s mod 4)%nat as [|[|[|[|r]]]]; try reflexivity. lia.
  - destruct (String.length s mod 4)%nat as [|[|[|[|r]]]]; cbn; lia.
Qed.

Lemma page_urlsafe_padding k : page_urlsafe (padding k) = "".
Proof. induction k as [|k IH]; [reflexivity | exact IH]. Qed.

Lemma page_urlsafe_body body k :
  all_chars is_b64_char body = true ->
  page_urlsafe (body ++ padding k) = urlsafe body.
Proof.
  induction body as [|c body IH]; intros H.
  - apply page_urlsafe_padding.
  - cbn [all_chars] in H. apply andb_true_iff in H as [Hc H].
    specialize (IH H). rewrite JsFacts.app_cons.
    unfold page_urlsafe, urlsafe in *. cbn [Js.replace_char remove_char].
    destruct c as [[] [] [] [] [] [] [] []]; try discriminate Hc;
      cbn [Ascii.eqb Bool.eqb andb]; cbv iota; rewrite IH; reflexivity.
Qed.

Lemma trim_start_plain s :
  all_chars (fun c => negb (Js.is_space c)) s = true -> Js.trim_start s = s.
Proof.
  destruct s as [|c s]; [reflexivity|]. cbn [all_chars Js.trim_start].
  intros H. apply andb_true_iff in H as [Hc _].
  apply negb_true_iff in Hc. rewrite Hc. reflexivity.
Qed.

Lemma trim_end_plain s :
  all_chars (fun c => negb (Js.is_space c)) s = true -> Js.trim_end s = s.
Proof.
  induction s as [|c s IH]; [reflexivity|]. cbn [all_chars Js.trim_end].
  intros H. apply andb_true_iff in H as [Hc H]. rewrite (IH H).
  apply negb_true_iff in Hc. rewrite Hc. destruct s; reflexivity.
Qed.

Lemma urlsafe_plain body :
  all_chars is_b64_char body = true ->
  all_chars (fun c => negb (Js.is_space c)) (urlsafe body) = true
  /\ Js.replace_char "_" "/" (Js.replace_char "-" "+" body) = body.
Proof.
  induction body as [|c body IH]; intros H; [split; reflexivity|].
  cbn [all_chars] in H. apply andb_true_iff in H as [Hc H].
  destruct (IH H) as [IH1 IH2]. unfold urlsafe in *.
  cbn [Js.replace_char all_chars]. rewrite IH1, IH2.
  destruct c as [[] [] [] [] [] [] [] []]; try discriminate Hc; split; reflexivity.
Qed.

Section PageEncoding.

Variable pf : Platform.

(** X13: The encoder of the landing page and the decoder of the server agree:
    for a canonical base64 text (characters of the base64 alphabet followed
    by the padding that makes the length a multiple of 4), what the page
    posts (URL-safe, padding stripped) is turned back by the server into
    that very text before it is given to [atob]. *)
Theorem page_text_is_restored (body : string) (k : nat) :
  all_chars is_b64_char body = true ->
  (k <= 3)%nat ->
  ((String.length body + k) mod 4 = 0)%nat ->
  base64ToUtf8 pf (page_urlsafe (body ++ padding k))
  = utf8_decode pf <$> atob pf (body ++ padding k).
Proof.
  intros Hb Hk Hlen. rewrite (page_urlsafe_body body k Hb).
  unfold base64ToUtf8. rewrite trim_urlsafe, normalise_urlsafe.
  destruct (urlsafe_plain body Hb) as [Hplain Hnorm].
  assert (Hbody_plain : all_chars (fun c => negb (Js.is_space c)) body = true).
  { clear -Hb. induction body as [|c body IH]; [reflexivity|].
    cbn [all_chars] in *. apply andb_true_iff in Hb as [Hc Hb]. rewrite (IH Hb).
    destruct c as [[] [] [] [] [] [] [] []]; try discriminate Hc; reflexivity. }
  unfold Js.trim. rewrite trim_start_plain, trim_end_plain by exact Hbody_plain.
  rewrite Hnorm.
  pose proof (pad4_padding body 3 ltac:(lia)) as Hpad.
  assert (E : ((4 - String.length body mod 4) mod 4 = k)%nat).
  { pose proof (padding_least body k Hlen) as Hle.
    rewrite (Nat.Div0.add_mod _ k 4) in Hlen.
    pose proof (Nat.mod_upper_bound (String.length body) 4 ltac:(lia)).
    rewrite (Nat.mod_small k 4) in Hlen by lia.
    destruct (String.length body mod 4)%nat as [|[|[|[|r]]]]; [| | | |lia];
      destruct k as [|[|[|[|k]]]]; cbn in Hlen, Hle |- *; lia. }
  rewrite Hpad, E. destruct (atob pf _); reflexivity.
Qed.

End PageEncoding.

(* ===================================================================== *)
(** ** Beyond the claims: hashes, keys and routes *)
(* ===================================================================== *)

Lemma hex_digit_inj n m :
  (n < 16)%N -> (m < 16)%N -> hex_digit n = hex_digit m -> n = m.
Proof.
  intros Hn Hm.
  assert (Hcases : forall x, (x < 16)%N ->
            In x [0; 1; 2; 3; 4; 5; 6; 7; 8; 9; 10; 11; 12; 13; 14; 15]%N).
  { intros x Hx. destruct x as [|p]; [cbn; tauto|].
    do 4 (destruct p as [p|p|]; try lia; cbn; try tauto). }
  pose proof (Hcases n Hn) as Hin. pose proof (Hcases m Hm) as Him.
  cbn [In] in Hin, Him.
  repeat (destruct Hin as [<-|Hin]; [
    repeat (destruct Him as [<-|Him]; [first [reflexivity | discriminate]|]);
    contradiction |]).
  contradiction.
Qed.

Lemma hex_digit_hex n : (n < 16)%N -> is_hex_char (hex_digit n) = true.
Proof.
  intros Hn. destruct n as [|p]; [reflexivity|].
  do 4 (destruct p as [p|p|]; try lia; try reflexivity).
Qed.

Lemma byte_to_N_inj b1 b2 : Byte.to_N b1 = Byte.to_N b2 -> b1 = b2.
Proof.
  intros H. pose proof (Byte.of_to_N b1) as H1. pose proof (Byte.of_to_N b2) as H2.
  rewrite H in H1. congruence.
Qed.

Lemma hex2_inj b1 b2 : hex2 b1 = hex2 b2 -> b1 = b2.
Proof.
  unfold hex2. intros H. injection H as Hhi Hlo.
  pose proof (Byte.to_N_bounded b1) as B1. pose proof (Byte.to_N_bounded b2) as B2.
  apply byte_to_N_inj.
  set (n := Byte.to_N b1) in *. set (m := Byte.to_N b2) in *.
  apply hex_digit_inj in Hhi;
    [|apply N.Div0.div_lt_upper_bound; lia | apply N.Div0.div_lt_upper_bound; lia].
  apply hex_digit_inj in Hlo; [|apply N.mod_lt; lia | apply N.mod_lt; lia].
  rewrite (N.div_mod n 16), (N.div_mod m 16) by lia. congruence.
Qed.

Lemma hex_fold (l : list Byte.byte) : forall acc,
  fold_left (fun hex b => hex ++ hex2 b) l acc
  = acc ++ fold_left (fun hex b => hex ++ hex2 b) l "".
Proof.
  induction l as [|b l IH]; intros acc; cbn [fold_left].
  - rewrite JsFacts.app_nil_r. reflexivity.
  - rewrite IH, (IH ("" ++ hex2 b)), JsFacts.app_nil_l, JsFacts.app_assoc. reflexivity.
Qed.

Lemma hex_fold_cons b (l : list Byte.byte) :
  fold_left (fun hex b => hex ++ hex2 b) (b :: l) ""
  = hex2 b ++ fold_left (fun hex b => hex ++ hex2 b) l "".
Proof. cbn [fold_left]. rewrite hex_fold, JsFacts.app_nil_l. reflexivity. Qed.

Lemma hex_fold_inj (l1 : list Byte.byte) : forall l2,
  fold_left (fun hex b => hex ++ hex2 b) l1 ""
  = fold_left (fun hex b => hex ++ hex2 b) l2 "" -> l1 = l2.
Proof.
  induction l1 as [|b1 l1 IH]; intros [|b2 l2] H.
  - reflexivity.
  - rewrite hex_fold_cons in H. discriminate.
  - rewrite hex_fold_cons in H. discriminate.
  - rewrite !hex_fold_cons in H. unfold hex2 in H at 1 3.
    rewrite !JsFacts.app_cons, !JsFacts.app_nil_l in H.
    injection H as Hhi Hlo Hrest.
    f_equal; [|apply IH, Hrest].
    apply hex2_inj. unfold hex2. congruence.
Qed.

Section HashFacts.

Variable pf : Platform.
Variable landingHtml : Env -> string.

(** X14: The hexadecimal spelling of the digest: two lowercase hexadecimal
    digits per byte, and nothing lost: two texts have the same spelling,
    and so the same DedupEntry key, exactly when their digests are equal. *)
Theorem sha1Hex_spec (u : string) :
  String.length (sha1Hex pf u) = (2 * length (sha1_digest pf u))%nat
  /\ all_chars is_hex_char (sha1Hex pf u) = true
  /\ forall v, dedupKey pf u = dedupKey pf v <-> sha1_digest pf u = sha1_digest pf v.
Proof.
  unfold dedupKey, sha1Hex. split; [|split].
  - induction (sha1_digest pf u) as [|b l IH]; [reflexivity|].
    rewrite hex_fold_cons, JsFacts.length_app, IH. cbn [hex2 String.length length]. lia.
  - induction (sha1_digest pf u) as [|b l IH]; [reflexivity|].
    rewrite hex_fold_cons, JsFacts.all_chars_app, IH, andb_true_r.
    pose proof (Byte.to_N_bounded b) as Hb.
    unfold hex2. cbn [all_chars].
    rewrite !hex_digit_hex; [reflexivity | apply N.mod_lt; lia
                             | apply N.Div0.div_lt_upper_bound; lia].
  - intros v. split.
    + intros H. apply String.app_inj in H. apply hex_fold_inj, H.
    + intros ->. reflexivity.
Qed.

(** X15: DedupEntries are out of reach of visitors: the path made of a
    DedupEntry key does not have the shape of a code, so a request for it
    is answered 404 and no store is used. *)
Theorem dedup_keys_are_not_served (u : string) (req : Request) (env : Env) (w : World) :
  req_pathname req = "/" ++ dedupKey pf u ->
  handle pf landingHtml req env w = (Returned (text "Not Found" 404 []), w).
Proof.
  intros Hp.
  assert (Hm : match_code_path (req_pathname req) = None).
  { rewrite Hp. apply malformed_no_match. right. right. exists ":"%char. split.
    - right. left. reflexivity.
    - vm_compute. intuition discriminate. }
  unfold handle.
  destruct (String.eqb_spec (req_pathname req) "/healthz") as [E|_];
    [rewrite E in Hm; discriminate|].
  destruct (String.eqb_spec (req_pathname req) "/short") as [E|_];
    [rewrite E in Hm; discriminate|].
  destruct (String.eqb_spec (req_pathname req) "/") as [E|_];
    [rewrite Hp in E; discriminate|].
  cbn [andb]. unfold resolve. rewrite Hm. reflexivity.
Qed.

(** X16: Resolution, in full.  A [GET] or [HEAD] of a path with the shape of a
    code ([/healthz] apart) makes exactly one call on the KV binding, the
    read of that code, and never writes.  If the read is rejected the
    handler throws; if the value is missing, expired or empty the answer
    is 404; otherwise the value is parsed as a URL: the answer is a 302
    whose only header is a location, the serialization of the parsed URL
    (which need not be the stored text), and the handler throws a
    TypeError if the value does not parse. *)
Theorem resolve_spec (req : Request) (env : Env) (w : World) (code : string) :
  req_method req = "GET" \/ req_method req = "HEAD" ->
  match_code_path (req_pathname req) = Some code ->
  req_pathname req <> "/healthz" ->
  LINKS env = true ->
  let run := handle pf landingHtml req env w in
  run.2 = log_kv (KvGet code) w
  /\ run.1 =
     if kv_fault w (length (kv_calls w)) then Thrown (KvError (KvGet code))
     else match kv_read w code with
          | Some v =>
              if String.eqb v "" then Returned (text "Not Found" 404 [])
              else match URL_parse pf v with
                   | Some x => Returned {| status := 302;
                                           headers := [("location", url_href x)];
                                           body := BodyNull |}
                   | None => Thrown TypeError
                   end
          | None => Returned (text "Not Found" 404 [])
          end.
Proof.
  intros Hmeth Hm Hh HL. cbv zeta.
  assert (Hhandle : handle pf landingHtml req env w = resolve pf req env w).
  { unfold handle.
    destruct (String.eqb_spec (req_pathname req) "/healthz") as [E|_]; [contradiction|].
    assert (Hnot : forall m, m = "OPTIONS" \/ m = "POST" ->
                     String.eqb (req_method req) m = false).
    { intros m [-> | ->]; destruct Hmeth as [-> | ->]; reflexivity. }
    rewrite !Hnot by auto. rewrite !andb_false_r.
    destruct (String.eqb_spec (req_pathname req) "/") as [E|_]; [|reflexivity].
    rewrite E in Hm. discriminate. }
  rewrite Hhandle. unfold resolve. rewrite Hm, HL.
  assert (String.eqb (req_method req) "GET" || String.eqb (req_method req) "HEAD" = true)
    as -> by (destruct Hmeth as [-> | ->]; reflexivity).
  cbn [negb]. unfold mbind, M_bind. rewrite get_run.
  destruct (kv_fault w (length (kv_calls w))); [split; reflexivity|].
  destruct (kv_read w code) as [v|]; [|split; reflexivity].
  unfold Js.truthy. destruct (String.eqb v ""); cbn [negb]; [split; reflexivity|].
  cbn [default from_option]. unfold id, Response_redirect.
  destruct (URL_parse pf v); split; reflexivity.
Qed.

(** X17: Every code the allocator can hand out is served: its path has the
    shape the resolver wants and is none of the reserved routes, so a [GET]
    of it reads that code from the namespace. *)
Theorem generated_codes_are_routed (w0 : World) (i : nat) (req : Request) (env : Env)
    (w : World) :
  req_pathname req = "/" ++ candidate w0 i ->
  req_method req = "GET" \/ req_method req = "HEAD" ->
  LINKS env = true ->
  match_code_path (req_pathname req) = Some (candidate w0 i)
  /\ kv_calls (handle pf landingHtml req env w).2 = KvGet (candidate w0 i) :: kv_calls w.
Proof.
  intros Hp Hmeth HL. pose proof (candidate_token w0 i) as Ht.
  assert (Hm : match_code_path (req_pathname req) = Some (candidate w0 i))
    by (rewrite Hp; apply token_match, Ht).
  split; [exact Hm|].
  rewrite (handle_visit pf landingHtml req env w _ Ht Hp). unfold resolve.
  rewrite Hm, HL.
  assert (String.eqb (req_method req) "GET" || String.eqb (req_method req) "HEAD" = true)
    as -> by (destruct Hmeth as [-> | ->]; reflexivity).
  cbn [negb]. unfold mbind, M_bind. rewrite get_run.
  destruct (kv_fault w _); [reflexivity|].
  destruct (negb _); [reflexivity|].
  unfold Response_redirect. cbv beta.
  destruct (URL_parse pf _); reflexivity.
Qed.

End HashFacts.

(** X18: The generator is not uniform: a byte is reduced modulo 57, and 256 is
    not a multiple of 57, so each of the first 28 symbols of the alphabet
    is the image of 5 byte values and each of the other 29 of 4.  Every
    symbol can be drawn. *)
Theorem genCode_symbol_frequency (i : nat) (c : ascii) :
  String.get i chars = Some c ->
  length (filter (fun b => genCode_loop [b] "" = String c EmptyString) all_bytes)
  = if (i <? 28)%nat then 5%nat else 4%nat.
Proof.
  intros H.
  assert (Hi : (i < 57)%nat).
  { destruct (Nat.lt_ge_cases i 57) as [Hlt|Hge]; [exact Hlt|].
    exfalso. revert H. clear -Hge.
    assert (Hnone : forall (s : string) n, (String.length s <= n)%nat -> String.get n s = None).
    { induction s as [|a s IH]; intros n Hn; [destruct n; reflexivity|].
      destruct n as [|n]; cbn in Hn |- *; [lia | apply IH; lia]. }
    rewrite (Hnone chars i) by (rewrite chars_length; exact Hge). discriminate. }
  do 57 (destruct i as [|i];
         [vm_compute in H; injection H as <-; vm_compute; reflexivity|]).
  lia.
Qed.

(* ===================================================================== *)
(** ** Beyond the claims: what a request costs and what it writes *)
(* ===================================================================== *)

Lemma allocLoop_budget n : forall w r w',
  allocLoop n w = (r, w') ->
  (length (kv_calls w') <= length (kv_calls w) + n)%nat
  /\ (entropy_pos w' <= entropy_pos w + 7 * n)%nat.
Proof.
  induction n as [|n IH]; intros w r w' H.
  - injection H as _ <-. lia.
  - rewrite allocLoop_S in H. cbv zeta in H.
    destruct (kv_fault w _); [injection H as _ <-; cbn; lia|].
    destruct (negb _); [injection H as _ <-; cbn; lia|].
    apply IH in H. cbn [kv_calls entropy_pos log_kv with_entropy_pos length] in H. lia.
Qed.

Section RequestCost.

Variable pf : Platform.
Variable landingHtml : Env -> string.

Lemma put_budget k v ttl w r w' :
  LINKS.put k v ttl w = (r, w') ->
  length (kv_calls w') = S (length (kv_calls w)) /\ entropy_pos w' = entropy_pos w.
Proof.
  rewrite put_run. destruct (kv_fault w _); intros H; injection H as _ <-;
    split; reflexivity.
Qed.

Lemma get_budget k w r w' :
  LINKS.get k w = (r, w') ->
  length (kv_calls w') = S (length (kv_calls w)) /\ entropy_pos w' = entropy_pos w.
Proof. rewrite get_run. intros H. injection H as _ <-. split; reflexivity. Qed.

Lemma allocateNew_budget env u w r w' :
  allocateNew pf env u w = (r, w') ->
  (length (kv_calls w') <= length (kv_calls w) + 8)%nat
  /\ (entropy_pos w' <= entropy_pos w + 42)%nat.
Proof.
  unfold allocateNew, mbind, M_bind. intros H.
  destruct (allocLoop 6 w) as [r1 w1] eqn:E1. apply allocLoop_budget in E1.
  destruct r1 as [code|e]; [|injection H as _ <-; lia].
  destruct (negb (Js.truthy code)); [injection H as _ <-; lia|].
  destruct (LINKS.put _ u None w1) as [r2 w2] eqn:E2. apply put_budget in E2.
  destruct r2 as [[]|e]; [|injection H as _ <-; lia].
  unfold putDedupCode in H. destruct (dedupTtl env <=? 0).
  - injection H as _ <-. lia.
  - destruct (LINKS.put _ _ _ w2) as [r3 w3] eqn:E3. apply put_budget in E3.
    destruct r3 as [[]|e]; injection H as _ <-; lia.
Qed.

Lemma allocate_budget env u w r w' :
  allocate pf env u w = (r, w') ->
  (length (kv_calls w') <= length (kv_calls w) + 10)%nat
  /\ (entropy_pos w' <= entropy_pos w + 42)%nat.
Proof.
  unfold allocate, getDedupCode. intros H.
  destruct (dedupTtl env <=? 0).
  { change (allocateNew pf env u w = (r, w')) in H. apply allocateNew_budget in H. lia. }
  unfold mbind at 1, M_bind at 1 in H.
  destruct (LINKS.get (dedupKey pf u) w) as [r1 w1] eqn:E1. apply get_budget in E1.
  destruct r1 as [code|e]; [|injection H as _ <-; lia].
  unfold mbind at 1, M_bind at 1 in H.
  destruct (Js.truthy code) eqn:Et.
  - unfold mbind at 1, M_bind at 1 in H.
    destruct (LINKS.get _ w1) as [r2 w2] eqn:E2. apply get_budget in E2.
    destruct r2 as [ex|e]; [|injection H as _ <-; lia].
    cbn [mret M_ret] in H.
    destruct (negb (Js.truthy (if negb (Js.truthy ex) then None else code))).
    + apply allocateNew_budget in H. lia.
    + injection H as _ <-. lia.
  - cbn [mret M_ret] in H. rewrite Et in H. cbn [negb] in H.
    apply allocateNew_budget in H. lia.
Qed.

Lemma filter_put_gets (gets : list KvCall) :
  Forall (fun c => is_get c = true) gets -> filter (fun c => is_put c = true) gets = [].
Proof.
  induction 1 as [|c gets Hc _ IH]; [reflexivity|].
  rewrite filter_cons_False; [exact IH|]. unfold is_put. rewrite Hc. discriminate.
Qed.

Lemma AllocRun_puts env u w r calls m :
  AllocRun pf env u w r calls m ->
  (length (filter (fun c => is_put c = true) calls) <= 2)%nat.
Proof.
  intros H. destruct H; subst_lets;
    repeat (rewrite filter_cons_True by reflexivity);
    repeat (rewrite filter_cons_False by (cbn; discriminate));
    rewrite filter_put_gets by assumption; cbn [length]; lia.
Qed.

Lemma is_create_dec req : {is_create req} + {~ is_create req}.
Proof.
  unfold is_create.
  destruct (String.eqb_spec (req_pathname req) "/short");
    destruct (String.eqb_spec (req_method req) "POST"); tauto.
Qed.

(** Where the calls of a request on the KV binding come from: a request
    either makes at most one read and no write, or it is a creation with a
    validated long URL and its calls are those of the allocator. *)
Lemma handle_store_use req env w r w' :
  handle pf landingHtml req env w = (r, w') ->
  (kv w' = kv w /\ entropy_pos w' = entropy_pos w
   /\ exists gets : list KvCall,
        kv_calls w' = (gets ++ kv_calls w)%list
        /\ Forall (fun c => is_get c = true) gets /\ (length gets <= 1)%nat)
  \/ (is_create req /\
      exists u w1 ra,
        validated_longUrl pf req = Some u /\ same_kv_view w w1
        /\ allocate pf env u w1 = (ra, w')).
Proof.
  intros H.
  assert (Hsame : forall x, (r, w') = (x, w) ->
            kv w' = kv w /\ entropy_pos w' = entropy_pos w
            /\ exists gets : list KvCall,
                 kv_calls w' = (gets ++ kv_calls w)%list
                 /\ Forall (fun c => is_get c = true) gets /\ (length gets <= 1)%nat).
  { intros x E. injection E as _ ->. split; [reflexivity|]. split; [reflexivity|].
    exists []. split; [reflexivity|]. split; [constructor | cbn; lia]. }
  destruct (is_create_dec req) as [Hc|Hc].
  - rewrite (handle_create pf landingHtml _ _ _ Hc) in H.
    destruct (LINKS env) eqn:HL.
    2:{ left. unfold createShort in H. rewrite HL in H. cbn [negb] in H.
        eapply Hsame. symmetry. exact H. }
    destruct (Z.lt_ge_cases (rl_count pf env w (getClientIp req)) (maxReq env)) as [Hlt|Hge].
    + destruct (rateLimit_within_limit pf req env w Hlt)
        as (rl & w1 & Hrl & Hok & Hkv & Hcalls & Hfault & Hclock & Hent & Hpos & _).
      destruct (validated_longUrl pf req) as [u|] eqn:Hv.
      * right. split; [exact Hc|]. exists u, w1.
        rewrite (createShort_accepted pf req env w rl w1 u HL Hrl Hok Hv) in H.
        destruct (allocate pf env u w1) as [ra w2] eqn:Ea. cbn [fst snd] in H.
        injection H as _ <-. exists ra. split; [reflexivity|].
        split; [split; assumption | reflexivity].
      * left. destruct (createShort_rejected pf req env w rl w1 HL Hrl Hok Hv)
          as (resp & Hresp & _).
        rewrite Hresp in H. injection H as _ <-.
        split; [exact Hkv|]. split; [exact Hpos|]. exists [].
        split; [exact Hcalls|]. split; [constructor | cbn; lia].
    + left. unfold createShort in H. rewrite HL in H. cbn [negb] in H.
      unfold mbind at 1, M_bind at 1 in H. rewrite rateLimit_run in H. cbv zeta in H.
      apply Z.leb_le in Hge. rewrite Hge in H. cbn [ok negb] in H.
      injection H as _ <-. split; [reflexivity|]. split; [reflexivity|].
      exists []. split; [reflexivity|]. split; [constructor | cbn; lia].
  - left. unfold handle in H.
    destruct (String.eqb (req_pathname req) "/healthz"); [eapply Hsame; symmetry; exact H|].
    destruct (_ && _); [eapply Hsame; symmetry; exact H|].
    destruct (String.eqb_spec (req_pathname req) "/short") as [Ep|Ep];
      destruct (String.eqb_spec (req_method req) "POST") as [Em|Em]; cbn [andb] in H;
      try (exfalso; apply Hc; split; assumption);
      (destruct (_ && _); [eapply Hsame; symmetry; exact H|]);
      (unfold resolve in H;
       destruct (match_code_path (req_pathname req)) as [code|];
         [|eapply Hsame; symmetry; exact H];
       destruct (_ || _); [|eapply Hsame; symmetry; exact H];
       destruct (LINKS env); cbn [negb] in H; [|eapply Hsame; symmetry; exact H];
       unfold mbind, M_bind in H; rewrite get_run in H;
       assert (Hone : kv (log_kv (KvGet code) w) = kv w
                      /\ entropy_pos (log_kv (KvGet code) w) = entropy_pos w
                      /\ exists gets : list KvCall,
                           kv_calls (log_kv (KvGet code) w) = (gets ++ kv_calls w)%list
                           /\ Forall (fun c => is_get c = true) gets
                           /\ (length gets <= 1)%nat)
         by (split; [reflexivity|]; split; [reflexivity|]; exists [KvGet code];
             split; [reflexivity|]; split; [repeat constructor | cbn; lia]);
       destruct (kv_fault w _); [injection H as _ <-; exact Hone|];
       destruct (negb _); [injection H as _ <-; exact Hone|];
       unfold Response_redirect in H; cbv beta in H;
       destruct (URL_parse pf _); injection H as _ <-; exact Hone).
Qed.

(** X19: What a request costs: a creation makes at most 10 calls on the KV
    binding (two for the DedupEntry, six candidates, two writes), at most 2
    of them writes, and uses at most 42 bytes of entropy; any other
    request makes at most one call, a read, and draws nothing. *)
Theorem request_cost (req : Request) (env : Env) (w w' : World) (r : Outcome Response) :
  handle pf landingHtml req env w = (r, w') ->
  exists calls : list KvCall,
    kv_calls w' = (calls ++ kv_calls w)%list
    /\ (length calls <= 10)%nat
    /\ (length (filter (fun c => is_put c = true) calls) <= 2)%nat
    /\ (entropy_pos w' <= entropy_pos w + 42)%nat
    /\ (~ is_create req ->
        (length calls <= 1)%nat /\ Forall (fun c => is_get c = true) calls
        /\ kv w' = kv w /\ entropy_pos w' = entropy_pos w).
Proof.
  intros H. apply handle_store_use in H
    as [(Hkv & Hpos & gets & Hcalls & Hg & Hlen)|(Hc & u & w1 & ra & Hv & Hview & Ha)].
  - exists gets. split; [exact Hcalls|]. split; [lia|].
    rewrite filter_put_gets by exact Hg. cbn [length]. split; [lia|]. split; [lia|]. auto.
  - pose proof (allocate_budget env u w1 ra w' Ha) as [Hlen Hent].
    apply allocate_run in Ha as (_ & calls & Hcalls & Hrun).
    destruct Hview as [_ _ _ Hpos _ Hc1]. rewrite Hc1 in *. rewrite Hpos in *.
    exists calls. split; [exact Hcalls|].
    split; [rewrite Hcalls, length_app in Hlen; lia|].
    split; [eapply AllocRun_puts; exact Hrun|]. split; [exact Hent | tauto].
Qed.

(** X20: What a request writes: every entry of the namespace that a request
    adds or changes comes from a creation whose long URL passed validation,
    and is either the Link of that URL, without expiry, under a token of
    the generator, or the DedupEntry of that URL, naming such a token and
    expiring after the configured TTL. *)
Theorem only_validated_urls_are_written (req : Request) (env : Env) (w w' : World)
    (r : Outcome Response) (k : string) (e : KvEntry) :
  handle pf landingHtml req env w = (r, w') ->
  kv w' !! k = Some e ->
  kv w !! k <> Some e ->
  is_create req
  /\ exists u,
       validated_longUrl pf req = Some u /\ isHttpUrl pf u = true /\ Js.length u <= 8192
       /\ ((e = link_entry u /\ is_token k)
           \/ (0 < dedupTtl env /\ k = dedupKey pf u
               /\ exists c, is_token c /\ e = dedup_entry c (now_sec w) (dedupTtl env))).
Proof.
  intros H Hnew Hold. apply handle_store_use in H
    as [(Hkv & _)|(Hc & u & w1 & ra & Hv & Hview & Ha)].
  - exfalso. rewrite Hkv in Hnew. contradiction.
  - split; [exact Hc|]. exists u. split; [exact Hv|].
    destruct (validated_longUrl_http pf req u Hv) as [Hhttp Hlen].
    split; [exact Hhttp|]. split; [exact Hlen|].
    apply allocate_run in Ha as (_ & calls1 & _ & Hrun).
    assert (Hnow : now_sec w1 = now_sec w) by (destruct Hview; unfold now_sec; congruence).
    destruct Hview as [Hkv1 _ _ Hpos Hent _].
    assert (Hcand : forall i, candidate w1 i = candidate w1 i) by reflexivity.
    remember (kv w') as m eqn:Hm.
    destruct Hrun; subst_lets; rewrite ?Hkv1 in Hnew; try contradiction.
    + rewrite lookup_insert in Hnew. destruct (decide (candidate w1 i = k)) as [<-|_];
        [|contradiction].
      injection Hnew as <-. left. split; [reflexivity | apply candidate_token].
    + rewrite lookup_insert in Hnew.
      destruct (decide (dedupKey pf u = k)) as [<-|_].
      * injection Hnew as <-. right. split; [assumption|]. split; [reflexivity|].
        exists (candidate w1 i). split; [apply candidate_token|]. rewrite Hnow. reflexivity.
      * rewrite lookup_insert in Hnew.
        destruct (decide (candidate w1 i = k)) as [<-|_]; [|contradiction].
        injection Hnew as <-. left. split; [reflexivity | apply candidate_token].
    + rewrite lookup_insert in Hnew. destruct (decide (candidate w1 i = k)) as [<-|_];
        [|contradiction].
      injection Hnew as <-. left. split; [reflexivity | apply candidate_token].
Qed.

End RequestCost.

(* ---------------------------------------------------------------------- *)
(** *** The base of the short URL *)

Lemma strip_app_slashes s n :
  Js.strip_trailing_slashes (s ++ slashes n) = Js.strip_trailing_slashes s.
Proof.
  induction s as [|c s IH].
  - rewrite JsFacts.app_nil_l. induction n as [|n IHn]; [reflexivity|].
    cbn [slashes Js.strip_trailing_slashes]. rewrite IHn. reflexivity.
  - rewrite JsFacts.app_cons. cbn [Js.strip_trailing_slashes]. rewrite IH. reflexivity.
Qed.

Lemma strip_idempotent s :
  Js.strip_trailing_slashes (Js.strip_trailing_slashes s) = Js.strip_trailing_slashes s.
Proof.
  induction s as [|c s IH]; [reflexivity|]. cbn [Js.strip_trailing_slashes].
  destruct (Js.strip_trailing_slashes s) as [|d t] eqn:E.
  - destruct (Ascii.eqb c "/") eqn:Ec; [reflexivity|].
    cbn [Js.strip_trailing_slashes]. rewrite Ec. reflexivity.
  - change (Js.strip_trailing_slashes (String c (String d t)))
      with (match Js.strip_trailing_slashes (String d t) with
            | EmptyString => if Ascii.eqb c "/" then EmptyString else String c EmptyString
            | t' => String c t'
            end).
    rewrite IH. reflexivity.
Qed.

Lemma strip_length s :
  (String.length (Js.strip_trailing_slashes s) <= String.length s)%nat.
Proof.
  induction s as [|c s IH]; [cbn; lia|]. cbn [Js.strip_trailing_slashes].
  destruct (Js.strip_trailing_slashes s); [destruct (Ascii.eqb c "/")|];
    cbn [String.length] in *; lia.
Qed.

Lemma strip_no_trailing_slash s t : Js.strip_trailing_slashes s <> t ++ "/".
Proof.
  intros E. pose proof (f_equal Js.strip_trailing_slashes E) as E'.
  pose proof (strip_app_slashes t 1) as H1. change (slashes 1) with "/" in H1.
  rewrite strip_idempotent, H1, E in E'.
  pose proof (strip_length t) as Hl. rewrite <- E', JsFacts.length_app in Hl.
  cbn [String.length] in Hl. lia.
Qed.

Section ShortUrlBase.

Variable pf : Platform.
Variable landingHtml : Env -> string.

(** X21: Trailing slashes of [BASE_URL] do not matter: a creation request is
    answered the same, in the same world, with any number of them added to
    a non-empty base; the base put before [/<code>] never ends with a
    slash. *)
Theorem base_url_trailing_slashes (req : Request) (env : Env) (w : World)
    (base : string) (n : nat) :
  is_create req -> base <> "" ->
  handle pf landingHtml req (with_BASE_URL (Some (base ++ slashes n)) env) w
  = handle pf landingHtml req (with_BASE_URL (Some base) env) w
  /\ forall t,
       Js.strip_trailing_slashes
         (Js.or_default (Some (base ++ slashes n)) (req_protocol req ++ "//" ++ req_host req))
       <> t ++ "/".
Proof.
  intros Hc Hb. split; [|intros t; apply strip_no_trailing_slash].
  rewrite !(handle_create pf landingHtml _ _ _ Hc).
  set (e1 := with_BASE_URL (Some (base ++ slashes n)) env).
  set (e2 := with_BASE_URL (Some base) env).
  assert (Hrl : rateLimit pf req e1 = rateLimit pf req e2) by reflexivity.
  assert (Hal : forall u, allocate pf e1 u = allocate pf e2 u) by reflexivity.
  assert (Hcors : forall resp, withCors req resp e1 = withCors req resp e2) by reflexivity.
  assert (Hbase : forall d,
            Js.strip_trailing_slashes (Js.or_default (BASE_URL e1) d)
            = Js.strip_trailing_slashes (Js.or_default (BASE_URL e2) d)).
  { intros d. cbn [BASE_URL e1 e2 with_BASE_URL]. unfold Js.or_default.
    destruct (String.eqb_spec base "") as [E|_]; [contradiction|].
    destruct (String.eqb_spec (base ++ slashes n) "") as [E|_].
    - destruct base; [contradiction | discriminate E].
    - apply strip_app_slashes. }
  unfold createShort. change (LINKS e1) with (LINKS e2).
  destruct (LINKS e2); cbn [negb]; [|rewrite Hcors; reflexivity].
  unfold mbind at 1 3, M_bind at 1 3. rewrite Hrl.
  destruct (rateLimit pf req e2 w) as [[rl|ex] w1]; [|reflexivity].
  destruct (negb (ok rl)); [rewrite Hcors; reflexivity|].
  destruct (req_form req) as [[[b64|]|]|]; try (rewrite Hcors; reflexivity).
  destruct (String.eqb (Js.trim b64) ""); [rewrite Hcors; reflexivity|].
  destruct (8192 <? Js.length b64); [rewrite Hcors; reflexivity|].
  destruct (base64ToUtf8 pf b64) as [u|]; [|rewrite Hcors; reflexivity].
  destruct (8192 <? Js.length u); [rewrite Hcors; reflexivity|].
  destruct (negb (isHttpUrl pf u)); [rewrite Hcors; reflexivity|].
  unfold mbind, M_bind. rewrite Hal.
  destruct (allocate pf e2 u w1) as [[[c|]|ex] w2]; [| |reflexivity].
  - rewrite Hcors, Hbase. reflexivity.
  - rewrite Hcors. reflexivity.
Qed.

End ShortUrlBase.

(* ===================================================================== *)
(** ** Beyond the claims: what is stored stays, what is served is http *)
(* ===================================================================== *)

Lemma code_not_dedup_key path code :
  match_code_path path = Some code -> is_dedup_key code = false.
Proof.
  unfold match_code_path. destruct path as [|a code']; [discriminate|].
  destruct a as [[] [] [] [] [] [] [] []]; try discriminate.
  destruct (_ && _) eqn:E; [|discriminate]. intros [= <-].
  apply andb_true_iff in E as [_ Hc].
  destruct code' as [|c1 [|c2 t]];
    [reflexivity | destruct c1 as [[] [] [] [] [] [] [] []]; reflexivity |].
  cbn [all_chars] in Hc. apply andb_true_iff in Hc as [_ Hc].
  apply andb_true_iff in Hc as [Hc2 _]. unfold is_dedup_key.
  destruct c1 as [[] [] [] [] [] [] [] []]; try reflexivity.
  destruct c2 as [[] [] [] [] [] [] [] []]; try reflexivity. discriminate.
Qed.

Lemma kv_read_entry w k v :
  kv_read w k = Some v -> exists e, kv w !! k = Some e /\ kv_value e = v.
Proof.
  unfold kv_read. destruct (kv w !! k) as [e|]; [|discriminate].
  intros H. exists e. split; [reflexivity|].
  destruct (kv_expiration e) as [x|]; [destruct (x <=? now_sec w)|]; congruence.
Qed.

Section LinkSafety.

Variable pf : Platform.
Variable landingHtml : Env -> string.

(** How a request can end: with a response, which is a 302 only for a
    stored value (an http or https URL when the links are), or with the
    error of a call that the KV binding rejected. *)
Lemma handle_outcome req env w r w' :
  links_are_http pf w ->
  handle pf landingHtml req env w = (r, w') ->
  (exists resp,
     r = Returned resp
     /\ (status resp = 302 ->
         exists v, headers resp = [("location", v)] /\ isHttpUrl pf v = true))
  \/ (exists c n, r = Thrown (KvError c) /\ kv_fault w n = true).
Proof.
  intros Hinv H.
  assert (Hplain : forall resp w0,
            status resp <> 302 -> (Returned resp, w0) = (r, w') ->
            (exists resp,
               r = Returned resp
               /\ (status resp = 302 ->
                   exists v, headers resp = [("location", v)] /\ isHttpUrl pf v = true))
            \/ (exists c n, r = Thrown (KvError c) /\ kv_fault w n = true)).
  { intros resp w0 Hst E. injection E as <- _. left. exists resp.
    split; [reflexivity | intros E; contradiction]. }
  destruct (is_create_dec req) as [Hc|Hc].
  - rewrite (handle_create pf landingHtml _ _ _ Hc) in H.
    destruct (LINKS env) eqn:HL.
    2:{ unfold createShort in H. rewrite HL in H. cbn [negb] in H.
        eapply Hplain; [|exact H]. rewrite withCors_status. discriminate. }
    destruct (Z.lt_ge_cases (rl_count pf env w (getClientIp req)) (maxReq env)) as [Hlt|Hge].
    + destruct (rateLimit_within_limit pf req env w Hlt)
        as (rl & w1 & Hrl & Hok & _ & _ & Hfault & _).
      destruct (validated_longUrl pf req) as [u|] eqn:Hv.
      * rewrite (createShort_accepted pf req env w rl w1 u HL Hrl Hok Hv) in H.
        destruct (allocate pf env u w1) as [ra w2] eqn:Ea. cbn [fst snd] in H.
        apply allocate_run in Ea as (_ & calls & _ & Hrun).
        destruct ra as [[c|]|e]; cbn [create_outcome] in H.
        -- eapply Hplain; [|exact H]. rewrite withCors_status. discriminate.
        -- eapply Hplain; [|exact H]. rewrite withCors_status. discriminate.
        -- injection H as <- _. right. rewrite <- Hfault.
           inversion Hrun; subst; eauto.
      * destruct (createShort_rejected pf req env w rl w1 HL Hrl Hok Hv)
          as (resp & Hresp & Hst).
        rewrite Hresp in H. eapply Hplain; [|exact H].
        destruct Hst as [-> | ->]; discriminate.
    + unfold createShort in H. rewrite HL in H. cbn [negb] in H.
      unfold mbind at 1, M_bind at 1 in H. rewrite rateLimit_run in H. cbv zeta in H.
      apply Z.leb_le in Hge. rewrite Hge in H. cbn [ok negb] in H.
      eapply Hplain; [|exact H]. rewrite withCors_status. discriminate.
  - unfold handle in H.
    destruct (String.eqb (req_pathname req) "/healthz");
      [eapply Hplain; [|exact H]; discriminate|].
    destruct (_ && _);
      [eapply Hplain; [|exact H]; rewrite withCors_status; discriminate|].
    destruct (String.eqb_spec (req_pathname req) "/short") as [Ep|Ep];
      destruct (String.eqb_spec (req_method req) "POST") as [Em|Em]; cbn [andb] in H;
      try (exfalso; apply Hc; split; assumption);
      (destruct (_ && _); [eapply Hplain; [|exact H]; discriminate|]);
      (unfold resolve in H;
       destruct (match_code_path (req_pathname req)) as [code|] eqn:Hm;
         [|eapply Hplain; [|exact H]; discriminate];
       destruct (_ || _); [|eapply Hplain; [|exact H]; discriminate];
       destruct (LINKS env); cbn [negb] in H; [|eapply Hplain; [|exact H]; discriminate];
       unfold mbind, M_bind in H; rewrite get_run in H;
       destruct (kv_fault w _) eqn:Ef; [injection H as <- _; right; eauto|];
       destruct (kv_read w code) as [v|] eqn:Er;
         [|eapply Hplain; [|exact H]; discriminate];
       unfold Js.truthy in H;
       destruct (String.eqb v ""); cbn [negb] in H;
         [eapply Hplain; [|exact H]; discriminate|];
       cbn [default from_option] in H; unfold id, Response_redirect in H;
       apply kv_read_entry in Er as (e & He & <-);
       pose proof (Hinv code e He (code_not_dedup_key _ _ Hm)) as Hhttp;
       destruct (isHttpUrl_parse pf _ Hhttp) as (x & Hx & _ & Hhref);
       rewrite Hx in H; injection H as <- _; left; eexists; split; [reflexivity|];
       intros _; exists (url_href x); split; [reflexivity | exact Hhref]).
Qed.

(** The links stay http: whatever a request writes under a key that is not
    a DedupEntry key is a validated URL. *)
Lemma links_are_http_handle req env w r w' :
  links_are_http pf w ->
  handle pf landingHtml req env w = (r, w') ->
  links_are_http pf w'.
Proof.
  intros Hinv H k e He Hk.
  apply handle_store_use in H as [(Hkv & _)|(Hc & u & w1 & ra & Hv & Hview & Ha)].
  - rewrite Hkv in He. exact (Hinv k e He Hk).
  - destruct (validated_longUrl_http pf req u Hv) as [Hhttp _].
    apply allocate_run in Ha as (_ & calls1 & _ & Hrun).
    destruct Hview as [Hkv1 _ _ _ _ _].
    remember (kv w') as m eqn:Hm.
    destruct Hrun; subst_lets; rewrite ?Hkv1 in He; try exact (Hinv k e He Hk).
    + rewrite lookup_insert in He. destruct (decide (candidate w1 i = k)) as [_|_];
        [injection He as <-; exact Hhttp | exact (Hinv k e He Hk)].
    + rewrite lookup_insert in He.
      destruct (decide (dedupKey pf u = k)) as [<-|_]; [discriminate Hk|].
      rewrite lookup_insert in He. destruct (decide (candidate w1 i = k)) as [_|_];
        [injection He as <-; exact Hhttp | exact (Hinv k e He Hk)].
    + rewrite lookup_insert in He. destruct (decide (candidate w1 i = k)) as [_|_];
        [injection He as <-; exact Hhttp | exact (Hinv k e He Hk)].
Qed.

(** X24: A live link is never overwritten: whatever the request, a key
    that is not a DedupEntry key and whose value can be read before the
    request holds the same entry after it. *)
Theorem live_links_are_kept (req : Request) (env : Env) (w w' : World)
    (r : Outcome Response) (k : string) :
  handle pf landingHtml req env w = (r, w') ->
  is_dedup_key k = false ->
  Js.truthy (kv_read w k) = true ->
  kv w' !! k = kv w !! k.
Proof.
  intros H Hk Hlive.
  apply handle_store_use in H as [(Hkv & _)|(Hc & u & w1 & ra & Hv & Hview & Ha)].
  - rewrite Hkv. reflexivity.
  - apply allocate_run in Ha as (_ & calls1 & _ & Hrun).
    assert (Hfree : forall c, Js.truthy (kv_read w1 c) = false -> c <> k).
    { intros c Hc' ->. rewrite (same_kv_view_read _ _ _ Hview) in Hc'. congruence. }
    destruct Hview as [Hkv1 _ _ _ _ _].
    remember (kv w') as m eqn:Hm.
    destruct Hrun; subst_lets; rewrite ?Hkv1; try reflexivity.
    + rewrite lookup_insert_ne by (apply Hfree; assumption). reflexivity.
    + rewrite lookup_insert_ne by (intros <-; discriminate Hk).
      rewrite lookup_insert_ne by (apply Hfree; assumption). reflexivity.
    + rewrite lookup_insert_ne by (apply Hfree; assumption). reflexivity.
Qed.

(** X25: The worker only redirects to http and https URLs: as long as the
    values stored under codes are such URLs, every 302 it answers carries
    nothing but a [location] that is one of them, the redirect never fails
    on its target, and the values stored after the request are such URLs
    again. *)
Theorem redirects_are_http (req : Request) (env : Env) (w w' : World)
    (r : Outcome Response) :
  links_are_http pf w ->
  handle pf landingHtml req env w = (r, w') ->
  r <> Thrown TypeError
  /\ (forall resp, r = Returned resp -> status resp = 302 ->
        exists v, headers resp = [("location", v)] /\ isHttpUrl pf v = true)
  /\ links_are_http pf w'.
Proof.
  intros Hinv H. split; [|split].
  - destruct (handle_outcome _ _ _ _ _ Hinv H) as [(resp & -> & _)|(c & n & -> & _)];
      discriminate.
  - intros resp -> Hst.
    destruct (handle_outcome _ _ _ _ _ Hinv H) as [(resp' & E & Hloc)|(c & n & E & _)];
      [|discriminate E].
    injection E as <-. exact (Hloc Hst).
  - exact (links_are_http_handle _ _ _ _ _ Hinv H).
Qed.

(** X26: No request fails while the KV binding answers: with a reliable
    binding and http links in the namespace, the handler returns a
    response for every request. *)
Theorem reliable_store_never_throws (req : Request) (env : Env) (w : World) :
  kv_reliable w -> links_are_http pf w ->
  exists resp w', handle pf landingHtml req env w = (Returned resp, w').
Proof.
  intros Hrel Hinv.
  destruct (handle pf landingHtml req env w) as [r w'] eqn:H.
  destruct (handle_outcome _ _ _ _ _ Hinv H) as [(resp & -> & _)|(c & n & _ & Hf)].
  - exists resp, w'. reflexivity.
  - rewrite (Hrel n) in Hf. discriminate.
Qed.

(** X27: What a 200 says: the request carried a long URL that passed
    validation, the short URL is the base without trailing slashes, a slash
    and a code that can be read from the namespace the request leaves; when
    no live DedupEntry was there to reuse, the code is a fresh 7-character
    code of the generator and reads as the long URL; [x-rl-remaining] is
    what the window has left after this request. *)
Theorem created_response (req : Request) (env : Env) (w w' : World) (resp : Response) :
  is_create req ->
  handle pf landingHtml req env w = (Returned resp, w') ->
  status resp = 200 ->
  exists u code,
    validated_longUrl pf req = Some u
    /\ body resp
       = BodyJson (ApiOk (Js.strip_trailing_slashes
                            (Js.or_default (BASE_URL env)
                               (req_protocol req ++ "//" ++ req_host req))
                          ++ "/" ++ code))
    /\ is_Some (kv_read w' code)
    /\ (dedup_live pf env w u = None -> is_token code /\ kv_read w' code = Some u)
    /\ headers_get "x-rl-remaining" (headers resp)
       = Some (Js.String_of (maxReq env - (rl_count pf env w (getClientIp req) + 1))).
Proof.
  intros Hc H Hst. rewrite (handle_create pf landingHtml _ _ _ Hc) in H.
  destruct (LINKS env) eqn:HL.
  2:{ unfold createShort in H. rewrite HL in H. cbn [negb] in H. injection H as <- _.
      rewrite withCors_status in Hst. discriminate Hst. }
  destruct (Z.lt_ge_cases (rl_count pf env w (getClientIp req)) (maxReq env)) as [Hlt|Hge].
  2:{ unfold createShort in H. rewrite HL in H. cbn [negb] in H.
      unfold mbind at 1, M_bind at 1 in H. rewrite rateLimit_run in H. cbv zeta in H.
      apply Z.leb_le in Hge. rewrite Hge in H. cbn [ok negb] in H. injection H as <- _.
      rewrite withCors_status in Hst. discriminate Hst. }
  pose proof (rateLimit_run pf req env w) as Hrl. cbv zeta in Hrl.
  apply Z.leb_gt in Hlt. rewrite Hlt in Hrl.
  match type of Hrl with _ = (Returned ?x, ?y) => set (rl := x) in *; set (w1 := y) in * end.
  assert (Hview : same_kv_view w w1) by (split; reflexivity).
  assert (Hok : ok rl = true) by reflexivity.
  assert (Hrem : remaining rl = maxReq env - (rl_count pf env w (getClientIp req) + 1))
    by reflexivity.
  clearbody rl w1.
  destruct (validated_longUrl pf req) as [u|] eqn:Hv.
  2:{ destruct (createShort_rejected pf req env w rl w1 HL Hrl Hok Hv)
        as (resp' & Hresp & Hst').
      rewrite Hresp in H. injection H as <- _. destruct Hst' as [E|E]; congruence. }
  rewrite (createShort_accepted pf req env w rl w1 u HL Hrl Hok Hv) in H.
  destruct (allocate pf env u w1) as [ra w2] eqn:Ea. cbn [fst snd] in H.
  apply allocate_run in Ea as (Hframe & calls & _ & Hrun).
  destruct ra as [[c|]|e]; cbn [create_outcome] in H;
    [|injection H as <- _; rewrite withCors_status in Hst; discriminate Hst
     |discriminate H].
  injection H as <- <-. exists u, c. split; [reflexivity|].
  split; [rewrite withCors_body; reflexivity|].
  assert (Hnow : now_sec w2 = now_sec w1)
    by (unfold now_sec; rewrite (frame_clock _ _ Hframe); reflexivity).
  assert (Hcode : is_Some (kv_read w2 c)
                  /\ (dedup_live pf env w u = None ->
                      is_token c /\ kv_read w2 c = Some u)).
  { rewrite <- (same_kv_view_dedup_live pf env w w1 u Hview).
    inversion Hrun; subst; subst_lets;
      match goal with Ek : _ = kv w2 |- _ => rename Ek into Hkv2 end.
    - match goal with Hl : dedup_live _ _ _ _ = Some _ |- _ => rename Hl into Hlive end.
      split; [|intros E; congruence].
      rewrite (kv_read_ext w1 w2 c (eq_sym Hkv2) Hnow).
      apply dedup_live_Some in Hlive as (_ & _ & _ & Ht).
      destruct (kv_read w1 c); [eauto | discriminate Ht].
    - assert (E : kv_read w2 (candidate w1 i) = Some u).
      { apply kv_read_link. rewrite <- Hkv2. apply lookup_insert_eq. }
      rewrite E. split; [eauto|]. intros _. split; [apply candidate_token | reflexivity].
    - assert (E : kv_read w2 (candidate w1 i) = Some u).
      { apply kv_read_link. rewrite <- Hkv2.
        rewrite lookup_insert_ne by (apply dedupKey_token, candidate_token).
        apply lookup_insert_eq. }
      rewrite E. split; [eauto|]. intros _. split; [apply candidate_token | reflexivity]. }
  split; [exact (proj1 Hcode)|]. split; [exact (proj2 Hcode)|].
  rewrite withCors_other by (cbn; intuition discriminate). rewrite <- Hrem. reflexivity.
Qed.

End LinkSafety.

(* ===================================================================== *)
(** ** The theorems beyond the claims, run on the samples *)
(* ===================================================================== *)

Lemma other_routes_leave_the_world_witness :
  exists resp,
    handle Sample.platform Sample.page (Sample.visit "a.b") Sample.env Sample.world
    = (Returned resp, Sample.world)
    /\ (status resp = 200 \/ status resp = 204 \/ status resp = 404).
Proof.
  apply (other_routes_leave_the_world Sample.platform Sample.page (Sample.visit "a.b")
           Sample.env Sample.world).
  intros [[H _]|(_ & H & _)].
  - vm_compute in H. discriminate H.
  - apply H. reflexivity.
Defined.

Lemma missing_binding_answers_500_witness :
  exists resp,
    handle Sample.platform Sample.page Sample.create Scenes.env_unbound Sample.world
    = (Returned resp, Sample.world)
    /\ (is_create Sample.create ->
        status resp = 500
        /\ body resp = BodyJson (ApiError "KV binding LINKS not found"))
    /\ ((req_method Sample.create = "GET" \/ req_method Sample.create = "HEAD") ->
        req_pathname Sample.create <> "/healthz" ->
        match_code_path (req_pathname Sample.create) <> None ->
        status resp = 500 /\ body resp = BodyText "KV binding LINKS not found").
Proof.
  apply (missing_binding_answers_500 Sample.platform Sample.page Sample.create
           Scenes.env_unbound Sample.world).
  reflexivity.
Defined.

Lemma refused_request_changes_nothing_witness :
  let key := rl_key Sample.platform Sample.env_rl (now_sec Scenes.world_spent)
               (getClientIp Sample.create) in
  let reset := (rl_bucket Sample.env_rl (now_sec Scenes.world_spent) + 1)
               * windowSec Sample.env_rl - now_sec Scenes.world_spent in
  exists resp,
    handle Sample.platform Sample.page Sample.create Sample.env_rl Scenes.world_spent
    = (Returned resp, log_cache (CacheMatch key) Scenes.world_spent)
    /\ status resp = 429
    /\ body resp = BodyJson (ApiError "Rate limited. Please try again later.")
    /\ headers_get "x-rl-remaining" (headers resp) = Some "0"
    /\ headers_get "x-rl-reset-in" (headers resp) = Some (Js.String_of reset).
Proof.
  apply (refused_request_changes_nothing Sample.platform Sample.page Sample.create
           Sample.env_rl Scenes.world_spent).
  - split; reflexivity.
  - reflexivity.
  - vm_compute. discriminate.
Defined.

Lemma create_response_contract_witness :
  exists resp w',
    handle Sample.platform Sample.page Sample.create Sample.env Sample.world
    = (Returned resp, w')
    /\ In (status resp) [200; 400; 413; 429; 500]
    /\ headers_get "content-type" (headers resp) = Some "application/json; charset=utf-8"
    /\ exists obj, body resp = BodyJson obj /\ (Code obj = 1 <-> status resp = 200).
Proof.
  eexists _, _. split; [vm_compute; reflexivity|].
  eapply (create_response_contract Sample.platform Sample.page Sample.create Sample.env
            Sample.world).
  - split; reflexivity.
  - vm_compute. reflexivity.
Defined.

Lemma rateLimit_other_client_witness :
  rl_count Sample.platform Sample.env_rl
    (rateLimit Sample.platform Sample.create Sample.env_rl Sample.world).2 Scenes.other_ip
  = rl_count Sample.platform Sample.env_rl Sample.world Scenes.other_ip.
Proof.
  apply (rateLimit_other_client Sample.platform Sample.create Sample.env_rl Sample.world
           Scenes.other_ip).
  vm_compute. discriminate.
Defined.

Lemma window_quota_witness :
  let waits := [1000; 1000; 1000; 1000; 1000] in
  rl_run Sample.platform Sample.create Sample.env_rl waits Sample.world
  = map (expected_decision (maxReq Sample.env_rl) 0) (seq 0 (length waits))
  /\ length (filter (fun d => is_allowed d = true)
               (rl_run Sample.platform Sample.create Sample.env_rl waits Sample.world))
     = Nat.min (length waits) (Z.to_nat (maxReq Sample.env_rl - 0)).
Proof.
  apply (window_quota Sample.platform Sample.create Sample.env_rl
           [1000; 1000; 1000; 1000; 1000] Sample.world 0).
  - vm_compute. reflexivity.
  - repeat (apply List.Forall_cons; [lia|]). apply List.Forall_nil.
  - vm_compute. reflexivity.
Defined.

Lemma pad4_spec_witness :
  let k := ((4 - String.length Scenes.b64_body mod 4) mod 4)%nat in
  pad4 3 Scenes.b64_body = Scenes.b64_body ++ padding k
  /\ (String.length (pad4 3 Scenes.b64_body) mod 4 = 0)%nat
  /\ (k <= 3)%nat
  /\ (forall j, ((String.length Scenes.b64_body + j) mod 4 = 0)%nat -> (k <= j)%nat).
Proof. apply (pad4_spec Scenes.b64_body 3). lia. Defined.

Lemma page_text_is_restored_witness :
  base64ToUtf8 Sample.platform (page_urlsafe (Scenes.b64_body ++ padding 2))
  = utf8_decode Sample.platform <$> atob Sample.platform (Scenes.b64_body ++ padding 2).
Proof.
  apply (page_text_is_restored Sample.platform Scenes.b64_body 2).
  - reflexivity.
  - lia.
  - reflexivity.
Defined.

Lemma dedup_keys_are_not_served_witness :
  handle Sample.platform Sample.page
    (Sample.visit (dedupKey Sample.platform Sample.longUrl)) Sample.env_dedup
    Sample.world_created
  = (Returned (text "Not Found" 404 []), Sample.world_created).
Proof.
  apply (dedup_keys_are_not_served Sample.platform Sample.page Sample.longUrl).
  reflexivity.
Defined.

Lemma resolve_spec_witness :
  let w := Sample.world_created in
  let run := handle Sample.platform Sample.page (Sample.visit Sample.first_code)
               Sample.env_dedup w in
  run.2 = log_kv (KvGet Sample.first_code) w
  /\ run.1 =
     if kv_fault w (length (kv_calls w)) then Thrown (KvError (KvGet Sample.first_code))
     else match kv_read w Sample.first_code with
          | Some v =>
              if String.eqb v "" then Returned (text "Not Found" 404 [])
              else match URL_parse Sample.platform v with
                   | Some x => Returned {| status := 302;
                                           headers := [("location", url_href x)];
                                           body := BodyNull |}
                   | None => Thrown TypeError
                   end
          | None => Returned (text "Not Found" 404 [])
          end.
Proof.
  apply (resolve_spec Sample.platform Sample.page (Sample.visit Sample.first_code)
           Sample.env_dedup Sample.world_created Sample.first_code).
  - left. reflexivity.
  - vm_compute. reflexivity.
  - vm_compute. discriminate.
  - reflexivity.
Defined.

Lemma generated_codes_are_routed_witness :
  let req := Sample.visit (candidate Sample.world 0) in
  match_code_path (req_pathname req) = Some (candidate Sample.world 0)
  /\ kv_calls (handle Sample.platform Sample.page req Sample.env Sample.world).2
     = KvGet (candidate Sample.world 0) :: kv_calls Sample.world.
Proof.
  apply (generated_codes_are_routed Sample.platform Sample.page Sample.world 0
           (Sample.visit (candidate Sample.world 0)) Sample.env Sample.world).
  - reflexivity.
  - left. reflexivity.
  - reflexivity.
Defined.

Lemma genCode_symbol_frequency_witness :
  length (filter (fun b => genCode_loop [b] "" = String "A" EmptyString) all_bytes)
  = if (0 <? 28)%nat then 5%nat else 4%nat.
Proof. apply (genCode_symbol_frequency 0 "A"). reflexivity. Defined.

Lemma request_cost_witness :
  let run := handle Sample.platform Sample.page Sample.create Sample.env_dedup
               Sample.world in
  exists calls : list KvCall,
    kv_calls run.2 = (calls ++ kv_calls Sample.world)%list
    /\ (length calls <= 10)%nat
    /\ (length (filter (fun c => is_put c = true) calls) <= 2)%nat
    /\ (entropy_pos run.2 <= entropy_pos Sample.world + 42)%nat
    /\ (~ is_create Sample.create ->
        (length calls <= 1)%nat /\ Forall (fun c => is_get c = true) calls
        /\ kv run.2 = kv Sample.world /\ entropy_pos run.2 = entropy_pos Sample.world).
Proof.
  cbv zeta.
  apply (request_cost Sample.platform Sample.page Sample.create Sample.env_dedup
           Sample.world
           (handle Sample.platform Sample.page Sample.create Sample.env_dedup Sample.world).2
           (handle Sample.platform Sample.page Sample.create Sample.env_dedup Sample.world).1).
  apply surjective_pairing.
Defined.

Lemma only_validated_urls_are_written_witness :
  is_create Sample.create
  /\ exists u,
       validated_longUrl Sample.platform Sample.create = Some u
       /\ isHttpUrl Sample.platform u = true /\ Js.length u <= 8192
       /\ ((link_entry Sample.longUrl = link_entry u /\ is_token Sample.first_code)
           \/ (0 < dedupTtl Sample.env_dedup
               /\ Sample.first_code = dedupKey Sample.platform u
               /\ exists c, is_token c
                    /\ link_entry Sample.longUrl
                       = dedup_entry c (now_sec Sample.world) (dedupTtl Sample.env_dedup))).
Proof.
  apply (only_validated_urls_are_written Sample.platform Sample.page Sample.create
           Sample.env_dedup Sample.world
           (handle Sample.platform Sample.page Sample.create Sample.env_dedup Sample.world).2
           (handle Sample.platform Sample.page Sample.create Sample.env_dedup Sample.world).1
           Sample.first_code (link_entry Sample.longUrl)).
  - apply surjective_pairing.
  - vm_compute. reflexivity.
  - vm_compute. discriminate.
Defined.

Lemma base_url_trailing_slashes_witness :
  handle Sample.platform Sample.page Sample.create
    (with_BASE_URL (Some ("https://s.example.com" ++ slashes 2)) Sample.env) Sample.world
  = handle Sample.platform Sample.page Sample.create
      (with_BASE_URL (Some "https://s.example.com") Sample.env) Sample.world
  /\ forall t,
       Js.strip_trailing_slashes
         (Js.or_default (Some ("https://s.example.com" ++ slashes 2))
            (req_protocol Sample.create ++ "//" ++ req_host Sample.create))
       <> t ++ "/".
Proof.
  apply (base_url_trailing_slashes Sample.platform Sample.page Sample.create Sample.env
           Sample.world "https://s.example.com" 2).
  - split; reflexivity.
  - discriminate.
Defined.

Lemma StoreInv_handle_witness :
  StoreInv Sample.platform
    (handle Sample.platform Sample.page Sample.create Sample.env_dedup Sample.world).2.
Proof.
  apply (StoreInv_handle Sample.platform Sample.page eq_refl Sample.create
           Sample.env_dedup Sample.world
           (handle Sample.platform Sample.page Sample.create Sample.env_dedup Sample.world).1
           (handle Sample.platform Sample.page Sample.create Sample.env_dedup Sample.world).2).
  - apply StoreInv_empty. reflexivity.
  - apply surjective_pairing.
Defined.

Lemma dedup_window_after_creation_witness :
  is_Some (kv_read (advance_ms 600000 Sample.world_created)
             (dedupKey Sample.platform Sample.longUrl))
  <-> now_sec (advance_ms 600000 Sample.world_created)
      < now_sec Sample.world + dedupTtl Sample.env_dedup.
Proof.
  apply (dedup_window_after_creation Sample.platform Sample.env_dedup
           Sample.longUrl Sample.world Sample.world_created Sample.first_code 600000).
  - reflexivity.
  - reflexivity.
  - vm_compute. reflexivity.
Defined.

Lemma links_are_http_world_after : links_are_http Sample.platform Scenes.world_after.
Proof.
  apply (links_are_http_handle Sample.platform Sample.page Sample.create Sample.env_dedup
           Sample.world
           (handle Sample.platform Sample.page Sample.create Sample.env_dedup Sample.world).1
           Scenes.world_after).
  - intros k e He. unfold Sample.world in He. cbn [kv] in He.
    rewrite lookup_empty in He. discriminate.
  - apply surjective_pairing.
Defined.

Lemma live_links_are_kept_witness :
  kv (handle Sample.platform Sample.page Sample.create Sample.env Scenes.world_after).2
    !! Sample.first_code
  = kv Scenes.world_after !! Sample.first_code.
Proof.
  apply (live_links_are_kept Sample.platform Sample.page Sample.create Sample.env
           Scenes.world_after
           (handle Sample.platform Sample.page Sample.create Sample.env Scenes.world_after).2
           (handle Sample.platform Sample.page Sample.create Sample.env Scenes.world_after).1
           Sample.first_code).
  - apply surjective_pairing.
  - reflexivity.
  - vm_compute. reflexivity.
Defined.

Lemma redirects_are_http_witness :
  let run := handle Sample.platform Sample.page (Sample.visit Sample.first_code)
               Sample.env_dedup Scenes.world_after in
  run.1 <> Thrown TypeError
  /\ (forall resp, run.1 = Returned resp -> status resp = 302 ->
        exists v, headers resp = [("location", v)] /\ isHttpUrl Sample.platform v = true)
  /\ links_are_http Sample.platform run.2.
Proof.
  cbv zeta.
  apply (redirects_are_http Sample.platform Sample.page (Sample.visit Sample.first_code)
           Sample.env_dedup Scenes.world_after).
  - exact links_are_http_world_after.
  - apply surjective_pairing.
Defined.

Lemma reliable_store_never_throws_witness :
  exists resp w',
    handle Sample.platform Sample.page (Sample.visit Sample.first_code) Sample.env_dedup
      Scenes.world_after
    = (Returned resp, w').
Proof.
  apply (reliable_store_never_throws Sample.platform Sample.page
           (Sample.visit Sample.first_code) Sample.env_dedup Scenes.world_after).
  - intros n. vm_compute. reflexivity.
  - exact links_are_http_world_after.
Defined.

Lemma created_response_witness :
  exists resp w',
    handle Sample.platform Sample.page Sample.create Sample.env_dedup Sample.world
    = (Returned resp, w')
    /\ exists u code,
         validated_longUrl Sample.platform Sample.create = Some u
         /\ body resp
            = BodyJson (ApiOk (Js.strip_trailing_slashes
                                 (Js.or_default (BASE_URL Sample.env_dedup)
                                    (req_protocol Sample.create ++ "//"
                                     ++ req_host Sample.create))
                               ++ "/" ++ code))
         /\ is_Some (kv_read w' code)
         /\ (dedup_live Sample.platform Sample.env_dedup Sample.world u = None ->
             is_token code /\ kv_read w' code = Some u)
         /\ headers_get "x-rl-remaining" (headers resp)
            = Some (Js.String_of
                      (maxReq Sample.env_dedup
                       - (rl_count Sample.platform Sample.env_dedup Sample.world
                            (getClientIp Sample.create) + 1))).
Proof.
  eexists _, _. split; [vm_compute; reflexivity|].
  eapply (created_response Sample.platform Sample.page Sample.create Sample.env_dedup
            Sample.world).
  - split; reflexivity.
  - vm_compute. reflexivity.
  - reflexivity.
Defined.
